(** * fuzz.py: the MLForensics fuzz harness, embedded and verified

    The harness (src/fuzz.py) drives five externally supplied operations
    with random and hand-picked inputs, isolates their failures with
    [try]/[except Exception], counts outcomes in a [FuzzReporter] and
    exits with a status that tells whether any failure was logged.

    The embedding follows the Python text function by function:
    - Python values that travel through the harness are a small
      inductive type [pyval]; exceptions are records [exn];
    - everything outside the file (the [random] module, the clock, the
      temporary-file names, the five target operations, the imports)
      is an oracle of a [World];
    - statements run in a state-and-exception monad [M] whose state
      holds the reporter, the oracle cursors, the local variables that
      a handler reads, and the list of observable events.

    What the model takes from its environment, and every statement
    below is about runs in which this holds:
    - an exception that a target raises is an instance of [Exception],
      so every [except Exception] of the file catches it; a
      [SystemExit], [KeyboardInterrupt] or [GeneratorExit] coming out
      of a target passes these handlers and is not modelled;
    - writing to the console, creating and writing a temporary file,
      creating a temporary directory and the files put in it, and
      opening and writing [fuzz_report.txt] succeed; only [os.unlink]
      and [shutil.rmtree] may fail, as [cleanup_error] says;
    - [traceback.format_exc()] is determined by the exception being
      handled: the text of a traceback is never compared between two
      places of the file;
    - [int] is modelled on ASCII text, with the default limit of 4300
      digits on the text it converts. *)

From Stdlib Require Import ZArith QArith List String Ascii Bool Arith Lia.
From Stdlib Require Import DecimalString DecimalZ DecimalPos.
Import ListNotations.

Local Open Scope string_scope.
Local Open Scope Z_scope.

(** ** Python values and exceptions *)

(** An instance of (a subclass of) [Exception].  [exn_type] is
    [type(e).__name__], [exn_msg] is [str(e)] and [exn_truthy] is
    [bool(e)]: it is [True] for every class that defines neither
    [__bool__] nor [__len__], which covers all built-in exceptions.
    [SystemExit], [KeyboardInterrupt] and [GeneratorExit] are not
    instances of [Exception]; they are exit requests rather than
    failures and are not values of this type. *)
Record exn : Type := mkExn {
  exn_type : string;
  exn_msg : string;
  exn_truthy : bool
}.

(** A statement either completes with a value or raises. *)
Inductive outcome (A : Type) : Type :=
| Ok (a : A)
| Raise (e : exn).
Arguments Ok {A} a.
Arguments Raise {A} e.

(** The values handed to the target operations and returned by them.
    [VDate d] is [datetime(2020, 1, 1) + timedelta(days=d)];
    [VNow n] is the value of the [n]-th reading of [datetime.now()];
    [VObj r] is any other object, known by its [str()] rendering. *)
Inductive pyval : Type :=
| VNone
| VInt (z : Z)
| VStr (s : string)
| VDate (days : Z)
| VNow (n : nat)
| VList
| VDict
| VObj (repr : string).

(** The five operations under test: [py_parser.getPythonParseObject],
    [py_parser.checkLoggingPerData], [mining.days_between],
    [mining.getPythonFileCount], [lint_engine.getDataLoadCount]. *)
Inductive target : Type :=
| getPythonParseObject
| checkLoggingPerData
| days_between
| getPythonFileCount
| getDataLoadCount.

(** ** Strings *)

Definition nl : string := String (ascii_of_nat 10) EmptyString.
Definition dquote : string := String (ascii_of_nat 34) EmptyString.
(** U+2713 and U+26A0 in UTF-8. *)
Definition check_mark : string :=
  String (ascii_of_nat 226) (String (ascii_of_nat 156) (String (ascii_of_nat 147) EmptyString)).
Definition warning_sign : string :=
  String (ascii_of_nat 226) (String (ascii_of_nat 154) (String (ascii_of_nat 160) EmptyString)).

(** [c * n] for a string [c]. *)
Fixpoint str_mul (c : string) (n : nat) : string :=
  match n with
  | O => EmptyString
  | S k => c ++ str_mul c k
  end.

(** [s[:n]]. *)
Definition take (n : nat) (s : string) : string := substring 0 n s.

(** [str(z)] for an [int]. *)
Definition str_int (z : Z) : string := NilZero.string_of_int (Z.to_int z).

(** [s.startswith(t)]. *)
Fixpoint startswith (s t : string) {struct t} : bool :=
  match t with
  | EmptyString => true
  | String c t' =>
      match s with
      | String d s' => Ascii.eqb c d && startswith s' t'
      | EmptyString => false
      end
  end.

(** The same on character lists, and [s.endswith(t)]. *)
Fixpoint starts_with (t s : list ascii) : bool :=
  match t, s with
  | [], _ => true
  | c :: t', d :: s' => Ascii.eqb c d && starts_with t' s'
  | _ :: _, [] => false
  end.

Definition endswith (s t : string) : bool :=
  starts_with (rev (list_ascii_of_string t)) (rev (list_ascii_of_string s)).

(** ** The reporter (class FuzzReporter) *)

Record bug_info : Type := mkBug {
  bug_method : string;
  bug_input : string;
  bug_error_type : string;
  bug_error_msg : string;
  bug_traceback : string
}.

Record FuzzReporter : Type := mkReporter {
  bugs_found : list bug_info;
  test_count : Z;
  crash_count : Z
}.

(** [FuzzReporter.__init__]. *)
Definition FuzzReporter_init : FuzzReporter :=
  {| bugs_found := []; test_count := 0; crash_count := 0 |}.

(** [FuzzReporter.log_test].  [input_data] is a [str] at every call
    site, so [str(input_data)] is the string itself; [format_exc] is
    what [traceback.format_exc()] returns at the call.  The guard is
    [if error:], the truth value of the argument. *)
Definition log_test (method input_data : string) (result : pyval)
    (error : option exn) (format_exc : string) (self : FuzzReporter)
    : FuzzReporter :=
  let counted := test_count self + 1 in
  match error with
  | Some e =>
      if exn_truthy e then
        let bug := {| bug_method := method;
                      bug_input := take 100 input_data;
                      bug_error_type := exn_type e;
                      bug_error_msg := exn_msg e;
                      bug_traceback := format_exc |} in
        {| bugs_found := bugs_found self ++ [bug];
           test_count := counted;
           crash_count := crash_count self + 1 |}
      else
        {| bugs_found := bugs_found self;
           test_count := counted;
           crash_count := crash_count self |}
  | None =>
      {| bugs_found := bugs_found self;
         test_count := counted;
         crash_count := crash_count self |}
  end.

(** One call of [log_test], as data: the arguments and the traceback
    text available at the call. *)
Record log_call : Type := mkCall {
  call_method : string;
  call_input : string;
  call_result : pyval;
  call_error : option exn;
  call_format_exc : string
}.

Definition apply_call (self : FuzzReporter) (c : log_call) : FuzzReporter :=
  log_test (call_method c) (call_input c) (call_result c) (call_error c)
           (call_format_exc c) self.

(** The reporter after a sequence of [log_test] calls on a fresh one. *)
Definition after_calls (cs : list log_call) : FuzzReporter :=
  fold_left apply_call cs FuzzReporter_init.

(** What one call adds to the failure counter. *)
Definition failure_increment (c : log_call) : Z :=
  match call_error c with
  | Some e => if exn_truthy e then 1 else 0
  | None => 0
  end.

(** [a / b] on two [int]s: true division, which raises on a zero
    divisor.  The quotient is kept exact; Python rounds it to the
    nearest double, a monotone map that fixes 0 and 100. *)
Definition ZeroDivisionError : exn :=
  {| exn_type := "ZeroDivisionError"; exn_msg := "division by zero";
     exn_truthy := true |}.

Definition truediv (a b : Z) : outcome Q :=
  if b =? 0 then Raise ZeroDivisionError
  else Ok (Qdiv (inject_Z a) (inject_Z b)).

(** [(self.test_count - self.crash_count) / self.test_count * 100]. *)
Definition success_rate (self : FuzzReporter) : outcome Q :=
  match truediv (test_count self - crash_count self) (test_count self) with
  | Ok q => Ok (Qmult q (inject_Z 100))
  | Raise e => Raise e
  end.

(** ** The world outside the file *)

(** One [print(...)] or [f.write(...)]: its text, or the success-rate
    line, whose [:.2f] rendering is kept as the number it formats. *)
Inductive line : Type :=
| Line (s : string)
| RateLine (rate : Q).

(** What an observer of a run can see, in order. *)
Inductive event : Type :=
| EvPrint (l : line)
| EvCall (op : target) (args : list pyval) (out : outcome pyval)
| EvLog (method input_data : string) (result : pyval) (error : option exn)
| EvCreate (path content : string)
| EvMkdtemp (path : string)
| EvUnlink (path : string)
| EvRmtree (path : string)
| EvReport (l : line).

(** The oracles.  [entropy n] is the [n]-th raw draw of the [random]
    module; [run_target op n args] is what the [n]-th call of a target
    does when it is [op] applied to [args]; [os_name n] is the name
    [tempfile] hands out at the [n]-th request to the system;
    [cleanup_error n] is the error of an [os.unlink]/[shutil.rmtree]
    issued as the [n]-th request, if it fails; [str_date], [str_now]
    and [strftime_now] render dates; [format_exc] is
    [traceback.format_exc()] given the exception being handled;
    [import_error] is the [ImportError] of the module's import block,
    if any. *)
Record World : Type := mkWorld {
  entropy : nat -> nat;
  run_target : target -> nat -> list pyval -> outcome pyval;
  os_name : nat -> string;
  cleanup_error : nat -> option exn;
  str_date : Z -> string;
  str_now : nat -> string;
  strftime_now : nat -> string;
  format_exc : option exn -> string;
  import_error : option exn
}.

(** ** Interpreter state and the monad of statements *)

Record state : Type := mkState {
  reporter : FuzzReporter;
  draws : nat;
  calls : nat;
  ticks : nat;
  frame : list (string * pyval);
  handling : option exn;
  trace : list event
}.

Definition initial_state : state :=
  {| reporter := FuzzReporter_init; draws := 0; calls := 0; ticks := 0;
     frame := []; handling := None; trace := [] |}.

Definition set_reporter (r : FuzzReporter) (s : state) : state :=
  {| reporter := r; draws := draws s; calls := calls s; ticks := ticks s;
     frame := frame s; handling := handling s; trace := trace s |}.
Definition set_draws (n : nat) (s : state) : state :=
  {| reporter := reporter s; draws := n; calls := calls s; ticks := ticks s;
     frame := frame s; handling := handling s; trace := trace s |}.
Definition set_calls (n : nat) (s : state) : state :=
  {| reporter := reporter s; draws := draws s; calls := n; ticks := ticks s;
     frame := frame s; handling := handling s; trace := trace s |}.
Definition set_ticks (n : nat) (s : state) : state :=
  {| reporter := reporter s; draws := draws s; calls := calls s; ticks := n;
     frame := frame s; handling := handling s; trace := trace s |}.
Definition set_frame (f : list (string * pyval)) (s : state) : state :=
  {| reporter := reporter s; draws := draws s; calls := calls s; ticks := ticks s;
     frame := f; handling := handling s; trace := trace s |}.
Definition set_handling (h : option exn) (s : state) : state :=
  {| reporter := reporter s; draws := draws s; calls := calls s; ticks := ticks s;
     frame := frame s; handling := h; trace := trace s |}.
Definition emit (e : event) (s : state) : state :=
  {| reporter := reporter s; draws := draws s; calls := calls s; ticks := ticks s;
     frame := frame s; handling := handling s; trace := trace s ++ [e] |}.

Definition M (A : Type) : Type := state -> outcome A * state.

Definition ret {A : Type} (a : A) : M A := fun s => (Ok a, s).

Definition raise {A : Type} (e : exn) : M A := fun s => (Raise e, s).

Definition bind {A B : Type} (m : M A) (k : A -> M B) : M B :=
  fun s =>
    match m s with
    | (Ok a, s') => k a s'
    | (Raise e, s') => (Raise e, s')
    end.

Declare Scope py_scope.
Delimit Scope py_scope with py.
Notation "x <- m ;; k" := (bind m (fun x => k))
  (at level 61, m at next level, right associativity) : py_scope.
Notation "m ;; k" := (bind m (fun _ => k))
  (at level 61, right associativity) : py_scope.
Local Open Scope py_scope.

(** [try: body  except Exception as e: handler e].  While the handler
    runs, [e] is the exception being handled. *)
Definition try_except {A : Type} (body : M A) (handler : exn -> M A) : M A :=
  fun s =>
    match body s with
    | (Ok a, s') => (Ok a, s')
    | (Raise e, s') =>
        match handler e (set_handling (Some e) s') with
        | (r, s'') => (r, set_handling (handling s') s'')
        end
    end.

(** [try: body  finally: final]: [final] runs on both exits; the
    first failure is kept unless [final] itself raises. *)
Definition try_finally {A : Type} (body : M A) (final : M unit) : M A :=
  fun s =>
    match body s with
    | (r, s') =>
        match final s' with
        | (Ok _, s'') => (r, s'')
        | (Raise e, s'') => (Raise e, s'')
        end
    end.

(** [try: m  except: pass]. *)
Definition swallow (m : M unit) : M unit :=
  fun s =>
    match m s with
    | (Ok _, s') => (Ok tt, s')
    | (Raise _, s') => (Ok tt, s')
    end.

(** [for i in range(n): body i], from index [i]. *)
Fixpoint for_range (n : nat) (i : nat) (body : nat -> M unit) : M unit :=
  match n with
  | O => ret tt
  | S k => body i ;; for_range k (S i) body
  end.

(** [for x in xs: body x]. *)
Fixpoint for_each {A : Type} (xs : list A) (body : A -> M unit) : M unit :=
  match xs with
  | [] => ret tt
  | x :: rest => body x ;; for_each rest body
  end.

(** [range(n)] of an [int] has [max(n, 0)] elements. *)
Definition range_len (n : Z) : nat := Z.to_nat n.

Definition print (l : line) : M unit := fun s => (Ok tt, emit (EvPrint l) s).
Definition print_str (t : string) : M unit := print (Line t).

(** Local variables that a handler reads after a [try] block that
    assigns them: [store] is the assignment, [load] the use, which
    raises when the name has no value yet. *)
Definition UnboundLocalError (x : string) : exn :=
  {| exn_type := "UnboundLocalError";
     exn_msg := "cannot access local variable '" ++ x
                ++ "' where it is not associated with a value";
     exn_truthy := true |}.

Fixpoint lookup (x : string) (f : list (string * pyval)) : option pyval :=
  match f with
  | [] => None
  | (y, v) :: rest => if String.eqb x y then Some v else lookup x rest
  end.

Definition store (x : string) (v : pyval) : M unit :=
  fun s => (Ok tt, set_frame ((x, v) :: frame s) s).

Definition load (x : string) : M pyval :=
  fun s =>
    match lookup x (frame s) with
    | Some v => (Ok v, s)
    | None => (Raise (UnboundLocalError x), s)
    end.

(** A call of a method gets a fresh frame and gives the caller's
    frame back on either exit. *)
Definition in_new_frame {A : Type} (m : M A) : M A :=
  fun s =>
    match m (set_frame [] s) with
    | (r, s') => (r, set_frame (frame s) s')
    end.

(** [int(s)] for a [str] in base 10, on ASCII text: surrounding
    whitespace (tab, line feed, vertical tab, form feed, carriage
    return, space), an optional sign, then digits that single
    underscores may separate, at most [int_max_str_digits] of them.
    Anything else is a [ValueError].  (A text with characters outside
    ASCII, where [int] also takes the decimal digits and the spaces of
    other scripts, is not represented: the properties below that name
    a text name an ASCII one.) *)
Definition ValueError (msg : string) : exn :=
  {| exn_type := "ValueError"; exn_msg := msg; exn_truthy := true |}.

Definition is_space (c : ascii) : bool :=
  let n := nat_of_ascii c in
  (((9 <=? n) && (n <=? 13)) || (n =? 32))%nat.

Definition is_digit (c : ascii) : bool :=
  let n := nat_of_ascii c in ((48 <=? n) && (n <=? 57))%nat.

Definition digit_value (c : ascii) : Z := Z.of_nat (nat_of_ascii c - 48).

Fixpoint lstrip (l : list ascii) : list ascii :=
  match l with
  | c :: rest => if is_space c then lstrip rest else l
  | [] => []
  end.

Definition strip (l : list ascii) : list ascii := rev (lstrip (rev (lstrip l))).

Fixpoint digits_value (l : list ascii) (acc : Z) (after_digit : bool) : option Z :=
  match l with
  | [] => if after_digit then Some acc else None
  | c :: rest =>
      if is_digit c then digits_value rest (10 * acc + digit_value c) true
      else if Ascii.eqb c "_" && after_digit then digits_value rest acc false
      else None
  end.

Definition int_literal (l : list ascii) : option Z :=
  match l with
  | "-"%char :: rest => option_map Z.opp (digits_value rest 0 false)
  | "+"%char :: rest => digits_value rest 0 false
  | _ => digits_value l 0 false
  end.

(** The default of [sys.int_max_str_digits] (CPython 3.11 and later):
    a literal with more digits is refused. *)
Definition int_max_str_digits : Z := 4300.

Definition count_digits (l : list ascii) : nat :=
  List.length (filter is_digit l).

Definition py_int (s : string) : outcome Z :=
  let text := strip (list_ascii_of_string s) in
  match int_literal text with
  | Some z =>
      if int_max_str_digits <? Z.of_nat (count_digits text) then
        Raise (ValueError
                 ("Exceeds the limit (4300 digits) for integer string conversion: "
                  ++ "value has " ++ str_int (Z.of_nat (count_digits text))
                  ++ " digits; use sys.set_int_max_str_digits() to increase the limit"))
      else Ok z
  | None =>
      Raise (ValueError ("invalid literal for int() with base 10: '" ++ s ++ "'"))
  end.

(** [string.ascii_letters + string.digits + string.punctuation]. *)
Definition ascii_letters : string :=
  "abcdefghijklmnopqrstuvwxyzABCDEFGHIJKLMNOPQRSTUVWXYZ".
Definition digits : string := "0123456789".
Definition punctuation : string :=
  "!" ++ dquote ++ "#$%&'()*+,-./:;<=>?@[\]^_`{|}~".
Definition alphabet : list ascii :=
  list_ascii_of_string (ascii_letters ++ digits ++ punctuation).

Definition IndexError (msg : string) : exn :=
  {| exn_type := "IndexError"; exn_msg := msg; exn_truthy := true |}.

Section Harness.

Variable W : World.

(** *** The [random] module *)

Definition draw : M nat :=
  fun s => (Ok (entropy W (draws s)), set_draws (S (draws s)) s).

(** [random.randint(a, b)]: a value of [a..b], or [ValueError] when
    the range is empty. *)
Definition randint (a b : Z) : M Z :=
  if b <? a then raise (ValueError "empty range in randrange()")
  else r <- draw ;; ret (a + Z.of_nat r mod (b - a + 1)).

(** [random.choice(seq)]. *)
Definition choice {A : Type} (seq : list A) : M A :=
  match seq with
  | [] => raise (IndexError "Cannot choose from an empty sequence")
  | x :: _ => r <- draw ;; ret (nth (r mod List.length seq) seq x)
  end.

(** [random.choices(population, k=k)]: [k] independent picks. *)
Fixpoint choices {A : Type} (population : list A) (k : nat) : M (list A) :=
  match k with
  | O => ret []
  | S k' =>
      match population with
      | [] => raise (IndexError "list index out of range")
      | x :: _ =>
          r <- draw ;;
          rest <- choices population k' ;;
          ret (nth (r mod List.length population) population x :: rest)
      end
  end.

(** *** Random input generators *)

(** [Fuzzer.generate_random_string(length=None)]. *)
Definition generate_random_string (length : option Z) : M string :=
  length <- match length with
            | None => randint 0 100
            | Some k => ret k
            end ;;
  cs <- choices alphabet (range_len length) ;;
  ret (string_of_list_ascii cs).

(** [Fuzzer.generate_random_python_code()]: the list of templates is
    built first, three random strings included, then one is picked. *)
Definition generate_random_python_code : M string :=
  r1 <- generate_random_string None ;;
  r2 <- generate_random_string None ;;
  r3 <- generate_random_string None ;;
  choice
    [ "import random" ++ nl ++ "print('hello')";
      "def func():" ++ nl ++ "    pass";
      "class Test:" ++ nl ++ "    def __init__(self):" ++ nl ++ "        pass";
      "x = 1 + 2";
      "";
      "invalid python code @#$%";
      "def func(" ++ nl ++ "    incomplete";
      "'''multiline" ++ nl ++ "string" ++ nl ++ "'''";
      nl ++ nl ++ nl;
      r1;
      "# " ++ r2;
      "import " ++ r3 ].

(** [Fuzzer.create_temp_python_file(content)]. *)
Definition create_temp_python_file (content : string) : M string :=
  fun s =>
    let name := os_name W (ticks s) ++ ".py" in
    (Ok name, emit (EvCreate name content) (set_ticks (S (ticks s)) s)).

(** [Fuzzer.generate_random_date()]. *)
Definition generate_random_date : M pyval :=
  random_days <- randint (-1000) 1000 ;;
  ret (VDate random_days).

(** *** The operating system and the clock *)

Definition mkdtemp : M string :=
  fun s =>
    let name := os_name W (ticks s) in
    (Ok name, emit (EvMkdtemp name) (set_ticks (S (ticks s)) s)).

(** [with open(path, 'w') as f: f.write(content)]. *)
Definition write_file (path content : string) : M unit :=
  fun s => (Ok tt, emit (EvCreate path content) s).

Definition os_unlink (path : string) : M unit :=
  fun s =>
    let s' := emit (EvUnlink path) (set_ticks (S (ticks s)) s) in
    match cleanup_error W (ticks s) with
    | Some e => (Raise e, s')
    | None => (Ok tt, s')
    end.

Definition shutil_rmtree (path : string) : M unit :=
  fun s =>
    let s' := emit (EvRmtree path) (set_ticks (S (ticks s)) s) in
    match cleanup_error W (ticks s) with
    | Some e => (Raise e, s')
    | None => (Ok tt, s')
    end.

Definition datetime_now : M pyval :=
  fun s => (Ok (VNow (ticks s)), set_ticks (S (ticks s)) s).

Definition path_join (dir name : string) : string := dir ++ "/" ++ name.

(** [str(v)], as an f-string renders it. *)
Definition py_str (v : pyval) : string :=
  match v with
  | VNone => "None"
  | VInt z => str_int z
  | VStr s => s
  | VDate d => str_date W d
  | VNow n => str_now W n
  | VList => "[]"
  | VDict => "{}"
  | VObj r => r
  end.

(** *** Calling a target, logging an outcome *)

Definition call (op : target) (args : list pyval) : M pyval :=
  fun s =>
    let out := run_target W op (calls s) args in
    (out, emit (EvCall op args out) (set_calls (S (calls s)) s)).

(** [self.reporter.log_test(method, input_data, result, error)]. *)
Definition reporter_log_test (method input_data : string) (result : pyval)
    (error : option exn) : M unit :=
  fun s =>
    (Ok tt,
     emit (EvLog method input_data result error)
       (set_reporter
          (log_test method input_data result error
                    (format_exc W (handling s)) (reporter s)) s)).

(** *** Method 1: [Fuzzer.fuzz_getPythonParseObject] *)

Definition fuzz_getPythonParseObject (iterations : Z) : M unit :=
  in_new_frame
    (print_str (nl ++ "[1/5] Fuzzing py_parser.getPythonParseObject() with "
                ++ str_int iterations ++ " iterations...") ;;
     for_range (range_len iterations) 0 (fun _ =>
       code <- generate_random_python_code ;;
       temp_file <- create_temp_python_file code ;;
       try_finally
         (try_except
            (result <- call getPythonParseObject [VStr temp_file] ;;
             reporter_log_test "getPythonParseObject"
               ("file: " ++ temp_file ++ ", content: " ++ take 50 code)
               result None)
            (fun e =>
               reporter_log_test "getPythonParseObject"
                 ("file: " ++ temp_file ++ ", content: " ++ take 50 code)
                 VNone (Some e)))
         (swallow (os_unlink temp_file))) ;;
     for_range 5 0 (fun _ =>
       r <- generate_random_string None ;;
       let fake_file := "/nonexistent/" ++ r ++ ".py" in
       try_except
         (result <- call getPythonParseObject [VStr fake_file] ;;
          reporter_log_test "getPythonParseObject" ("file: " ++ fake_file)
            result None)
         (fun e =>
            reporter_log_test "getPythonParseObject" ("file: " ++ fake_file)
              VNone (Some e)))).

(** *** Method 2: [Fuzzer.fuzz_checkLoggingPerData]

    [name_to_track] is assigned inside the [try], after the parser
    call; the handler reads it. *)

(** One pass of the loop. *)
Definition checkLoggingPerData_iteration : M unit :=
  rc <- generate_random_python_code ;;
  code <- choice
            [ "import logging" ++ nl ++ "logging.getLogger('test')";
              "logger.info(test_data)";
              "import tensorflow as tf" ++ nl ++ "tf.logging.info('message')";
              rc;
              "";
              "# no logging here" ] ;;
  temp_file <- create_temp_python_file code ;;
  try_finally
    (try_except
       (tree <- call getPythonParseObject [VStr temp_file] ;;
        rs <- generate_random_string (Some 10) ;;
        name <- choice [VStr "data"; VStr "test_var"; VStr rs; VStr "";
                        VNone; VInt 123] ;;
        store "name_to_track" name ;;
        result <- call checkLoggingPerData [tree; name] ;;
        reporter_log_test "checkLoggingPerData"
          ("name: " ++ py_str name ++ ", code: " ++ take 50 code)
          result None)
       (fun e =>
          name <- load "name_to_track" ;;
          reporter_log_test "checkLoggingPerData"
            ("name: " ++ py_str name ++ ", code: " ++ take 50 code)
            VNone (Some e)))
    (swallow (os_unlink temp_file)).

Definition fuzz_checkLoggingPerData (iterations : Z) : M unit :=
  in_new_frame
    (print_str (nl ++ "[2/5] Fuzzing py_parser.checkLoggingPerData() with "
                ++ str_int iterations ++ " iterations...") ;;
     for_range (range_len iterations) 0 (fun _ => checkLoggingPerData_iteration)).

(** *** Method 3: [Fuzzer.fuzz_days_between] *)

(** The handler of both loops: it formats [d1] and [d2]. *)
Definition days_between_failed (e : exn) : M unit :=
  d1 <- load "d1" ;;
  d2 <- load "d2" ;;
  reporter_log_test "days_between"
    ("d1: " ++ py_str d1 ++ ", d2: " ++ py_str d2) VNone (Some e).

(** The list [edge_cases]; its four [datetime.now()] are read while the
    list is built. *)
Definition days_between_edge_cases : M (list (pyval * pyval)) :=
  n1 <- datetime_now ;;
  n2 <- datetime_now ;;
  n3 <- datetime_now ;;
  n4 <- datetime_now ;;
  ret [ (VNone, VNone);
        (n1, VNone);
        (VNone, n2);
        (VStr "2020-01-01", VStr "2021-01-01");
        (VInt 123, VInt 456);
        (VList, VDict);
        (VDate (-43829), VDate 29584);
        (n3, n4) ].

Definition fuzz_days_between (iterations : Z) : M unit :=
  in_new_frame
    (print_str (nl ++ "[3/5] Fuzzing mining.days_between() with "
                ++ str_int iterations ++ " iterations...") ;;
     for_range (range_len iterations) 0 (fun _ =>
       try_except
         (d1 <- generate_random_date ;;
          store "d1" d1 ;;
          d2 <- generate_random_date ;;
          store "d2" d2 ;;
          result <- call days_between [d1; d2] ;;
          reporter_log_test "days_between"
            ("d1: " ++ py_str d1 ++ ", d2: " ++ py_str d2) result None)
         days_between_failed) ;;
     edge_cases <- days_between_edge_cases ;;
     for_each edge_cases (fun '(d1, d2) =>
       store "d1" d1 ;;
       store "d2" d2 ;;
       try_except
         (result <- call days_between [d1; d2] ;;
          reporter_log_test "days_between"
            ("d1: " ++ py_str d1 ++ ", d2: " ++ py_str d2) result None)
         days_between_failed)).

(** *** Method 4: [Fuzzer.fuzz_getPythonFileCount] *)

(** The text logged when the counter returns: the directory, the two
    counts that matter, their sum and the returned value. *)
Definition file_count_message (temp_dir : string) (num_py_files num_ipynb : Z)
    (expected : Z) (result : pyval) : string :=
  "dir: " ++ temp_dir ++ ", py_files: " ++ str_int num_py_files
  ++ ", ipynb: " ++ str_int num_ipynb ++ ", expected: " ++ str_int expected
  ++ ", got: " ++ py_str result.

(** The body of the [try] in the random loop: populate the directory,
    call the counter, log. *)
Definition populate_and_count (temp_dir : string) : M unit :=
  num_py_files <- randint 0 10 ;;
  for_range (range_len num_py_files) 0 (fun j =>
    let py_file := path_join temp_dir ("test" ++ str_int (Z.of_nat j) ++ ".py") in
    content <- generate_random_python_code ;;
    write_file py_file content) ;;
  num_other_files <- randint 0 5 ;;
  for_range (range_len num_other_files) 0 (fun j =>
    ext <- choice [".txt"; ".md"; ".json"; ".yml"] ;;
    let other_file := path_join temp_dir ("file" ++ str_int (Z.of_nat j) ++ ext) in
    content <- generate_random_string None ;;
    write_file other_file content) ;;
  num_ipynb <- randint 0 3 ;;
  for_range (range_len num_ipynb) 0 (fun j =>
    let ipynb_file :=
      path_join temp_dir ("notebook" ++ str_int (Z.of_nat j) ++ ".ipynb") in
    write_file ipynb_file ("{" ++ dquote ++ "cells" ++ dquote ++ ": []}")) ;;
  result <- call getPythonFileCount [VStr temp_dir] ;;
  let expected := num_py_files + num_ipynb in
  reporter_log_test "getPythonFileCount"
    (file_count_message temp_dir num_py_files num_ipynb expected result)
    result None.

(** One pass of the random loop. *)
Definition file_count_iteration : M unit :=
  temp_dir <- mkdtemp ;;
  try_finally
    (try_except
       (populate_and_count temp_dir)
       (fun e =>
          reporter_log_test "getPythonFileCount" ("dir: " ++ temp_dir)
            VNone (Some e)))
    (swallow (shutil_rmtree temp_dir)).

(** The list [invalid_dirs]. *)
Definition invalid_dirs : M (list pyval) :=
  r <- generate_random_string None ;;
  ret [ VStr "/nonexistent/directory";
        VStr "";
        VNone;
        VStr r;
        VStr "../../../etc";
        VStr "/dev/null" ].

Definition fuzz_getPythonFileCount (iterations : Z) : M unit :=
  in_new_frame
    (print_str (nl ++ "[4/5] Fuzzing mining.getPythonFileCount() with "
                ++ str_int iterations ++ " iterations...") ;;
     for_range (range_len iterations) 0 (fun _ => file_count_iteration) ;;
     dirs <- invalid_dirs ;;
     for_each dirs (fun dir_path =>
       try_except
         (result <- call getPythonFileCount [dir_path] ;;
          reporter_log_test "getPythonFileCount" ("dir: " ++ py_str dir_path)
            result None)
         (fun e =>
            reporter_log_test "getPythonFileCount" ("dir: " ++ py_str dir_path)
              VNone (Some e)))).

(** *** Method 5: [Fuzzer.fuzz_getDataLoadCount] *)

Definition fuzz_getDataLoadCount (iterations : Z) : M unit :=
  in_new_frame
    (print_str (nl ++ "[5/5] Fuzzing lint_engine.getDataLoadCount() with "
                ++ str_int iterations ++ " iterations...") ;;
     for_range (range_len iterations) 0 (fun _ =>
       rc <- generate_random_python_code ;;
       code <- choice
                 [ "import torch" ++ nl ++ "torch.load('file.pth')";
                   "import pickle" ++ nl ++ "pickle.load(open('file.pkl', 'rb'))";
                   "import json" ++ nl ++ "json.load(open('file.json'))";
                   "import pandas as pd" ++ nl ++ "pd.read_csv('data.csv')";
                   "from PIL import Image" ++ nl ++ "Image.open('image.jpg')";
                   rc;
                   "";
                   "# no data loading here";
                   "import numpy as np" ++ nl ++ "np.load('data.npy')" ] ;;
       temp_file <- create_temp_python_file code ;;
       try_finally
         (try_except
            (result <- call getDataLoadCount [VStr temp_file] ;;
             reporter_log_test "getDataLoadCount"
               ("file: " ++ temp_file ++ ", code: " ++ take 50 code)
               result None)
            (fun e =>
               reporter_log_test "getDataLoadCount"
                 ("file: " ++ temp_file ++ ", code: " ++ take 50 code)
                 VNone (Some e)))
         (swallow (os_unlink temp_file))) ;;
     for_range 5 0 (fun _ =>
       r <- generate_random_string None ;;
       let fake_file := "/nonexistent/" ++ r ++ ".py" in
       try_except
         (result <- call getDataLoadCount [VStr fake_file] ;;
          reporter_log_test "getDataLoadCount" ("file: " ++ fake_file)
            result None)
         (fun e =>
            reporter_log_test "getDataLoadCount" ("file: " ++ fake_file)
              VNone (Some e)))).

(** *** [FuzzReporter.generate_report] *)

Definition get_reporter : M FuzzReporter := fun s => (Ok (reporter s), s).

Definition lift {A : Type} (r : outcome A) : M A := fun s => (r, s).

(** [enumerate(xs, 1)]. *)
Definition enumerate1 {A : Type} (xs : list A) : list (nat * A) :=
  combine (seq 1 (List.length xs)) xs.

Definition report_line (l : line) : M unit := fun s => (Ok tt, emit (EvReport l) s).
Definition report_str (t : string) : M unit := report_line (Line t).

(** [datetime.now().strftime('%Y-%m-%d %H:%M:%S')]. *)
Definition now_strftime : M string :=
  fun s => (Ok (strftime_now W (ticks s)), set_ticks (S (ticks s)) s).

(** The method.  The rate is computed where it is printed, on the
    console and again in the file, with no test of [test_count]. *)
Definition generate_report (self : FuzzReporter) : M unit :=
  print_str (nl ++ str_mul "=" 80) ;;
  print_str "FUZZING REPORT" ;;
  print_str (str_mul "=" 80) ;;
  print_str ("Total tests executed: " ++ str_int (test_count self)) ;;
  print_str ("Bugs/Crashes found: " ++ str_int (crash_count self)) ;;
  rate <- lift (success_rate self) ;;
  print (RateLine rate) ;;
  print_str (str_mul "=" 80) ;;
  match bugs_found self with
  | _ :: _ =>
      print_str (nl ++ "DETAILED BUG REPORTS:") ;;
      print_str (str_mul "-" 80) ;;
      for_each (enumerate1 (bugs_found self)) (fun '(i, bug) =>
        print_str (nl ++ "BUG #" ++ str_int (Z.of_nat i)) ;;
        print_str ("Method: " ++ bug_method bug) ;;
        print_str ("Input: " ++ bug_input bug) ;;
        print_str ("Error Type: " ++ bug_error_type bug) ;;
        print_str ("Error Message: " ++ bug_error_msg bug) ;;
        print_str ("Traceback:" ++ nl ++ bug_traceback bug) ;;
        print_str (str_mul "-" 80))
  | [] =>
      print_str (nl ++ check_mark ++ " No bugs found! All tests passed successfully.")
  end ;;
  (* with open('fuzz_report.txt', 'w') as f: *)
  report_str (str_mul "=" 80 ++ nl) ;;
  report_str ("FUZZING REPORT" ++ nl) ;;
  report_str (str_mul "=" 80 ++ nl) ;;
  stamp <- now_strftime ;;
  report_str ("Date: " ++ stamp ++ nl) ;;
  report_str ("Total tests executed: " ++ str_int (test_count self) ++ nl) ;;
  report_str ("Bugs/Crashes found: " ++ str_int (crash_count self) ++ nl) ;;
  rate' <- lift (success_rate self) ;;
  report_line (RateLine rate') ;;
  report_str (str_mul "=" 80 ++ nl ++ nl) ;;
  match bugs_found self with
  | _ :: _ =>
      report_str ("DETAILED BUG REPORTS:" ++ nl) ;;
      report_str (str_mul "-" 80 ++ nl) ;;
      for_each (enumerate1 (bugs_found self)) (fun '(i, bug) =>
        report_str (nl ++ "BUG #" ++ str_int (Z.of_nat i) ++ nl) ;;
        report_str ("Method: " ++ bug_method bug ++ nl) ;;
        report_str ("Input: " ++ bug_input bug ++ nl) ;;
        report_str ("Error Type: " ++ bug_error_type bug ++ nl) ;;
        report_str ("Error Message: " ++ bug_error_msg bug ++ nl) ;;
        report_str ("Traceback:" ++ nl ++ bug_traceback bug ++ nl) ;;
        report_str (str_mul "-" 80 ++ nl))
  | [] =>
      report_str (nl ++ check_mark ++ " No bugs found! All tests passed successfully." ++ nl)
  end ;;
  print_str (nl ++ check_mark ++ " Full report saved to: fuzz_report.txt").

(** [self.reporter.generate_report()]. *)
Definition reporter_generate_report : M unit :=
  self <- get_reporter ;;
  generate_report self.

(** *** [Fuzzer.run_all_fuzzing] *)

Definition run_all_fuzzing (iterations : Z) : M unit :=
  print_str (str_mul "=" 80) ;;
  print_str "STARTING FUZZING TESTS" ;;
  print_str (str_mul "=" 80) ;;
  print_str ("Running " ++ str_int iterations ++ " iterations per method...") ;;
  fuzz_getPythonParseObject iterations ;;
  fuzz_checkLoggingPerData iterations ;;
  fuzz_days_between iterations ;;
  fuzz_getPythonFileCount iterations ;;
  fuzz_getDataLoadCount iterations ;;
  print_str (nl ++ str_mul "=" 80) ;;
  print_str "FUZZING COMPLETE" ;;
  print_str (str_mul "=" 80) ;;
  reporter_generate_report.

(** *** [main] and the module *)

(** [try: body  except ValueError: handler]. *)
Definition try_except_ValueError {A : Type} (body : M A) (handler : M A) : M A :=
  fun s =>
    match body s with
    | (Ok a, s') => (Ok a, s')
    | (Raise e, s') =>
        if String.eqb (exn_type e) "ValueError" then
          match handler (set_handling (Some e) s') with
          | (r, s'') => (r, set_handling (handling s') s'')
          end
        else (Raise e, s')
    end.

Definition invalid_count_warning : string :=
  "Invalid iteration count, using default: 20".

(** The argument handling of [main]: lines 392-398. *)
Definition iterations_of_argv (argv : list string) : M Z :=
  match argv with
  | _ :: arg :: _ =>
      try_except_ValueError
        (iterations <- lift (py_int arg) ;;
         print_str ("Using custom iteration count: " ++ str_int iterations) ;;
         ret iterations)
        (print_str invalid_count_warning ;; ret 20)
  | _ => ret 20
  end.

Definition banner : string :=
  nl ++ "    =========================================================================" ++ nl
  ++ "    |           Fuzzer for MLForensics                                      |" ++ nl
  ++ "    |           (COMP6710 Project)                                          |" ++ nl
  ++ "    =========================================================================" ++ nl
  ++ "    ".

(** [Fuzzer.__init__]: a fresh reporter. *)
Definition Fuzzer_init : M unit :=
  fun s => (Ok tt, set_reporter FuzzReporter_init s).

(** [main()]; the value is the argument of the [sys.exit] it ends with. *)
Definition main (argv : list string) : M Z :=
  print_str banner ;;
  iterations <- iterations_of_argv argv ;;
  Fuzzer_init ;;
  run_all_fuzzing iterations ;;
  print_str (nl ++ check_mark ++ " Fuzzing session completed successfully!") ;;
  print_str "Check 'fuzz_report.txt' for detailed results." ;;
  self <- get_reporter ;;
  if 0 <? crash_count self then
    print_str (nl ++ warning_sign ++ " WARNING: " ++ str_int (crash_count self)
               ++ " bugs/crashes detected!") ;;
    ret 1
  else
    print_str (nl ++ check_mark ++ " All tests passed - no bugs detected!") ;;
    ret 0.

(** The module run as a script: the import block of lines 24-30, then
    [main()].  [import_error W] is the [ImportError] (or an instance of
    a subclass, such as [ModuleNotFoundError]) of the three imports. *)
Definition script (argv : list string) : M Z :=
  match import_error W with
  | Some e =>
      print_str ("Error importing modules: " ++ exn_msg e) ;;
      ret 1
  | None => main argv
  end.

(** The exit status of the process: the argument of [sys.exit], or 1
    when an exception reaches the top level. *)
Definition exit_status (argv : list string) : Z :=
  match fst (script argv initial_state) with
  | Ok status => status
  | Raise _ => 1
  end.

End Harness.

(** ** Reading a run *)

(** The final state and result of a computation started afresh. *)
Definition run {A : Type} (m : M A) : outcome A * state := m initial_state.

(** The paths of the files written, in order. *)
Fixpoint created_paths (evs : list event) : list string :=
  match evs with
  | [] => []
  | EvCreate path _ :: rest => path :: created_paths rest
  | _ :: rest => created_paths rest
  end.

Definition same_target (a b : target) : bool :=
  match a, b with
  | getPythonParseObject, getPythonParseObject
  | checkLoggingPerData, checkLoggingPerData
  | days_between, days_between
  | getPythonFileCount, getPythonFileCount
  | getDataLoadCount, getDataLoadCount => true
  | _, _ => false
  end.

(** The arguments of the calls made to a target, in order. *)
Fixpoint calls_of (op : target) (evs : list event) : list (list pyval) :=
  match evs with
  | [] => []
  | EvCall op' args _ :: rest =>
      if same_target op op' then args :: calls_of op rest else calls_of op rest
  | _ :: rest => calls_of op rest
  end.

(** The inputs logged under a method name, in order. *)
Fixpoint logs_of (method : string) (evs : list event) : list string :=
  match evs with
  | [] => []
  | EvLog m input _ _ :: rest =>
      if String.eqb method m then input :: logs_of method rest
      else logs_of method rest
  | _ :: rest => logs_of method rest
  end.

(** The bug entries a report renders: one [BUG #i] header each, on the
    console and in the file. *)
Definition console_bug_header (e : event) : list unit :=
  match e with
  | EvPrint (Line t) => if startswith t (nl ++ "BUG #") then [tt] else []
  | _ => []
  end.

Definition file_bug_header (e : event) : list unit :=
  match e with
  | EvReport (Line t) => if startswith t (nl ++ "BUG #") then [tt] else []
  | _ => []
  end.

Definition console_bug_entries (evs : list event) : nat :=
  List.length (flat_map console_bug_header evs).

Definition file_bug_entries (evs : list event) : nat :=
  List.length (flat_map file_bug_header evs).

(** The success rates a report shows, console first. *)
Definition rate_of (e : event) : list Q :=
  match e with
  | EvPrint (RateLine q) => [q]
  | EvReport (RateLine q) => [q]
  | _ => []
  end.

Definition printed_rates (evs : list event) : list Q := flat_map rate_of evs.

(** The failure counts a report shows. *)
Definition shown_failures (n : Z) (e : event) : list unit :=
  match e with
  | EvPrint (Line t) =>
      if String.eqb t ("Bugs/Crashes found: " ++ str_int n) then [tt] else []
  | EvReport (Line t) =>
      if String.eqb t ("Bugs/Crashes found: " ++ str_int n ++ nl) then [tt] else []
  | _ => []
  end.

(** [m] always completes, leaves the reporter as it was and adds
    events that [f] reads as [xs]. *)
Definition observes {X A : Type} (f : event -> list X) (m : M A) (xs : list X)
    : Prop :=
  forall s, exists a s',
    m s = (Ok a, s') /\ reporter s' = reporter s /\
    flat_map f (trace s') = (flat_map f (trace s) ++ xs)%list.

(** One mark per call of [op]; one mark per outcome logged under
    [method]. *)
Definition call_tally (op : target) (e : event) : list unit :=
  match e with
  | EvCall op' _ _ => if same_target op op' then [tt] else []
  | _ => []
  end.

Definition log_tally (method : string) (e : event) : list unit :=
  match e with
  | EvLog m _ _ _ => if String.eqb method m then [tt] else []
  | _ => []
  end.

(** [m] always completes and adds events that [f] reads as [xs]. *)
Definition tallies {X A : Type} (f : event -> list X) (m : M A) (xs : list X)
    : Prop :=
  forall s, exists a s',
    m s = (Ok a, s') /\
    flat_map f (trace s') = (flat_map f (trace s) ++ xs)%list.

(** [m] only draws random numbers: it completes and moves nothing but
    the cursor of the draws. *)
Definition quiet {A : Type} (m : M A) : Prop :=
  forall s, exists a n, m s = (Ok a, set_draws n s).

(** From [s] to [s'], [k] more outcomes were logged and no failure
    was taken back. *)
Definition counted (k : Z) (s s' : state) : Prop :=
  test_count (reporter s') = test_count (reporter s) + k /\
  crash_count (reporter s) <= crash_count (reporter s').

(** [m] completes and logs [k] outcomes. *)
Definition logs_outcomes {A : Type} (m : M A) (k : Z) : Prop :=
  forall s, exists a s', m s = (Ok a, s') /\ counted k s s'.

(** [m] logs [k] outcomes when it completes and none when it raises. *)
Definition attempts {A : Type} (m : M A) (k : Z) : Prop :=
  forall s,
    match m s with
    | (Ok _, s') => counted k s s'
    | (Raise _, s') => counted 0 s s'
    end.

(** The local variable [x] has a value. *)
Definition bound (x : string) (s : state) : Prop := lookup x (frame s) <> None.

(** A parser that returns whatever it is given. *)
Definition parser_returns (W : World) : Prop :=
  forall n args, exists v, run_target W getPythonParseObject n args = Ok v.

(** From [s] to [s'] only random numbers were drawn and the events
    [evs] added. *)
Definition wrote (s s' : state) (evs : list event) : Prop :=
  reporter s' = reporter s /\ calls s' = calls s /\ ticks s' = ticks s /\
  frame s' = frame s /\ handling s' = handling s /\
  trace s' = (trace s ++ evs)%list.

(** A file that the fourth campaign writes with an extension that is
    neither [.py] nor [.ipynb]. *)
Definition other_path (temp_dir : string) (j : nat) (path : string) : Prop :=
  exists ext, In ext [".txt"; ".md"; ".json"; ".yml"] /\
              path = path_join temp_dir ("file" ++ str_int (Z.of_nat j) ++ ext).

(** A string of decimal digits. *)
Definition all_digits (s : string) : Prop :=
  Forall (fun c => is_digit c = true) (list_ascii_of_string s).

(** An event that is the writing of a file. *)
Definition is_create (e : event) : Prop :=
  exists path content, e = EvCreate path content.

(** Is a path a source file, a notebook? *)
Definition is_source (path : string) : bool := endswith path ".py".
Definition is_notebook (path : string) : bool := endswith path ".ipynb".

(** A state that holds a given reporter and nothing else. *)
Definition state_of (self : FuzzReporter) : state :=
  set_reporter self initial_state.

(** ** Some worlds *)

Definition FileNotFoundError : exn :=
  {| exn_type := "FileNotFoundError";
     exn_msg := "[Errno 2] No such file or directory";
     exn_truthy := true |}.

Definition SyntaxError : exn :=
  {| exn_type := "SyntaxError"; exn_msg := "invalid syntax"; exn_truthy := true |}.

(** A world with the given draws and targets: temporary names are
    numbered, cleanup succeeds, the imports succeed. *)
Definition world_of (draw_values : nat -> nat)
    (targets : target -> nat -> list pyval -> outcome pyval) : World :=
  {| entropy := draw_values;
     run_target := targets;
     os_name := fun n => "/tmp/tmp" ++ str_int (Z.of_nat n);
     cleanup_error := fun _ => None;
     str_date := fun d => "2020-01-01 00:00:00 + " ++ str_int d ++ " days";
     str_now := fun n => "now#" ++ str_int (Z.of_nat n);
     strftime_now := fun n => "now#" ++ str_int (Z.of_nat n);
     format_exc := fun h =>
       match h with
       | Some e => "Traceback (most recent call last): " ++ exn_type e
       | None => "NoneType: None"
       end;
     import_error := None |}.

(** The same with every draw 0. *)
Definition world_with (targets : target -> nat -> list pyval -> outcome pyval)
    : World :=
  world_of (fun _ => 0%nat) targets.

(** Draws that populate the first directory of the fourth campaign
    with 3 source files, 2 other files and 1 notebook. *)
Definition draws_3_2_1 (n : nat) : nat :=
  match n with
  | 0 => 3
  | 13 => 2
  | 18 => 1
  | _ => 0
  end%nat.

(** A counter that returns 7 whatever the directory holds. *)
Definition counter_says_7 (op : target) (n : nat) (args : list pyval)
    : outcome pyval :=
  Ok (VInt 7).

(** Targets that all return. *)
Definition calm_targets (op : target) (n : nat) (args : list pyval)
    : outcome pyval :=
  match op with
  | getPythonParseObject => Ok (VObj "<ast.Module object>")
  | checkLoggingPerData => Ok (VObj "False")
  | _ => Ok (VInt 0)
  end.

(** Draws for a run with one iteration: the file of the first campaign
    holds the first template, which is valid; the file of the second
    campaign holds [invalid python code @#$%]. *)
Definition invalid_source_in_second_campaign (n : nat) : nat :=
  match n with
  | 12 => 5
  | 13 => 3
  | _ => 0
  end%nat.

(** The file that these draws fill with invalid source. *)
Definition invalid_file : string := "/tmp/tmp2.py".

(** A parser that reads the file and parses it: [FileNotFoundError] on
    a path that does not exist, [SyntaxError] on the file with invalid
    source, a tree otherwise.  The other targets return. *)
Definition strict_parser (op : target) (n : nat) (args : list pyval)
    : outcome pyval :=
  match op, args with
  | getPythonParseObject, [VStr path] =>
      if startswith path "/nonexistent/" then Raise FileNotFoundError
      else if String.eqb path invalid_file then Raise SyntaxError
      else Ok (VObj "<ast.Module object>")
  | _, _ => calm_targets op n args
  end.

(** A parser that takes a file it cannot read for an empty one and
    raises [SyntaxError] on invalid source.  The other targets return. *)
Definition tolerant_parser (op : target) (n : nat) (args : list pyval)
    : outcome pyval :=
  match op, args with
  | getPythonParseObject, [VStr path] =>
      if String.eqb path invalid_file then Raise SyntaxError
      else Ok (VObj "<ast.Module object>")
  | _, _ => calm_targets op n args
  end.

(** A world whose imports fail. *)
Definition world_without_targets : World :=
  {| entropy := fun _ => 0%nat;
     run_target := calm_targets;
     os_name := fun n => "/tmp/tmp" ++ str_int (Z.of_nat n);
     cleanup_error := fun _ => None;
     str_date := fun d => str_int d;
     str_now := fun n => str_int (Z.of_nat n);
     strftime_now := fun n => str_int (Z.of_nat n);
     format_exc := fun _ => "";
     import_error :=
       Some {| exn_type := "ModuleNotFoundError";
               exn_msg := "No module named 'py_parser'";
               exn_truthy := true |} |}.

(** ** Reading a run, continued *)

(** The reporter is in a state that [log_test] calls alone produce. *)
Definition logged_only (s : state) : Prop :=
  exists cs, reporter s = after_calls cs.

(** [m] leaves the reporter in such a state, however it ends. *)
Definition keeps {A : Type} (m : M A) : Prop :=
  forall s, logged_only s -> logged_only (snd (m s)).

(** A text that [generate_random_string()] can return: at most 100
    characters, all letters, digits or punctuation. *)
Definition random_text (r : string) : Prop :=
  Forall (fun c => In c alphabet) (list_ascii_of_string r) /\
  (String.length r <= 100)%nat.

(** Whatever [m] does, return or raise, it only appends events, and
    [R] relates the reporter before, the events added and the reporter
    after. *)
Definition adds {A : Type}
    (R : FuzzReporter -> list event -> FuzzReporter -> Prop) (m : M A) : Prop :=
  forall s, exists evs,
    trace (snd (m s)) = (trace s ++ evs)%list /\
    R (reporter s) evs (reporter (snd (m s))).

(** What [tempfile] has handed out and the harness has not yet asked
    the system to remove. *)
Inductive resource : Type :=
| TempFile (path : string)
| TempDir (path : string).

(** Following the events with at most one resource held: a file may be
    written when nothing is held, and is then held until it is
    unlinked; a directory made is held until it is removed as a tree,
    and while it is held files may be written, inside it only.
    [None] when an event breaks this discipline. *)
Fixpoint held_after (held : option resource) (evs : list event)
    : option (option resource) :=
  match evs with
  | [] => Some held
  | EvCreate path _ :: rest =>
      match held with
      | None => held_after (Some (TempFile path)) rest
      | Some (TempDir d) =>
          if startswith path (d ++ "/") then held_after held rest else None
      | Some (TempFile _) => None
      end
  | EvUnlink path :: rest =>
      match held with
      | Some (TempFile p) =>
          if String.eqb path p then held_after None rest else None
      | _ => None
      end
  | EvMkdtemp d :: rest =>
      match held with
      | None => held_after (Some (TempDir d)) rest
      | _ => None
      end
  | EvRmtree d :: rest =>
      match held with
      | Some (TempDir d') =>
          if String.eqb d d' then held_after None rest else None
      | _ => None
      end
  | _ :: rest => held_after held rest
  end.

(** The discipline is kept and nothing is held at the end. *)
Definition tidy (evs : list event) : Prop := held_after None evs = Some None.

(** An event that touches no file or directory; one that at most
    writes a file inside [d]. *)
Definition no_files (e : event) : Prop :=
  match e with
  | EvCreate _ _ | EvMkdtemp _ | EvUnlink _ | EvRmtree _ => False
  | _ => True
  end.

Definition inside (d : string) (e : event) : Prop :=
  match e with
  | EvCreate path _ => startswith path (d ++ "/") = true
  | EvMkdtemp _ | EvUnlink _ | EvRmtree _ => False
  | _ => True
  end.

(** The name a target's outcomes are logged under. *)
Definition target_name (op : target) : string :=
  match op with
  | getPythonParseObject => "getPythonParseObject"
  | checkLoggingPerData => "checkLoggingPerData"
  | days_between => "days_between"
  | getPythonFileCount => "getPythonFileCount"
  | getDataLoadCount => "getDataLoadCount"
  end.

(** The [result] and [error] arguments of [log_test] that record what a
    call did. *)
Definition logged_as (out : outcome pyval) : pyval * option exn :=
  match out with
  | Ok v => (v, None)
  | Raise e => (VNone, Some e)
  end.

(** Calls and logged outcomes alternate: after a call, the next
    reporter event logs what the call did, under the name of its
    target, and before the next call.  [pending] is the call not yet
    logged, [final] the one left at the end. *)
Fixpoint matched (pending final : option (target * outcome pyval))
    (evs : list event) : Prop :=
  match evs with
  | [] => pending = final
  | EvCall op _ out :: rest =>
      pending = None /\ matched (Some (op, out)) final rest
  | EvLog method _ result error :: rest =>
      match pending with
      | Some (op, out) =>
          method = target_name op /\ (result, error) = logged_as out /\
          matched None final rest
      | None => False
      end
  | _ :: rest => matched pending final rest
  end.

(** Every call is logged as it went, and nothing else is logged. *)
Definition faithful (evs : list event) : Prop := matched None None evs.

(** What the calls made did, in order. *)
Fixpoint call_outcomes (evs : list event) : list (outcome pyval) :=
  match evs with
  | [] => []
  | EvCall _ _ out :: rest => out :: call_outcomes rest
  | _ :: rest => call_outcomes rest
  end.

(** The exceptions among them that [if error:] takes for a failure. *)
Fixpoint failures (outs : list (outcome pyval)) : list exn :=
  match outs with
  | [] => []
  | Raise e :: rest => if exn_truthy e then e :: failures rest else failures rest
  | Ok _ :: rest => failures rest
  end.

(** The reporter has counted one test per call made and one failure
    per call that raised, and has appended one bug per failure, in
    order, with the type and the message of the exception. *)
Definition accounted (r : FuzzReporter) (evs : list event) (r' : FuzzReporter)
    : Prop :=
  let raised := failures (call_outcomes evs) in
  test_count r' = test_count r + Z.of_nat (List.length (call_outcomes evs)) /\
  crash_count r' = crash_count r + Z.of_nat (List.length raised) /\
  exists new,
    bugs_found r' = (bugs_found r ++ new)%list /\
    map (fun b => (bug_error_type b, bug_error_msg b)) new
    = map (fun e => (exn_type e, exn_msg e)) raised.

(** A guarded call: [m] always returns; it calls [op] once and then
    logs what the call did, once, under the name of [op]; before the
    call it may write files. *)
Definition guarded_call {A : Type} (op : target) (m : M A) : Prop :=
  forall s, exists (files : list event) (args : list pyval)
                   (out : outcome pyval) (input tb : string)
                   (a : A) (s' : state),
    m s = (Ok a, s') /\
    Forall is_create files /\
    trace s'
    = (trace s ++ files
       ++ [EvCall op args out;
           EvLog (target_name op) input (fst (logged_as out)) (snd (logged_as out))])%list /\
    reporter s'
    = log_test (target_name op) input (fst (logged_as out)) (snd (logged_as out))
               tb (reporter s).

(** An event that is not a call, or is a call of [op]. *)
Definition calls_only (op : target) (e : event) : Prop :=
  match e with
  | EvCall op' _ _ => op' = op
  | _ => True
  end.

(** A campaign on [op] that always returns, after [k] calls, all of
    [op], each logged as it went. *)
Definition logs_every_call (op : target) (k : nat) (m : M unit) : Prop :=
  forall s, exists evs s',
    m s = (Ok tt, s') /\ trace s' = (trace s ++ evs)%list /\
    Forall (calls_only op) evs /\
    List.length (call_outcomes evs) = k /\
    faithful evs.

(** Draws for two passes of the second campaign: the file of the first
    pass holds the first template and [name_to_track] becomes
    ["data"]; the file of the second pass holds
    [invalid python code @#$%]. *)
Definition invalid_source_in_second_pass (n : nat) : nat :=
  match n with
  | 19 => 5
  | 20 => 3
  | _ => 0
  end%nat.

(** The state in which the second pass of the second campaign starts,
    in that world and with the tolerant parser, when the campaign is
    the first thing run. *)
Definition after_one_pass : state :=
  snd (checkLoggingPerData_iteration
         (world_of invalid_source_in_second_pass tolerant_parser)
         (set_frame [] initial_state)).

(** The iteration count that the command line asks for: what the
    argument handling of [main] returns. *)
Definition requested_iterations (argv : list string) : outcome Z :=
  fst (run (iterations_of_argv argv)).

(** The bug that a call of [log_test] records, if it records one. *)
Definition bug_of_call (c : log_call) : list bug_info :=
  match call_error c with
  | Some e =>
      if exn_truthy e then
        [{| bug_method := call_method c;
            bug_input := take 100 (call_input c);
            bug_error_type := exn_type e;
            bug_error_msg := exn_msg e;
            bug_traceback := call_format_exc c |}]
      else []
  | None => []
  end.

(** What has been written to [fuzz_report.txt], in order. *)
Definition reports (e : event) : list line :=
  match e with
  | EvReport l => [l]
  | _ => []
  end.

Definition report_file (evs : list event) : list line := flat_map reports evs.

(** One mark per line of the report file that gives [n] as the total
    of the tests executed. *)
Definition writes_total (n : Z) (e : event) : list unit :=
  match e with
  | EvReport (Line t) =>
      if String.eqb t ("Total tests executed: " ++ str_int n ++ nl) then [tt]
      else []
  | _ => []
  end.

(** [m] always returns, after [c] calls of a target and [t] requests
    to the system for a name or a removal. *)
Definition moves {A : Type} (m : M A) (c t : nat) : Prop :=
  forall s, exists a s',
    m s = (Ok a, s') /\
    calls s' = (calls s + c)%nat /\ ticks s' = (ticks s + t)%nat.

(** * Properties *)

(** ** The reporter's counters *)

Lemma apply_call_test_count (self : FuzzReporter) (c : log_call) :
  test_count (apply_call self c) = test_count self + 1.
Proof.
  unfold apply_call, log_test.
  destruct (call_error c) as [e|]; [destruct (exn_truthy e)|]; reflexivity.
Qed.

Lemma apply_call_crash_count (self : FuzzReporter) (c : log_call) :
  crash_count (apply_call self c) = crash_count self + failure_increment c.
Proof.
  unfold apply_call, log_test, failure_increment.
  destruct (call_error c) as [e|]; [destruct (exn_truthy e)|]; simpl; lia.
Qed.

Lemma apply_call_bugs_length (self : FuzzReporter) (c : log_call) :
  Z.of_nat (List.length (bugs_found (apply_call self c)))
  = Z.of_nat (List.length (bugs_found self)) + failure_increment c.
Proof.
  unfold apply_call, log_test, failure_increment.
  destruct (call_error c) as [e|]; [destruct (exn_truthy e)|]; simpl;
    rewrite ?length_app; simpl; lia.
Qed.

Lemma failure_increment_range (c : log_call) :
  0 <= failure_increment c <= 1.
Proof.
  unfold failure_increment.
  destruct (call_error c) as [e|]; [destruct (exn_truthy e)|]; lia.
Qed.

Lemma after_calls_snoc (cs : list log_call) (c : log_call) :
  after_calls (cs ++ [c]) = apply_call (after_calls cs) c.
Proof. unfold after_calls. now rewrite fold_left_app. Qed.

(** The invariant of the counters, proved along the sequence of calls
    from its end. *)
Lemma after_calls_invariant (cs : list log_call) :
  test_count (after_calls cs) = Z.of_nat (List.length cs) /\
  0 <= crash_count (after_calls cs) <= test_count (after_calls cs) /\
  crash_count (after_calls cs)
  = Z.of_nat (List.length (bugs_found (after_calls cs))).
Proof.
  induction cs as [|c cs IH] using rev_ind.
  - cbn. lia.
  - rewrite after_calls_snoc, apply_call_test_count, apply_call_crash_count,
      apply_call_bugs_length, length_app.
    pose proof (failure_increment_range c). cbn [List.length]. lia.
Qed.

(** C3.  After any sequence of [log_test] calls on a fresh reporter the
    counters satisfy [0 <= crash_count <= test_count]; one more call
    adds exactly one to [test_count], adds one to [crash_count] only
    when its [error] argument is an exception and leaves it unchanged
    otherwise, and so lowers neither counter. *)
Theorem log_test_counters :
  forall (cs : list log_call) (c : log_call),
    let self := after_calls cs in
    let self' := apply_call self c in
    0 <= crash_count self <= test_count self /\
    test_count self' = test_count self + 1 /\
    ((crash_count self' = crash_count self + 1 /\
      exists e, call_error c = Some e /\ exn_truthy e = true)
     \/ crash_count self' = crash_count self) /\
    test_count self <= test_count self' /\
    crash_count self <= crash_count self'.
Proof.
  intros cs c self self'. subst self self'.
  destruct (after_calls_invariant cs) as (_ & Hinv & _).
  rewrite apply_call_test_count, apply_call_crash_count.
  pose proof (failure_increment_range c) as Hr.
  repeat split; try lia.
  unfold failure_increment.
  destruct (call_error c) as [e|]; [destruct (exn_truthy e) eqn:He|].
  - left. split; [lia|]. now exists e.
  - right. lia.
  - right. lia.
Qed.

(** ** What a report shows *)

Section Observing.

Context {X : Type} (f : event -> list X).

Lemma observes_ret {A : Type} (a : A) : observes f (ret a) [].
Proof. intros s. exists a, s. now rewrite app_nil_r. Qed.

Lemma observes_bind {A B : Type} (m : M A) (k : A -> M B) (xs ys : list X) :
  observes f m xs -> (forall a, observes f (k a) ys) ->
  observes f (bind m k) (xs ++ ys)%list.
Proof.
  intros Hm Hk s. destruct (Hm s) as (a & s1 & E1 & R1 & T1).
  destruct (Hk a s1) as (b & s2 & E2 & R2 & T2).
  exists b, s2. unfold bind. rewrite E1, E2. repeat split.
  - congruence.
  - now rewrite T2, T1, app_assoc.
Qed.

Lemma observes_emit (e : event) (xs : list X) :
  f e = xs -> observes f (fun s => (Ok tt, emit e s)) xs.
Proof.
  intros <- s. exists tt, (emit e s). repeat split.
  simpl. now rewrite flat_map_app; simpl; rewrite app_nil_r.
Qed.

Lemma observes_print (l : line) (xs : list X) :
  f (EvPrint l) = xs -> observes f (print l) xs.
Proof. apply observes_emit. Qed.

Lemma observes_report_line (l : line) (xs : list X) :
  f (EvReport l) = xs -> observes f (report_line l) xs.
Proof. apply observes_emit. Qed.

Lemma observes_now_strftime (W : World) : observes f (now_strftime W) [].
Proof.
  intros s. eexists _, _. split; [reflexivity|]. simpl.
  now rewrite app_nil_r.
Qed.

Lemma observes_for_each {A : Type} (l : list A) (body : A -> M unit)
    (ys : list X) :
  (forall x, observes f (body x) ys) ->
  observes f (for_each l body) (List.concat (repeat ys (List.length l))).
Proof.
  intros Hb. induction l as [|x l IH]; simpl.
  - apply observes_ret.
  - apply observes_bind; [apply Hb | intros _; exact IH].
Qed.

Lemma observes_if_nonempty {A B : Type} (l : list B) (m1 m2 : M A)
    (xs1 xs2 : list X) :
  observes f m1 xs1 -> observes f m2 xs2 ->
  observes f (match l with _ :: _ => m1 | [] => m2 end)
             (match l with _ :: _ => xs1 | [] => xs2 end).
Proof. now destruct l. Qed.

Lemma observes_lift_ok {A B : Type} (a : A) (k : A -> M B) (xs : list X) :
  observes f (k a) xs -> observes f (bind (lift (Ok a)) k) xs.
Proof. intros H s. exact (H s). Qed.

End Observing.

Ltac observe :=
  lazymatch goal with
  | |- observes _ (bind (lift (Ok _)) _) _ => apply observes_lift_ok; observe
  | |- observes _ (bind _ _) _ =>
      eapply observes_bind; [observe | intros ?; observe]
  | |- observes _ (print_str _) _ => apply observes_print; cbn; reflexivity
  | |- observes _ (print _) _ => apply observes_print; cbn; reflexivity
  | |- observes _ (report_str _) _ => apply observes_report_line; cbn; reflexivity
  | |- observes _ (report_line _) _ => apply observes_report_line; cbn; reflexivity
  | |- observes _ (now_strftime _) _ => apply observes_now_strftime
  | |- observes _ (for_each _ _) _ =>
      eapply observes_for_each; intros [? ?]; observe
  | |- observes _ (match _ with _ :: _ => _ | [] => _ end) _ =>
      eapply observes_if_nonempty; observe
  end.

Lemma length_concat_repeat {A : Type} (ys : list A) (n : nat) :
  List.length (List.concat (repeat ys n)) = (n * List.length ys)%nat.
Proof.
  induction n as [|n IH]; simpl; [reflexivity|].
  now rewrite length_app, IH.
Qed.

Lemma length_enumerate1 {A : Type} (l : list A) :
  List.length (enumerate1 l) = List.length l.
Proof. unfold enumerate1. rewrite length_combine, length_seq. lia. Qed.

(** A report on a reporter without tests stops at the rate. *)
Lemma generate_report_zero_division (W : World) (self : FuzzReporter) (s : state) :
  test_count self = 0 ->
  fst (generate_report W self s) = Raise ZeroDivisionError.
Proof.
  intros H0. unfold generate_report, bind, print_str, print, lift, success_rate, truediv.
  rewrite H0. reflexivity.
Qed.

Lemma generate_report_console_entries (W : World) (self : FuzzReporter) (q : Q) :
  success_rate self = Ok q ->
  exists xs, observes console_bug_header (generate_report W self) xs /\
             List.length xs = List.length (bugs_found self).
Proof.
  intros Hq. eexists. split.
  - unfold generate_report. rewrite Hq. observe.
  - destruct (bugs_found self) as [|b l] eqn:E; [reflexivity|].
    rewrite ?length_app, ?length_concat_repeat, ?length_enumerate1.
    cbn [List.length app]. lia.
Qed.

Lemma generate_report_file_entries (W : World) (self : FuzzReporter) (q : Q) :
  success_rate self = Ok q ->
  exists xs, observes file_bug_header (generate_report W self) xs /\
             List.length xs = List.length (bugs_found self).
Proof.
  intros Hq. eexists. split.
  - unfold generate_report. rewrite Hq. observe.
  - destruct (bugs_found self) as [|b l] eqn:E; [reflexivity|].
    rewrite ?length_app, ?length_concat_repeat, ?length_enumerate1.
    cbn [List.length app]. lia.
Qed.

Lemma concat_repeat_nil {A : Type} (n : nat) :
  List.concat (repeat (@nil A) n) = [].
Proof. induction n; simpl; auto. Qed.

Lemma generate_report_rates (W : World) (self : FuzzReporter) (q : Q) :
  success_rate self = Ok q ->
  observes rate_of (generate_report W self) [q; q].
Proof.
  intros Hq.
  assert (H : exists xs, observes rate_of (generate_report W self) xs /\ xs = [q; q]).
  { eexists. split.
    - unfold generate_report. rewrite Hq. observe.
    - destruct (bugs_found self); cbn [app]; rewrite ?concat_repeat_nil; reflexivity. }
  destruct H as (xs & H & ->). exact H.
Qed.

Lemma generate_report_shown_failures (W : World) (self : FuzzReporter) (q : Q) :
  success_rate self = Ok q ->
  observes (shown_failures (crash_count self)) (generate_report W self) [tt; tt].
Proof.
  intros Hq.
  assert (H : exists xs, observes (shown_failures (crash_count self))
                                  (generate_report W self) xs /\ xs = [tt; tt]).
  { eexists. split.
    - unfold generate_report. rewrite Hq. observe.
    - rewrite !String.eqb_refl.
      destruct (bugs_found self); cbn [app]; rewrite ?concat_repeat_nil; reflexivity. }
  destruct H as (xs & H & ->). exact H.
Qed.

(** What [generate_report] does on a reporter, by its number of tests. *)
Lemma generate_report_completes (W : World) (self : FuzzReporter) (q : Q)
    (s : state) :
  success_rate self = Ok q ->
  reporter s = self ->
  exists s',
    generate_report W self s = (Ok tt, s') /\
    reporter s' = self /\
    console_bug_entries (trace s')
    = (console_bug_entries (trace s) + List.length (bugs_found self))%nat /\
    file_bug_entries (trace s')
    = (file_bug_entries (trace s) + List.length (bugs_found self))%nat /\
    printed_rates (trace s') = (printed_rates (trace s) ++ [q; q])%list /\
    flat_map (shown_failures (crash_count self)) (trace s')
    = (flat_map (shown_failures (crash_count self)) (trace s) ++ [tt; tt])%list.
Proof.
  intros Hq Hs.
  destruct (generate_report_console_entries W self q Hq) as (xc & Hc & Lc).
  destruct (generate_report_file_entries W self q Hq) as (xf & Hf & Lf).
  destruct (Hc s) as ([] & s1 & E1 & R1 & T1).
  destruct (Hf s) as ([] & s2 & E2 & R2 & T2).
  destruct (generate_report_rates W self q Hq s) as ([] & s3 & E3 & R3 & T3).
  destruct (generate_report_shown_failures W self q Hq s) as ([] & s4 & E4 & R4 & T4).
  assert (s2 = s1) by congruence. assert (s3 = s1) by congruence.
  assert (s4 = s1) by congruence. subst s2 s3 s4.
  exists s1. unfold console_bug_entries, file_bug_entries, printed_rates.
  rewrite T1, T2, T3, T4, !length_app, Lc, Lf.
  repeat split; auto. congruence.
Qed.

(** ** Truncated inputs *)

Lemma length_substring_le (s : string) (n : nat) :
  (String.length (substring 0 n s) <= n)%nat.
Proof.
  revert s. induction n as [|n IH]; intros [|c s]; simpl; try lia.
  specialize (IH s). lia.
Qed.

Lemma take_length (n : nat) (s : string) : (String.length (take n s) <= n)%nat.
Proof. apply length_substring_le. Qed.

Lemma apply_call_bugs (self : FuzzReporter) (c : log_call) :
  exists new, bugs_found (apply_call self c) = (bugs_found self ++ new)%list /\
    Forall (fun b => (String.length (bug_input b) <= 100)%nat) new /\
    Z.of_nat (List.length new) = failure_increment c.
Proof.
  unfold apply_call, log_test, failure_increment.
  destruct (call_error c) as [e|]; [destruct (exn_truthy e)|]; simpl.
  - eexists. split; [reflexivity|]. split; [|reflexivity].
    constructor; [apply take_length | constructor].
  - exists []. now rewrite app_nil_r.
  - exists []. now rewrite app_nil_r.
Qed.

Lemma after_calls_truncated (cs : list log_call) :
  Forall (fun b => (String.length (bug_input b) <= 100)%nat)
         (bugs_found (after_calls cs)).
Proof.
  induction cs as [|c cs IH] using rev_ind.
  - constructor.
  - rewrite after_calls_snoc.
    destruct (apply_call_bugs (after_calls cs) c) as (new & -> & Hn & _).
    apply Forall_app. now split.
Qed.

(** ** The success rate *)

Lemma success_rate_zero (self : FuzzReporter) :
  test_count self = 0 -> success_rate self = Raise ZeroDivisionError.
Proof. intros H. unfold success_rate, truediv. now rewrite H. Qed.

Lemma success_rate_positive (self : FuzzReporter) :
  test_count self <> 0 ->
  success_rate self
  = Ok (inject_Z (test_count self - crash_count self)
        / inject_Z (test_count self) * inject_Z 100)%Q.
Proof.
  intros H. unfold success_rate, truediv.
  destruct (test_count self =? 0) eqn:E; [apply Z.eqb_eq in E; contradiction|].
  reflexivity.
Qed.

(** The rate of a reporter with [0 <= failures <= total] and a test. *)
Lemma rate_bounds (total failures : Z) :
  0 < total -> 0 <= failures <= total ->
  (0 <= inject_Z (total - failures) / inject_Z total * inject_Z 100 <= 100)%Q.
Proof.
  intros Ht Hf.
  assert (Ha : 0 <= total - failures <= total) by lia.
  generalize dependent (total - failures). intros a Ha.
  destruct total as [|t|t]; try lia.
  unfold Qle, Qdiv, Qmult, Qinv, inject_Z.
  cbn -[Z.mul Pos.mul]. rewrite ?Pos2Z.inj_mul. split; nia.
Qed.

Lemma generate_report_raises (W : World) (self : FuzzReporter) (s : state) :
  test_count self = 0 ->
  exists s', generate_report W self s = (Raise ZeroDivisionError, s') /\
             printed_rates (trace s') = printed_rates (trace s).
Proof.
  intros H0. eexists. split.
  - unfold generate_report, bind, print_str, print, lift.
    rewrite (success_rate_zero self H0). reflexivity.
  - unfold printed_rates. simpl. rewrite !flat_map_app. simpl.
    now rewrite !app_nil_r.
Qed.

(** C2 (as the code has it).  [generate_report] computes the rate
    [(test_count - crash_count) / test_count * 100] without looking at
    [test_count] first.  After any sequence of [log_test] calls: when
    no test was logged the division raises [ZeroDivisionError] and no
    rate is shown; when at least one was logged the rate is computed,
    it is the one shown on the console and in the file, and it lies
    between 0 and 100. *)
Theorem success_rate_of_logged_tests :
  forall (W : World) (cs : list log_call),
    let self := after_calls cs in
    match generate_report W self (state_of self) with
    | (Ok _, s') =>
        0 < test_count self /\
        exists q : Q,
          printed_rates (trace s') = [q; q] /\
          (q == inject_Z (test_count self - crash_count self)
                / inject_Z (test_count self) * inject_Z 100)%Q /\
          (0 <= q <= 100)%Q
    | (Raise e, s') =>
        test_count self = 0 /\ e = ZeroDivisionError /\
        printed_rates (trace s') = []
    end.
Proof.
  intros W cs self.
  destruct (after_calls_invariant cs) as (Hlen & Hinv & _). fold self in Hlen, Hinv.
  destruct (Z.eq_dec (test_count self) 0) as [H0|Hpos].
  - destruct (generate_report_raises W self (state_of self) H0) as (s' & -> & Hr).
    repeat split; auto.
  - pose proof (success_rate_positive self Hpos) as Hq.
    destruct (generate_report_completes W self _ (state_of self) Hq eq_refl)
      as (s' & -> & _ & _ & _ & Hr & _).
    split; [lia|]. eexists. split; [exact Hr|]. split; [reflexivity|].
    apply rate_bounds; lia.
Qed.

(** C2, the claim as written, fails: a reporter that has logged no test
    ([test_count = 0]) still performs the division when it finalizes,
    and the division is by zero. *)
Lemma report_without_tests_divides_by_zero :
  test_count FuzzReporter_init = 0 /\
  fst (generate_report (world_with calm_targets) FuzzReporter_init initial_state)
  = Raise ZeroDivisionError.
Proof. split; reflexivity. Qed.

(** ** Failures and bug entries *)

(** C10.  After any sequence of [log_test] calls the failure counter is
    the length of the bug list, every stored input has at most 100
    characters, one more call lengthens the list by what it adds to
    the counter, and a report, when there is one, shows the counter and
    renders as many bug entries as it counts, on the console and in the
    file; there is no report only when nothing was logged. *)
Theorem failures_match_bug_list :
  forall (W : World) (cs : list log_call) (c : log_call),
    let self := after_calls cs in
    crash_count self = Z.of_nat (List.length (bugs_found self)) /\
    Forall (fun b => (String.length (bug_input b) <= 100)%nat) (bugs_found self) /\
    Z.of_nat (List.length (bugs_found (apply_call self c)))
    - Z.of_nat (List.length (bugs_found self))
    = crash_count (apply_call self c) - crash_count self /\
    match generate_report W self (state_of self) with
    | (Ok _, s') =>
        Z.of_nat (console_bug_entries (trace s')) = crash_count self /\
        Z.of_nat (file_bug_entries (trace s')) = crash_count self /\
        flat_map (shown_failures (crash_count self)) (trace s') = [tt; tt]
    | (Raise _, _) => cs = []
    end.
Proof.
  intros W cs c self.
  destruct (after_calls_invariant cs) as (Hlen & Hinv & Hbugs).
  fold self in Hlen, Hinv, Hbugs.
  split; [exact Hbugs|]. split; [apply after_calls_truncated|].
  split; [rewrite apply_call_bugs_length, apply_call_crash_count; lia|].
  destruct (Z.eq_dec (test_count self) 0) as [H0|Hpos].
  - destruct (generate_report_raises W self (state_of self) H0) as (s' & -> & _).
    destruct cs; [reflexivity|]. simpl in Hlen. lia.
  - pose proof (success_rate_positive self Hpos) as Hq.
    destruct (generate_report_completes W self _ (state_of self) Hq eq_refl)
      as (s' & -> & _ & Hc & Hf & _ & Hn).
    rewrite Hc, Hf, Hn. simpl. repeat split; lia.
Qed.

(** ** Argument handling *)

Lemma py_int_raises_ValueError (arg : string) (e : exn) :
  py_int arg = Raise e -> exn_type e = "ValueError".
Proof.
  unfold py_int. cbv zeta. destruct (int_literal _).
  - destruct (int_max_str_digits <? _); [|discriminate].
    intros H. injection H as <-. reflexivity.
  - intros H. injection H as <-. reflexivity.
Qed.

(** C8 (as the code has it).  Argument handling always yields an
    iteration count and never raises.  A second command-line word that
    [int] rejects gives 20 and prints the warning; one that [int]
    accepts gives its value and prints it; with no second word the
    count is 20 and nothing is printed, warning included. *)
Theorem argument_handling :
  forall (argv : list string) (s : state),
    exists (n : Z) (s' : state),
      iterations_of_argv argv s = (Ok n, s') /\
      reporter s' = reporter s /\
      match argv with
      | _ :: arg :: _ =>
          match py_int arg with
          | Raise _ =>
              n = 20 /\
              trace s' = (trace s ++ [EvPrint (Line invalid_count_warning)])%list
          | Ok z =>
              n = z /\
              trace s'
              = (trace s ++ [EvPrint (Line ("Using custom iteration count: "
                                            ++ str_int z))])%list
          end
      | _ => n = 20 /\ trace s' = trace s
      end.
Proof.
  intros argv s. destruct argv as [|prog [|arg rest]].
  - exists 20, s. repeat split.
  - exists 20, s. repeat split.
  - unfold iterations_of_argv, try_except_ValueError, bind, lift.
    destruct (py_int arg) as [z|e] eqn:E.
    + eexists _, _. split; [reflexivity|]. repeat split.
    + rewrite (py_int_raises_ValueError arg e E). cbn.
      eexists _, _. split; [reflexivity|]. repeat split.
Qed.

(** C8, the claim as written, fails: with no argument the count is 20
    but no warning is printed, neither by the argument handling nor
    anywhere in the run. *)
Lemma missing_argument_gives_no_warning :
  run (iterations_of_argv ["fuzz.py"]) = (Ok 20, initial_state) /\
  trace initial_state = [] /\
  existsb (fun e => match e with
                    | EvPrint (Line t) => String.eqb t invalid_count_warning
                    | _ => false
                    end)
          (trace (snd (run (main (world_with calm_targets) ["fuzz.py"]))))
  = false.
Proof.
  split; [reflexivity|]. split; [reflexivity|]. vm_compute. reflexivity.
Qed.

(** What [int] rejects and accepts, by example. *)
Example py_int_examples :
  (exists e, py_int "abc" = Raise e) /\ (exists e, py_int "" = Raise e) /\
  (exists e, py_int "1.5" = Raise e) /\ (exists e, py_int "twenty" = Raise e) /\
  (exists e, py_int "1__0" = Raise e) /\
  (exists e, py_int (String (ascii_of_nat 28) "7") = Raise e) /\
  py_int " 12 " = Ok 12 /\ py_int "1_000" = Ok 1000 /\ py_int "-7" = Ok (-7).
Proof. repeat split; try (eexists; reflexivity). Qed.

(** ** Random strings *)

Lemma length_string_of_list_ascii (l : list ascii) :
  String.length (string_of_list_ascii l) = List.length l.
Proof. induction l; simpl; congruence. Qed.

Lemma alphabet_nonempty : alphabet <> [].
Proof. vm_compute. discriminate. Qed.

Lemma choices_returns {A : Type} (W : World) (population : list A) (k : nat)
    (s : state) :
  population <> [] ->
  exists cs,
    choices W population k s = (Ok cs, set_draws (draws s + k) s) /\
    List.length cs = k /\ Forall (fun c => In c population) cs.
Proof.
  intros Hne. destruct population as [|x rest]; [congruence|].
  revert s. induction k as [|k IH]; intros s.
  - exists []. cbn [choices]. unfold ret. rewrite Nat.add_0_r.
    destruct s; repeat split; constructor.
  - cbn [choices]. unfold bind, draw.
    destruct (IH (set_draws (S (draws s)) s)) as (cs & E & L & F).
    rewrite E. eexists. split; [unfold ret; f_equal|split].
    + unfold set_draws. cbn [draws reporter calls ticks frame handling trace].
      f_equal. lia.
    + cbn [List.length]. now rewrite L.
    + constructor; [|exact F]. apply nth_In. apply Nat.mod_upper_bound.
      cbn [List.length]. discriminate.
Qed.

Lemma choices_alphabet (W : World) (k : nat) (s : state) :
  exists cs,
    choices W alphabet k s = (Ok cs, set_draws (draws s + k) s) /\
    List.length cs = k /\ Forall (fun c => In c alphabet) cs.
Proof. apply choices_returns, alphabet_nonempty. Qed.

(** C9.  [generate_random_string] always returns a string.  Its
    characters are letters, digits and punctuation.  Given a length [k]
    it has exactly [k] characters (none when [k] is negative); given no
    length it has as many characters as [randint(0, 100)] draws, a
    number of [0..100] that is the raw draw modulo 101, so that every
    length of [0..100], the empty string included, is reached. *)
Theorem generate_random_string_returns :
  forall (W : World) (length : option Z) (s : state),
    exists (str : string) (s' : state),
      generate_random_string W length s = (Ok str, s') /\
      Forall (fun c => In c alphabet) (list_ascii_of_string str) /\
      match length with
      | Some k => Z.of_nat (String.length str) = Z.max 0 k
      | None =>
          String.length str = (entropy W (draws s) mod 101)%nat /\
          (String.length str <= 100)%nat /\
          ((entropy W (draws s) mod 101)%nat = 0%nat <-> str = "")
      end.
Proof.
  intros W length s. unfold generate_random_string.
  destruct length as [k|].
  - unfold bind at 1. unfold ret at 1.
    destruct (choices_alphabet W (range_len k) s) as (cs & E & L & F).
    unfold bind. rewrite E. eexists _, _. split; [reflexivity|].
    rewrite list_ascii_of_string_of_list_ascii, length_string_of_list_ascii, L.
    split; [exact F|]. unfold range_len. lia.
  - unfold bind at 1. unfold randint. change (Z.ltb 100 0) with false. cbv iota.
    unfold bind at 1. unfold draw at 1. unfold ret at 1.
    set (n := range_len _).
    destruct (choices_alphabet W n (set_draws (S (draws s)) s)) as (cs & E & L & F).
    unfold bind. rewrite E. eexists _, _. split; [reflexivity|].
    rewrite list_ascii_of_string_of_list_ascii, length_string_of_list_ascii, L.
    split; [exact F|].
    assert (Hn : n = (entropy W (draws s) mod 101)%nat).
    { subst n. unfold range_len. change (100 - 0 + 1) with (Z.of_nat 101).
      now rewrite Z.add_0_l, <- Nat2Z.inj_mod, Nat2Z.id. }
    split; [exact Hn|]. split.
    + rewrite Hn. pose proof (Nat.mod_upper_bound (entropy W (draws s)) 101). lia.
    + rewrite <- Hn, <- L. destruct cs; simpl; split; intros H;
        try reflexivity; discriminate.
Qed.

(** ** The run on a parser that fails in the second campaign *)

Ltac find_event := repeat (first [left; reflexivity | right]).

(** C1 fails on the code.  Take one random iteration and a parser that
    raises [FileNotFoundError] on missing files and [SyntaxError] on
    invalid source.  The first campaign logs its five missing files as
    failures.  In the second campaign the file holds invalid source,
    the parser raises [SyntaxError], and the handler formats
    [name_to_track], which has no value yet: an [UnboundLocalError]
    leaves the handler.  The parser's failure is never logged, and the
    new exception leaves the campaign, the run and [main]. *)
Theorem unbound_name_escapes_the_campaign :
  let W := world_of invalid_source_in_second_campaign strict_parser in
  let '(r, s) := run (run_all_fuzzing W 1) in
  r = Raise (UnboundLocalError "name_to_track") /\
  In (EvCreate invalid_file "invalid python code @#$%") (trace s) /\
  In (EvCall getPythonParseObject [VStr invalid_file] (Raise SyntaxError)) (trace s) /\
  logs_of "checkLoggingPerData" (trace s) = [] /\
  map bug_error_type (bugs_found (reporter s))
  = ["FileNotFoundError"; "FileNotFoundError"; "FileNotFoundError";
     "FileNotFoundError"; "FileNotFoundError"] /\
  fst (run (main W ["fuzz.py"; "1"])) = Raise (UnboundLocalError "name_to_track") /\
  exit_status W ["fuzz.py"; "1"] = 1.
Proof. vm_compute. repeat split; find_event. Qed.

(** C4 fails on the code, by the same defect: in the same world, with
    one random iteration, the run stops in the second campaign after 6
    logged outcomes instead of 5 * 1 + 24 = 29, and the parser call
    that stopped it is among the 7 calls made but not among the
    outcomes logged. *)
Theorem aborted_run_logs_fewer_outcomes :
  let W := world_of invalid_source_in_second_campaign strict_parser in
  let '(r, s) := run (run_all_fuzzing W 1) in
  r = Raise (UnboundLocalError "name_to_track") /\
  test_count (reporter s) = 6 /\
  test_count (reporter s) <> (1 + 5) + (1 + 0) + (1 + 8) + (1 + 6) + (1 + 5) /\
  List.length (calls_of getPythonParseObject (trace s)) = 7%nat /\
  List.length (logs_of "getPythonParseObject" (trace s)
               ++ logs_of "checkLoggingPerData" (trace s)) = 6%nat.
Proof. vm_compute. repeat split; auto; discriminate. Qed.

(** C5 fails on the code, by the same defect: in the same world the
    fixed inputs of the third, fourth and fifth campaigns are all
    called and logged when the iteration count is 0, and none of them
    is when it is 1. *)
Theorem edge_cases_depend_on_the_iteration_count :
  let W := world_of invalid_source_in_second_campaign strict_parser in
  let '(r0, s0) := run (run_all_fuzzing W 0) in
  let '(r1, s1) := run (run_all_fuzzing W 1) in
  (r0 = Ok tt /\
   List.length (calls_of getPythonParseObject (trace s0)) = 5%nat /\
   List.length (logs_of "getPythonParseObject" (trace s0)) = 5%nat /\
   List.length (calls_of days_between (trace s0)) = 8%nat /\
   List.length (logs_of "days_between" (trace s0)) = 8%nat /\
   List.length (calls_of getPythonFileCount (trace s0)) = 6%nat /\
   List.length (logs_of "getPythonFileCount" (trace s0)) = 6%nat /\
   List.length (calls_of getDataLoadCount (trace s0)) = 5%nat /\
   List.length (logs_of "getDataLoadCount" (trace s0)) = 5%nat) /\
  (r1 = Raise (UnboundLocalError "name_to_track") /\
   calls_of days_between (trace s1) = [] /\
   logs_of "days_between" (trace s1) = [] /\
   calls_of getPythonFileCount (trace s1) = [] /\
   logs_of "getPythonFileCount" (trace s1) = [] /\
   calls_of getDataLoadCount (trace s1) = [] /\
   logs_of "getDataLoadCount" (trace s1) = []).
Proof. vm_compute. repeat split; auto. Qed.

(** C7 fails on the code, by the same defect: with a parser that
    tolerates missing files and raises [SyntaxError] on invalid
    source, no failure is ever logged, yet the process ends with
    status 1, on the [UnboundLocalError] that reaches the top level. *)
Theorem status_one_without_logged_failure :
  let W := world_of invalid_source_in_second_campaign tolerant_parser in
  let '(r, s) := run (script W ["fuzz.py"; "1"]) in
  r = Raise (UnboundLocalError "name_to_track") /\
  In (EvCreate invalid_file "invalid python code @#$%") (trace s) /\
  crash_count (reporter s) = 0 /\
  bugs_found (reporter s) = [] /\
  test_count (reporter s) = 6 /\
  exit_status W ["fuzz.py"; "1"] = 1.
Proof. vm_compute. repeat split; find_event. Qed.

(** ** Computations that only draw *)

Lemma set_draws_twice (n m : nat) (s : state) :
  set_draws n (set_draws m s) = set_draws n s.
Proof. reflexivity. Qed.

Lemma quiet_ret {A : Type} (a : A) : quiet (ret a).
Proof. intros s. exists a, (draws s). now destruct s. Qed.

Lemma quiet_bind {A B : Type} (m : M A) (k : A -> M B) :
  quiet m -> (forall a, quiet (k a)) -> quiet (bind m k).
Proof.
  intros Hm Hk s. destruct (Hm s) as (a & n & E).
  destruct (Hk a (set_draws n s)) as (b & n' & E').
  exists b, n'. unfold bind. now rewrite E, E'.
Qed.

Lemma quiet_draw (W : World) : quiet (draw W).
Proof. intros s. eexists _, _. reflexivity. Qed.

Lemma quiet_randint (W : World) (a b : Z) : a <= b -> quiet (randint W a b).
Proof.
  intros H. unfold randint. destruct (b <? a) eqn:E; [lia|].
  apply quiet_bind; [apply quiet_draw | intros; apply quiet_ret].
Qed.

Lemma quiet_choice {A : Type} (W : World) (x : A) (rest : list A) :
  quiet (choice W (x :: rest)).
Proof.
  unfold choice. apply quiet_bind; [apply quiet_draw | intros; apply quiet_ret].
Qed.

Lemma quiet_choices_alphabet (W : World) (k : nat) : quiet (choices W alphabet k).
Proof.
  intros s. destruct (choices_alphabet W k s) as (cs & E & _).
  now exists cs, (draws s + k)%nat.
Qed.

Lemma quiet_generate_random_string (W : World) (length : option Z) :
  quiet (generate_random_string W length).
Proof.
  unfold generate_random_string. apply quiet_bind.
  - destruct length; [apply quiet_ret | apply quiet_randint; lia].
  - intros k. apply quiet_bind; [apply quiet_choices_alphabet|].
    intros; apply quiet_ret.
Qed.

Lemma quiet_generate_random_python_code (W : World) :
  quiet (generate_random_python_code W).
Proof.
  unfold generate_random_python_code.
  repeat (apply quiet_bind; [apply quiet_generate_random_string | intros ?]).
  apply quiet_choice.
Qed.

Lemma quiet_generate_random_date (W : World) : quiet (generate_random_date W).
Proof.
  unfold generate_random_date.
  apply quiet_bind; [apply quiet_randint; lia | intros; apply quiet_ret].
Qed.

(** ** Counting logged outcomes *)

Lemma counted_refl (s : state) : counted 0 s s.
Proof. unfold counted. lia. Qed.

Lemma counted_trans (i j : Z) (s1 s2 s3 : state) :
  counted i s1 s2 -> counted j s2 s3 -> counted (i + j) s1 s3.
Proof. unfold counted. lia. Qed.

Lemma counted_same_reporter (s s' : state) :
  reporter s' = reporter s -> counted 0 s s'.
Proof. unfold counted. intros ->. lia. Qed.

Lemma counted_log_test (W : World) (method input : string) (result : pyval)
    (error : option exn) (tb : string) (s s' : state) :
  reporter s' = log_test method input result error tb (reporter s) ->
  counted 1 s s'.
Proof.
  unfold counted, log_test. intros ->.
  destruct error as [e|]; [destruct (exn_truthy e)|]; simpl; lia.
Qed.

Ltac same_reporter :=
  eexists _, _; split; [reflexivity | apply counted_same_reporter; reflexivity].

Lemma logs_ret {A : Type} (a : A) : logs_outcomes (ret a) 0.
Proof. intros s. same_reporter. Qed.

Lemma logs_bind {A B : Type} (m : M A) (k : A -> M B) (i j : Z) :
  logs_outcomes m i -> (forall a, logs_outcomes (k a) j) ->
  logs_outcomes (bind m k) (i + j).
Proof.
  intros Hm Hk s. destruct (Hm s) as (a & s1 & E1 & C1).
  destruct (Hk a s1) as (b & s2 & E2 & C2).
  exists b, s2. unfold bind. rewrite E1, E2.
  split; [reflexivity | eapply counted_trans; eassumption].
Qed.

Lemma logs_eq {A : Type} (m : M A) (k k' : Z) :
  logs_outcomes m k -> k = k' -> logs_outcomes m k'.
Proof. now intros H <-. Qed.

Lemma logs_quiet {A : Type} (m : M A) : quiet m -> logs_outcomes m 0.
Proof.
  intros H s. destruct (H s) as (a & n & E). exists a, (set_draws n s).
  split; [exact E | apply counted_same_reporter; reflexivity].
Qed.

Lemma logs_print (l : line) : logs_outcomes (print l) 0.
Proof. intros s. same_reporter. Qed.

Lemma logs_create_temp_python_file (W : World) (content : string) :
  logs_outcomes (create_temp_python_file W content) 0.
Proof. intros s. same_reporter. Qed.

Lemma logs_mkdtemp (W : World) : logs_outcomes (mkdtemp W) 0.
Proof. intros s. same_reporter. Qed.

Lemma logs_write_file (path content : string) :
  logs_outcomes (write_file path content) 0.
Proof. intros s. same_reporter. Qed.

Lemma logs_store (x : string) (v : pyval) : logs_outcomes (store x v) 0.
Proof. intros s. same_reporter. Qed.

Lemma logs_datetime_now : logs_outcomes datetime_now 0.
Proof. intros s. same_reporter. Qed.

Lemma logs_reporter_log_test (W : World) (method input : string) (result : pyval)
    (error : option exn) :
  logs_outcomes (reporter_log_test W method input result error) 1.
Proof.
  intros s. eexists _, _. split; [reflexivity|].
  eapply (counted_log_test W). reflexivity.
Qed.

(** Cleanup never fails and logs nothing. *)
Lemma logs_swallow_unlink (W : World) (path : string) :
  logs_outcomes (swallow (os_unlink W path)) 0.
Proof.
  intros s. unfold swallow, os_unlink.
  destruct (cleanup_error W (ticks s)); same_reporter.
Qed.

Lemma logs_swallow_rmtree (W : World) (path : string) :
  logs_outcomes (swallow (shutil_rmtree W path)) 0.
Proof.
  intros s. unfold swallow, shutil_rmtree.
  destruct (cleanup_error W (ticks s)); same_reporter.
Qed.

Lemma logs_try_finally {A : Type} (m : M A) (final : M unit) (k j : Z) :
  logs_outcomes m k -> logs_outcomes final j -> j = 0 ->
  logs_outcomes (try_finally m final) k.
Proof.
  intros Hm Hf -> s. destruct (Hm s) as (a & s1 & E1 & C1).
  destruct (Hf s1) as ([] & s2 & E2 & C2).
  exists a, s2. unfold try_finally. rewrite E1, E2. split; [reflexivity|].
  replace k with (k + 0) by lia. eapply counted_trans; eassumption.
Qed.

Lemma logs_in_new_frame {A : Type} (m : M A) (k : Z) :
  logs_outcomes m k -> logs_outcomes (in_new_frame m) k.
Proof.
  intros Hm s. destruct (Hm (set_frame [] s)) as (a & s1 & E1 & C1).
  exists a, (set_frame (frame s) s1). unfold in_new_frame. rewrite E1.
  split; [reflexivity | exact C1].
Qed.

Lemma logs_for_range (n i : nat) (body : nat -> M unit) (k : Z) :
  (forall j, logs_outcomes (body j) k) ->
  logs_outcomes (for_range n i body) (Z.of_nat n * k).
Proof.
  intros Hb. revert i. induction n as [|n IH]; intros i.
  - apply logs_ret.
  - replace (Z.of_nat (S n) * k) with (k + Z.of_nat n * k) by lia.
    cbn [for_range]. apply logs_bind; [apply Hb | intros _; apply IH].
Qed.

Lemma logs_for_each {A : Type} (xs : list A) (body : A -> M unit) (k : Z) :
  (forall x, logs_outcomes (body x) k) ->
  logs_outcomes (for_each xs body) (Z.of_nat (List.length xs) * k).
Proof.
  intros Hb. induction xs as [|x xs IH].
  - apply logs_ret.
  - replace (Z.of_nat (List.length (x :: xs)) * k)
      with (k + Z.of_nat (List.length xs) * k) by (cbn [List.length]; lia).
    cbn [for_each]. apply logs_bind; [apply Hb | intros _; apply IH].
Qed.

Lemma attempts_bind {A B : Type} (m : M A) (k : A -> M B) (i j : Z) :
  logs_outcomes m i -> i = 0 -> (forall a, attempts (k a) j) ->
  attempts (bind m k) j.
Proof.
  intros Hm -> Hk s. destruct (Hm s) as (a & s1 & E1 & C1).
  unfold bind. rewrite E1. specialize (Hk a s1).
  destruct (k a s1) as [[b|e] s2].
  - replace j with (0 + j) by lia. eapply counted_trans; eassumption.
  - replace 0 with (0 + 0) by lia. eapply counted_trans; eassumption.
Qed.

Lemma attempts_call_and_log (W : World) (op : target) (args : list pyval)
    (method : string) (input : pyval -> string) :
  attempts (result <- call W op args ;;
            reporter_log_test W method (input result) result None) 1.
Proof.
  intros s. unfold bind, call.
  destruct (run_target W op (calls s) args) as [v|e].
  - eapply (counted_log_test W). reflexivity.
  - apply counted_same_reporter. reflexivity.
Qed.

(** The pattern of every campaign: a body that logs once unless it
    raises first, and a handler that logs the exception.  One outcome
    is logged either way and nothing is raised. *)
Lemma logs_try_except {A : Type} (body : M A) (handler : exn -> M A) (k : Z) :
  attempts body k -> (forall e, logs_outcomes (handler e) k) ->
  logs_outcomes (try_except body handler) k.
Proof.
  intros Hb Hh s. unfold try_except. specialize (Hb s).
  destruct (body s) as [[a|e] s1].
  - now exists a, s1.
  - destruct (Hh e (set_handling (Some e) s1)) as (a & s2 & E2 & C2).
    rewrite E2. eexists _, _. split; [reflexivity|].
    unfold counted in *. simpl in *. lia.
Qed.

Ltac logs :=
  cbv zeta;
  lazymatch goal with
  | |- logs_outcomes (try_except (bind (call _ _ _) _) _) _ =>
      apply logs_try_except;
      [ apply (attempts_call_and_log _ _ _ _ (fun _ => _))
      | intros ?; apply logs_reporter_log_test ]
  | |- logs_outcomes (bind _ _) _ => eapply logs_bind; [logs | intros ?; logs]
  | |- logs_outcomes (ret _) _ => apply logs_ret
  | |- logs_outcomes (print_str _) _ => apply logs_print
  | |- logs_outcomes (in_new_frame _) _ => apply logs_in_new_frame; logs
  | |- logs_outcomes (for_range _ _ _) _ => eapply logs_for_range; intros ?; logs
  | |- logs_outcomes (for_each _ _) _ => eapply logs_for_each; intros ?; logs
  | |- logs_outcomes (try_finally _ _) _ =>
      eapply logs_try_finally; [logs | logs | reflexivity]
  | |- logs_outcomes (swallow (os_unlink _ _)) _ => apply logs_swallow_unlink
  | |- logs_outcomes (swallow (shutil_rmtree _ _)) _ => apply logs_swallow_rmtree
  | |- logs_outcomes (generate_random_python_code _) _ =>
      apply logs_quiet, quiet_generate_random_python_code
  | |- logs_outcomes (generate_random_string _ _) _ =>
      apply logs_quiet, quiet_generate_random_string
  | |- logs_outcomes (generate_random_date _) _ =>
      apply logs_quiet, quiet_generate_random_date
  | |- logs_outcomes (choice _ (_ :: _)) _ => apply logs_quiet, quiet_choice
  | |- logs_outcomes (randint _ _ _) _ => apply logs_quiet, quiet_randint; lia
  | |- logs_outcomes (create_temp_python_file _ _) _ =>
      apply logs_create_temp_python_file
  | |- logs_outcomes (mkdtemp _) _ => apply logs_mkdtemp
  | |- logs_outcomes (write_file _ _) _ => apply logs_write_file
  | |- logs_outcomes (store _ _) _ => apply logs_store
  | |- logs_outcomes datetime_now _ => apply logs_datetime_now
  | |- logs_outcomes (reporter_log_test _ _ _ _ _) _ => apply logs_reporter_log_test
  end.

(** The first campaign logs one outcome per random iteration and one
    per nonexistent path, whatever the parser does. *)
Lemma fuzz_getPythonParseObject_logs (W : World) (iterations : Z) :
  logs_outcomes (fuzz_getPythonParseObject W iterations)
                (Z.of_nat (range_len iterations) + 5).
Proof.
  eapply logs_eq; [unfold fuzz_getPythonParseObject; logs | lia].
Qed.

(** So does the fifth. *)
Lemma fuzz_getDataLoadCount_logs (W : World) (iterations : Z) :
  logs_outcomes (fuzz_getDataLoadCount W iterations)
                (Z.of_nat (range_len iterations) + 5).
Proof.
  eapply logs_eq; [unfold fuzz_getDataLoadCount; logs | lia].
Qed.

(** The random pass of the third campaign: the two dates are stored
    before the call, so the handler finds them. *)
Lemma days_between_random_logs (W : World) :
  logs_outcomes
    (try_except
       (d1 <- generate_random_date W ;;
        store "d1" d1 ;;
        d2 <- generate_random_date W ;;
        store "d2" d2 ;;
        result <- call W days_between [d1; d2] ;;
        reporter_log_test W "days_between"
          ("d1: " ++ py_str W d1 ++ ", d2: " ++ py_str W d2) result None)
       (days_between_failed W))
    1.
Proof.
  intros s.
  unfold try_except, bind, generate_random_date, randint, draw, ret, store, call,
    days_between_failed, load, reporter_log_test.
  cbn -[log_test Z.modulo Z.of_nat py_str].
  destruct (run_target W days_between _ _) as [v|e];
    cbn -[log_test Z.modulo Z.of_nat py_str];
    (eexists _, _; split; [reflexivity|]);
    eapply (counted_log_test W); reflexivity.
Qed.

(** A fixed pass of the third campaign. *)
Lemma days_between_edge_logs (W : World) (d1 d2 : pyval) :
  logs_outcomes
    (store "d1" d1 ;;
     store "d2" d2 ;;
     try_except
       (result <- call W days_between [d1; d2] ;;
        reporter_log_test W "days_between"
          ("d1: " ++ py_str W d1 ++ ", d2: " ++ py_str W d2) result None)
       (days_between_failed W))
    1.
Proof.
  intros s.
  unfold try_except, bind, store, call, days_between_failed, load, reporter_log_test.
  cbn -[log_test py_str].
  destruct (run_target W days_between _ _) as [v|e]; cbn -[log_test py_str];
    (eexists _, _; split; [reflexivity|]);
    eapply (counted_log_test W); reflexivity.
Qed.

(** A list built without logging, then a loop over it. *)
Lemma logs_bind_list {A : Type} (m : M (list A)) (k : list A -> M unit)
    (n : nat) (j : Z) :
  (forall s, exists l s', m s = (Ok l, s') /\ reporter s' = reporter s /\
                          List.length l = n) ->
  (forall l, List.length l = n -> logs_outcomes (k l) j) ->
  logs_outcomes (bind m k) j.
Proof.
  intros Hm Hk s. destruct (Hm s) as (l & s1 & E1 & R1 & L1).
  destruct (Hk l L1 s1) as (b & s2 & E2 & C2).
  exists b, s2. unfold bind. rewrite E1, E2. split; [reflexivity|].
  unfold counted in *. rewrite R1 in C2. exact C2.
Qed.

Lemma days_between_edge_cases_length (s : state) :
  exists l s', days_between_edge_cases s = (Ok l, s') /\
               reporter s' = reporter s /\ List.length l = 8%nat.
Proof. eexists _, _. split; [reflexivity|]. split; reflexivity. Qed.

Lemma invalid_dirs_length (W : World) (s : state) :
  exists l s', invalid_dirs W s = (Ok l, s') /\
               reporter s' = reporter s /\ List.length l = 6%nat.
Proof.
  unfold invalid_dirs, bind.
  destruct (quiet_generate_random_string W None s) as (r & n & ->).
  eexists _, _. split; [reflexivity|]. split; reflexivity.
Qed.

(** The third campaign logs one outcome per random pair and one per
    fixed pair, whatever [days_between] does. *)
Lemma fuzz_days_between_logs (W : World) (iterations : Z) :
  logs_outcomes (fuzz_days_between W iterations)
                (Z.of_nat (range_len iterations) + 8).
Proof.
  unfold fuzz_days_between. apply logs_in_new_frame.
  eapply logs_eq.
  - eapply logs_bind; [logs | intros _].
    eapply logs_bind.
    + eapply logs_for_range. intros _. apply days_between_random_logs.
    + intros _. eapply logs_bind_list with (n := 8%nat).
      * apply days_between_edge_cases_length.
      * intros l Hl. eapply logs_eq.
        -- eapply logs_for_each. intros [d1 d2]. apply days_between_edge_logs.
        -- rewrite Hl. reflexivity.
  - lia.
Qed.

(** The body of the fourth campaign's [try]: it raises only if the
    counter does, before anything is logged. *)
Lemma populate_and_count_attempts (W : World) (temp_dir : string) :
  attempts (populate_and_count W temp_dir) 1.
Proof.
  unfold populate_and_count.
  repeat (eapply attempts_bind; [logs | lia | intros ?]).
  match goal with
  | |- attempts (bind (call _ _ _) ?k) _ =>
      apply (attempts_call_and_log W getPythonFileCount _ _
               (fun result => file_count_message W temp_dir _ _ _ result))
  end.
Qed.

Lemma file_count_iteration_logs (W : World) :
  logs_outcomes (file_count_iteration W) 1.
Proof.
  unfold file_count_iteration. eapply logs_eq.
  - eapply logs_bind; [logs | intros temp_dir].
    eapply logs_try_finally; [|logs|reflexivity].
    apply logs_try_except; [apply populate_and_count_attempts|].
    intros e. logs.
  - lia.
Qed.

(** The fourth campaign logs one outcome per random directory and one
    per invalid one, whatever the counter does. *)
Lemma fuzz_getPythonFileCount_logs (W : World) (iterations : Z) :
  logs_outcomes (fuzz_getPythonFileCount W iterations)
                (Z.of_nat (range_len iterations) + 6).
Proof.
  unfold fuzz_getPythonFileCount. apply logs_in_new_frame.
  eapply logs_eq.
  - eapply logs_bind; [logs | intros _].
    eapply logs_bind.
    + eapply logs_for_range. intros _. apply file_count_iteration_logs.
    + intros _. eapply logs_bind_list with (n := 6%nat).
      * apply invalid_dirs_length.
      * intros l Hl. eapply logs_eq; [logs | rewrite Hl; reflexivity].
  - lia.
Qed.

(** ** The second campaign *)

(** The guarded part of one pass of the second campaign, for any file
    and content.  It logs one outcome and leaves [name_to_track] with a
    value, except when the parser raises while [name_to_track] has
    none: then nothing is logged and an [UnboundLocalError] is raised. *)
Lemma checkLoggingPerData_guarded_cases (W : World) (code temp_file : string)
    (s : state) :
  match
    try_finally
      (try_except
         (tree <- call W getPythonParseObject [VStr temp_file] ;;
          rs <- generate_random_string W (Some 10) ;;
          name <- choice W [VStr "data"; VStr "test_var"; VStr rs; VStr "";
                            VNone; VInt 123] ;;
          store "name_to_track" name ;;
          result <- call W checkLoggingPerData [tree; name] ;;
          reporter_log_test W "checkLoggingPerData"
            ("name: " ++ py_str W name ++ ", code: " ++ take 50 code)
            result None)
         (fun e =>
            name <- load "name_to_track" ;;
            reporter_log_test W "checkLoggingPerData"
              ("name: " ++ py_str W name ++ ", code: " ++ take 50 code)
              VNone (Some e)))
      (swallow (os_unlink W temp_file)) s
  with
  | (Ok _, s') => counted 1 s s' /\ bound "name_to_track" s'
  | (Raise e, s') =>
      e = UnboundLocalError "name_to_track" /\ counted 0 s s' /\
      ~ bound "name_to_track" s /\
      exists e0,
        run_target W getPythonParseObject (calls s) [VStr temp_file] = Raise e0
  end.
Proof.
  unfold try_finally, try_except. unfold bind at 1. unfold call at 1.
  destruct (run_target W getPythonParseObject (calls s) [VStr temp_file])
    as [tree|e0] eqn:Eparse.
  - unfold bind at 1.
    match goal with
    | |- context [generate_random_string W ?l ?st] =>
        destruct (quiet_generate_random_string W l st) as (rs & n' & ->)
    end.
    generalize (take 50 code). intros code50.
    unfold bind, choice, draw, ret, store, call, reporter_log_test, swallow, os_unlink.
    cbn -[log_test py_str nth String.append].
    destruct (run_target W checkLoggingPerData _ _) as [v|e];
      cbn -[log_test py_str nth String.append];
      destruct (cleanup_error W _); cbn -[log_test py_str nth String.append];
      (split; [eapply (counted_log_test W); reflexivity
              | unfold bound; cbn -[nth]; discriminate]).
  - generalize (take 50 code). intros code50.
    unfold bind, load, reporter_log_test, swallow, os_unlink.
    cbn -[log_test py_str String.append lookup].
    destruct (lookup "name_to_track" (frame s)) as [name|] eqn:Ename;
      cbn -[log_test py_str String.append lookup];
      destruct (cleanup_error W _); cbn -[log_test py_str String.append lookup].
    + split; [eapply (counted_log_test W); reflexivity | unfold bound; cbn -[lookup]; congruence].
    + split; [eapply (counted_log_test W); reflexivity | unfold bound; cbn -[lookup]; congruence].
    + split; [reflexivity|]. split; [apply counted_same_reporter; reflexivity|].
      split; [unfold bound; congruence | eauto].
    + split; [reflexivity|]. split; [apply counted_same_reporter; reflexivity|].
      split; [unfold bound; congruence | eauto].
Qed.

(** One pass of the second campaign: the same two cases. *)
Lemma checkLoggingPerData_iteration_cases (W : World) (s : state) :
  match checkLoggingPerData_iteration W s with
  | (Ok _, s') => counted 1 s s' /\ bound "name_to_track" s'
  | (Raise e, s') =>
      e = UnboundLocalError "name_to_track" /\ counted 0 s s' /\
      ~ bound "name_to_track" s /\
      exists path e0,
        run_target W getPythonParseObject (calls s) [VStr path] = Raise e0
  end.
Proof.
  unfold checkLoggingPerData_iteration. unfold bind at 1.
  destruct (quiet_generate_random_python_code W s) as (rc & n & ->).
  unfold bind at 1.
  match goal with
  | |- context [choice W (?x :: ?l) ?st] =>
      destruct (quiet_choice W x l st) as (code & n' & ->)
  end.
  unfold bind at 1, create_temp_python_file.
  match goal with
  | |- match try_finally _ _ ?st with _ => _ end =>
      pose proof (checkLoggingPerData_guarded_cases W code
                    (os_name W (ticks (set_draws n' (set_draws n s))) ++ ".py") st) as H;
      destruct (try_finally _ _ st) as [[[]|e] s']
  end.
  - exact H.
  - destruct H as (-> & Hc & Hb & e0 & He).
    split; [reflexivity|]. split; [exact Hc|]. split; [exact Hb|].
    eexists _, e0. exact He.
Qed.

(** Once [name_to_track] has a value every pass completes. *)
Lemma checkLoggingPerData_loop_bound (W : World) (n i : nat) (s : state) :
  bound "name_to_track" s ->
  exists s',
    for_range n i (fun _ => checkLoggingPerData_iteration W) s = (Ok tt, s') /\
    counted (Z.of_nat n) s s' /\ bound "name_to_track" s'.
Proof.
  revert i s. induction n as [|n IH]; intros i s Hb.
  - exists s. split; [reflexivity|]. split; [apply counted_refl | exact Hb].
  - cbn [for_range]. unfold bind.
    pose proof (checkLoggingPerData_iteration_cases W s) as H.
    destruct (checkLoggingPerData_iteration W s) as [[[]|e] s1].
    + destruct H as (C1 & B1). destruct (IH (S i) s1 B1) as (s2 & -> & C2 & B2).
      exists s2. split; [reflexivity|]. split; [|exact B2].
      replace (Z.of_nat (S n)) with (1 + Z.of_nat n) by lia.
      eapply counted_trans; eassumption.
    + destruct H as (_ & _ & Hn & _). contradiction.
Qed.

(** The loop of the second campaign: it completes with one outcome per
    pass, or stops in its first pass on the [UnboundLocalError]. *)
Lemma checkLoggingPerData_loop_cases (W : World) (n i : nat) (s : state) :
  match for_range n i (fun _ => checkLoggingPerData_iteration W) s with
  | (Ok _, s') => counted (Z.of_nat n) s s'
  | (Raise e, s') =>
      e = UnboundLocalError "name_to_track" /\ counted 0 s s' /\ (0 < n)%nat /\
      exists path e0,
        run_target W getPythonParseObject (calls s) [VStr path] = Raise e0
  end.
Proof.
  destruct n as [|n].
  - apply counted_refl.
  - cbn [for_range]. unfold bind.
    pose proof (checkLoggingPerData_iteration_cases W s) as H.
    destruct (checkLoggingPerData_iteration W s) as [[[]|e] s1].
    + destruct H as (C1 & B1).
      destruct (checkLoggingPerData_loop_bound W n (S i) s1 B1) as (s2 & -> & C2 & _).
      replace (Z.of_nat (S n)) with (1 + Z.of_nat n) by lia.
      eapply counted_trans; eassumption.
    + destruct H as (-> & C & _ & Hp).
      split; [reflexivity|]. split; [exact C|]. split; [lia | exact Hp].
Qed.

(** The second campaign as a whole. *)
Lemma fuzz_checkLoggingPerData_cases (W : World) (iterations : Z) (s : state) :
  match fuzz_checkLoggingPerData W iterations s with
  | (Ok _, s') => counted (Z.of_nat (range_len iterations)) s s'
  | (Raise e, s') =>
      e = UnboundLocalError "name_to_track" /\ counted 0 s s' /\
      0 < iterations /\
      exists path e0,
        run_target W getPythonParseObject (calls s) [VStr path] = Raise e0
  end.
Proof.
  unfold fuzz_checkLoggingPerData, in_new_frame, bind at 1, print_str, print.
  match goal with
  | |- context [for_range ?n ?i ?b ?st] =>
      pose proof (checkLoggingPerData_loop_cases W n i st) as H;
      destruct (for_range n i b st) as [[[]|e] s1]
  end.
  - exact H.
  - destruct H as (-> & C & Hn & Hp).
    split; [reflexivity|]. split; [exact C|].
    split; [unfold range_len in Hn; lia | exact Hp].
Qed.

(** With a parser that always returns, the second campaign completes. *)
Lemma fuzz_checkLoggingPerData_completes (W : World) (iterations : Z) (s : state) :
  parser_returns W ->
  exists s', fuzz_checkLoggingPerData W iterations s = (Ok tt, s').
Proof.
  intros Hp. pose proof (fuzz_checkLoggingPerData_cases W iterations s) as H.
  destruct (fuzz_checkLoggingPerData W iterations s) as [[[]|e] s1]; [eauto|].
  destruct H as (_ & _ & _ & path & e0 & He).
  destruct (Hp (calls s) [VStr path]) as (v & Hv). congruence.
Qed.

(** ** The whole run *)

Lemma bind_logs {A B : Type} (m : M A) (k : A -> M B) (i : Z) (s : state) :
  logs_outcomes m i ->
  exists a s1, counted i s s1 /\ bind m k s = k a s1.
Proof.
  intros H. destruct (H s) as (a & s1 & E & C). exists a, s1.
  split; [exact C|]. unfold bind. now rewrite E.
Qed.

Ltac step_logs dummy prove :=
  match goal with
  | |- context [bind ?m ?k ?st] =>
      let H := fresh "H" in
      let E := fresh "E" in
      eassert (H : logs_outcomes m _) by (prove dummy);
      destruct (bind_logs m k _ st H) as (? & ? & ? & E);
      rewrite E; clear E H; cbv beta
  end.

(** A report on a reporter that has logged something completes and
    changes no counter. *)
Lemma reporter_generate_report_logs (W : World) (s : state) :
  0 < test_count (reporter s) ->
  exists s', reporter_generate_report W s = (Ok tt, s') /\ reporter s' = reporter s.
Proof.
  intros Hpos. unfold reporter_generate_report, bind, get_reporter.
  assert (Hq := success_rate_positive (reporter s) ltac:(lia)).
  destruct (generate_report_completes W (reporter s) _ s Hq eq_refl)
    as (s' & E & R & _).
  exists s'. now rewrite E.
Qed.

(** What a run can do.  Either it completes, and has logged
    [5 * max(iterations, 0) + 24] outcomes; or it stops in the second
    campaign on the [UnboundLocalError] of [name_to_track], with at
    least one iteration asked for, after the [max(iterations, 0) + 5]
    outcomes of the first campaign, because the parser raised. *)
Lemma run_all_fuzzing_outcome (W : World) (iterations : Z) (s : state) :
  0 <= test_count (reporter s) ->
  match run_all_fuzzing W iterations s with
  | (Ok _, s') => counted (5 * Z.max 0 iterations + 24) s s'
  | (Raise e, s') =>
      e = UnboundLocalError "name_to_track" /\ 0 < iterations /\
      counted (iterations + 5) s s' /\
      exists n path e0,
        run_target W getPythonParseObject n [VStr path] = Raise e0
  end.
Proof.
  intros H0. unfold run_all_fuzzing.
  do 4 step_logs tt ltac:(fun _ => apply logs_print).
  step_logs tt ltac:(fun _ => apply fuzz_getPythonParseObject_logs).
  assert (Hn : Z.of_nat (range_len iterations) = Z.max 0 iterations)
    by (unfold range_len; lia).
  unfold bind at 1.
  match goal with
  | |- context [fuzz_checkLoggingPerData W iterations ?st] =>
      pose proof (fuzz_checkLoggingPerData_cases W iterations st) as Hcases;
      destruct (fuzz_checkLoggingPerData W iterations st) as [[[]|e] s6]
  end.
  - step_logs tt ltac:(fun _ => apply fuzz_days_between_logs).
    step_logs tt ltac:(fun _ => apply fuzz_getPythonFileCount_logs).
    step_logs tt ltac:(fun _ => apply fuzz_getDataLoadCount_logs).
    do 3 step_logs tt ltac:(fun _ => apply logs_print).
    unfold counted in *.
    match goal with
    | |- context [reporter_generate_report W ?st] =>
        destruct (reporter_generate_report_logs W st ltac:(lia)) as (s13 & -> & R)
    end.
    rewrite R. lia.
  - destruct Hcases as (-> & C6 & Hpos & path & e0 & He).
    split; [reflexivity|]. split; [exact Hpos|]. split; [unfold counted in *; lia|].
    eauto.
Qed.

(** With a parser that always returns, the run completes. *)
Lemma run_all_fuzzing_completes (W : World) (iterations : Z) (s : state) :
  parser_returns W -> 0 <= test_count (reporter s) ->
  exists s',
    run_all_fuzzing W iterations s = (Ok tt, s') /\
    counted (5 * Z.max 0 iterations + 24) s s'.
Proof.
  intros Hp H0. pose proof (run_all_fuzzing_outcome W iterations s H0) as H.
  destruct (run_all_fuzzing W iterations s) as [[[]|e] s']; [eauto|].
  destruct H as (_ & _ & _ & n & path & e0 & He).
  destruct (Hp n [VStr path]) as (v & Hv). congruence.
Qed.

(** ** The exit status *)

Lemma logs_iterations_of_argv (argv : list string) :
  logs_outcomes (iterations_of_argv argv) 0.
Proof.
  intros s. destruct argv as [|prog [|arg rest]]; try same_reporter.
  unfold iterations_of_argv, try_except_ValueError, bind, lift.
  destruct (py_int arg) as [z|e] eqn:E.
  - same_reporter.
  - rewrite (py_int_raises_ValueError arg e E). cbn. same_reporter.
Qed.

(** What [main] can do: it ends with [sys.exit(0)] after a run without
    logged failure, with [sys.exit(1)] after a run with one, and in
    both cases the run has logged [5 * max(n, 0) + 24] outcomes for
    some [n]; or the [UnboundLocalError] of the second campaign passes
    through it. *)
Lemma main_outcome (W : World) (argv : list string) :
  match run (main W argv) with
  | (Ok status, s) =>
      ((status = 0 /\ crash_count (reporter s) = 0) \/
       (status = 1 /\ 0 < crash_count (reporter s))) /\
      exists n, test_count (reporter s) = 5 * Z.max 0 n + 24
  | (Raise e, s) => e = UnboundLocalError "name_to_track"
  end.
Proof.
  unfold run, main.
  step_logs tt ltac:(fun _ => apply logs_print).
  step_logs tt ltac:(fun _ => apply logs_iterations_of_argv).
  unfold bind at 1, Fuzzer_init. unfold bind at 1.
  match goal with
  | |- context [run_all_fuzzing W ?n ?st] =>
      pose proof (run_all_fuzzing_outcome W n st ltac:(simpl; lia)) as Hrun;
      pose (N := n);
      destruct (run_all_fuzzing W n st) as [[[]|e] s3]
  end.
  - do 2 step_logs tt ltac:(fun _ => apply logs_print).
    unfold bind at 1, get_reporter. unfold counted in *.
    cbn [reporter set_reporter test_count crash_count FuzzReporter_init] in Hrun.
    destruct (0 <? crash_count (reporter _)) eqn:Ec;
      [apply Z.ltb_lt in Ec | apply Z.ltb_ge in Ec];
      unfold bind, print_str, print, ret; cbn [reporter emit]; (split; [|exists N; lia]).
    + right. split; [reflexivity | lia].
    + left. split; [reflexivity | lia].
  - apply Hrun.
Qed.

(** The status of the process when the imports succeed. *)
Lemma exit_status_after_imports (W : World) (argv : list string) :
  import_error W = None ->
  match run (main W argv) with
  | (Ok _, s) =>
      (exit_status W argv = 0 /\ crash_count (reporter s) = 0) \/
      (exit_status W argv = 1 /\ 0 < crash_count (reporter s))
  | (Raise _, _) => exit_status W argv = 1
  end.
Proof.
  intros Hi. unfold exit_status, script. rewrite Hi.
  pose proof (main_outcome W argv) as H. unfold run in *.
  destruct (main W argv initial_state) as [[status|e] s]; [|reflexivity].
  exact (proj1 H).
Qed.

(** The status of the process when the imports fail: 1, after one
    line on the console and nothing else. *)
Lemma exit_status_without_imports (W : World) (argv : list string) (e : exn) :
  import_error W = Some e ->
  exit_status W argv = 1 /\
  trace (snd (run (script W argv)))
  = [EvPrint (Line ("Error importing modules: " ++ exn_msg e))] /\
  reporter (snd (run (script W argv))) = FuzzReporter_init.
Proof.
  intros Hi. unfold exit_status, run, script. rewrite Hi. repeat split.
Qed.

(** ** File names *)

Lemma list_ascii_of_string_app (a b : string) :
  list_ascii_of_string (a ++ b)
  = (list_ascii_of_string a ++ list_ascii_of_string b)%list.
Proof. induction a as [|c a IH]; simpl; [reflexivity | now rewrite IH]. Qed.

Lemma starts_with_app (t b r : list ascii) :
  (List.length t <= List.length b)%nat ->
  starts_with t (b ++ r) = starts_with t b.
Proof.
  revert b. induction t as [|c t IH]; intros [|d b] H; simpl in *; try reflexivity;
    try lia.
  rewrite IH by lia. reflexivity.
Qed.

(** Whether a name ends with a suffix is decided by any tail of the
    name that is at least as long as the suffix. *)
Lemma endswith_app (a b t : string) :
  (String.length t <= String.length b)%nat ->
  endswith (a ++ b) t = endswith b t.
Proof.
  intros H. unfold endswith.
  rewrite list_ascii_of_string_app, rev_app_distr.
  apply starts_with_app.
  rewrite !length_rev.
  rewrite <- (length_string_of_list_ascii (list_ascii_of_string t)),
          <- (length_string_of_list_ascii (list_ascii_of_string b)),
          !string_of_list_ascii_of_string.
  exact H.
Qed.

Ltac decide_suffix :=
  unfold is_source, is_notebook, endswith, path_join;
  rewrite !list_ascii_of_string_app, !rev_app_distr;
  cbn; reflexivity.

Lemma source_path_is_source (temp_dir x : string) :
  let path := path_join temp_dir ("test" ++ x ++ ".py") in
  is_source path = true /\ is_notebook path = false.
Proof. split; decide_suffix. Qed.

Lemma notebook_path_is_notebook (temp_dir x : string) :
  let path := path_join temp_dir ("notebook" ++ x ++ ".ipynb") in
  is_source path = false /\ is_notebook path = true.
Proof. split; decide_suffix. Qed.

Lemma other_path_is_neither (temp_dir : string) (j : nat) (path : string) :
  other_path temp_dir j path ->
  is_source path = false /\ is_notebook path = false.
Proof.
  intros (ext & Hin & ->). simpl in Hin.
  destruct Hin as [<-|[<-|[<-|[<-|[]]]]]; split; decide_suffix.
Qed.

(** *** Numbered names are distinct *)

Lemma string_of_uint_digits (d : Decimal.uint) :
  all_digits (NilEmpty.string_of_uint d).
Proof.
  unfold all_digits.
  induction d; simpl; constructor; (reflexivity || assumption).
Qed.

Lemma str_int_nat_digits (j : nat) : all_digits (str_int (Z.of_nat j)).
Proof.
  unfold str_int. destruct (Z.of_nat j) as [|p|p] eqn:E; try lia.
  - repeat constructor.
  - simpl. unfold NilZero.string_of_uint.
    destruct (Pos.to_uint p) eqn:Ep; try apply string_of_uint_digits.
    repeat constructor.
Qed.

Lemma str_int_inj (z z' : Z) : str_int z = str_int z' -> z = z'.
Proof.
  unfold str_int. intros H. apply DecimalZ.to_int_inj.
  assert (Hn : forall n, Z.to_int n <> Decimal.Pos Decimal.Nil /\
                         Z.to_int n <> Decimal.Neg Decimal.Nil).
  { intros [|p|p]; simpl; split; try discriminate; intros [= Hp];
      now apply Unsigned.to_uint_nonnil in Hp. }
  destruct (Hn z) as (H1 & H2), (Hn z') as (H1' & H2').
  pose proof (NilZero.isi _ H1 H2) as E. pose proof (NilZero.isi _ H1' H2') as E'.
  rewrite H in E. congruence.
Qed.

Lemma append_inv_head (a x y : string) : (a ++ x = a ++ y)%string -> x = y.
Proof. induction a as [|c a IH]; simpl; [auto|]. intros [= H]. auto. Qed.

(** Two digit strings followed by a dot are equal when what they
    start is. *)
Lemma digits_then_dot (x y r r' : string) :
  all_digits x -> all_digits y ->
  (x ++ String "." r = y ++ String "." r')%string -> x = y.
Proof.
  unfold all_digits. revert y.
  induction x as [|c x IH]; intros [|d y] Hx Hy H; simpl in *.
  - reflexivity.
  - injection H as <- _. inversion Hy as [|? ? Hd _]. discriminate Hd.
  - injection H as -> _. inversion Hx as [|? ? Hd _]. discriminate Hd.
  - injection H as -> H. f_equal.
    inversion Hx; inversion Hy; subst. eapply IH; eassumption.
Qed.

(** A file name made of a stem, a number and an extension that starts
    with a dot gives the number back. *)
Lemma numbered_path_inj (temp_dir stem : string) (j j' : nat) (r r' : string) :
  path_join temp_dir (stem ++ str_int (Z.of_nat j) ++ String "." r)
  = path_join temp_dir (stem ++ str_int (Z.of_nat j') ++ String "." r') ->
  j = j'.
Proof.
  unfold path_join. intros H.
  apply append_inv_head in H. apply (append_inv_head "/") in H.
  apply append_inv_head in H.
  apply digits_then_dot in H; try apply str_int_nat_digits.
  apply str_int_inj in H. lia.
Qed.

Lemma Forall2_In_right {A B : Type} (P : A -> B -> Prop) (l : list A)
    (l' : list B) (b : B) :
  Forall2 P l l' -> In b l' -> exists a, In a l /\ P a b.
Proof.
  induction 1 as [|a b' l l' Hab _ IH]; simpl; [contradiction|].
  intros [<-|Hin].
  - exists a. auto.
  - destruct (IH Hin) as (a' & Ha' & Hp). exists a'. auto.
Qed.

(** Names given to distinct numbers by a relation that gives the
    number back are distinct. *)
Lemma Forall2_NoDup {A B : Type} (P : A -> B -> Prop) (l : list A) (l' : list B) :
  (forall a a' b, P a b -> P a' b -> a = a') ->
  NoDup l -> Forall2 P l l' -> NoDup l'.
Proof.
  intros Hinj Hnd HF. induction HF as [|a b l l' Hab HF IH].
  - constructor.
  - inversion Hnd as [|? ? Hnotin Hnd']; subst. constructor; [|auto].
    intros Hin. destruct (Forall2_In_right P l l' b HF Hin) as (a' & Ha' & Hp).
    rewrite (Hinj a a' b Hab Hp) in Hnotin. contradiction.
Qed.

(** ** Populating a directory *)

Lemma wrote_refl (s : state) (n : nat) : wrote s (set_draws n s) [].
Proof. unfold wrote. simpl. now rewrite app_nil_r. Qed.

Lemma wrote_trans (s1 s2 s3 : state) (e1 e2 : list event) :
  wrote s1 s2 e1 -> wrote s2 s3 e2 -> wrote s1 s3 (e1 ++ e2).
Proof.
  unfold wrote. intros (R1 & C1 & T1 & F1 & H1 & E1) (R2 & C2 & T2 & F2 & H2 & E2).
  repeat split; try congruence. rewrite E2, E1. now rewrite app_assoc.
Qed.

Lemma created_paths_app (e1 e2 : list event) :
  created_paths (e1 ++ e2) = (created_paths e1 ++ created_paths e2)%list.
Proof.
  induction e1 as [|e e1 IH]; simpl; [reflexivity|].
  destruct e; simpl; now rewrite ?IH.
Qed.

(** A loop whose every pass draws and writes one file. *)
Lemma for_range_writes (body : nat -> M unit) (P : nat -> string -> Prop) :
  (forall j s, exists n path content,
      body j s = (Ok tt, emit (EvCreate path content) (set_draws n s)) /\ P j path) ->
  forall n i s, exists s' evs,
    for_range n i body s = (Ok tt, s') /\ wrote s s' evs /\
    Forall is_create evs /\ Forall2 P (seq i n) (created_paths evs).
Proof.
  intros Hb. induction n as [|n IH]; intros i s.
  - exists s, []. split; [reflexivity|]. split.
    + unfold wrote. now rewrite app_nil_r.
    + split; constructor.
  - destruct (Hb i s) as (k & path & content & E & HP).
    destruct (IH (S i) (emit (EvCreate path content) (set_draws k s)))
      as (s' & evs & E' & Hw & Hc & HF).
    exists s', (EvCreate path content :: evs). cbn [for_range]. unfold bind.
    rewrite E, E'. split; [reflexivity|]. split; [|split].
    + change (EvCreate path content :: evs) with ([EvCreate path content] ++ evs)%list.
      eapply wrote_trans; [|exact Hw]. unfold wrote. repeat split.
    + constructor; [now exists path, content | exact Hc].
    + cbn. constructor; assumption.
Qed.

Lemma filter_all {A : Type} (f : A -> bool) (l : list A) :
  Forall (fun x => f x = true) l -> filter f l = l.
Proof. induction 1 as [|x l Hx _ IH]; simpl; [reflexivity|]. now rewrite Hx, IH. Qed.

Lemma filter_none {A : Type} (f : A -> bool) (l : list A) :
  Forall (fun x => f x = false) l -> filter f l = [].
Proof. induction 1 as [|x l Hx _ IH]; simpl; [reflexivity|]. now rewrite Hx. Qed.

Lemma Forall2_right {A B : Type} (P : A -> B -> Prop) (Q : B -> Prop)
    (l : list A) (l' : list B) :
  (forall a b, P a b -> Q b) -> Forall2 P l l' -> Forall Q l'.
Proof. intros H. induction 1; constructor; eauto. Qed.

(** The three loops of the fourth campaign. *)
Lemma source_loop (W : World) (temp_dir : string) (n : nat) (s : state) :
  exists s' evs,
    for_range n 0 (fun j =>
      content <- generate_random_python_code W ;;
      write_file (path_join temp_dir ("test" ++ str_int (Z.of_nat j) ++ ".py"))
                 content) s = (Ok tt, s') /\
    wrote s s' evs /\ Forall is_create evs /\ List.length (created_paths evs) = n /\
    NoDup (created_paths evs) /\
    Forall (fun path => is_source path = true /\ is_notebook path = false)
           (created_paths evs).
Proof.
  edestruct (for_range_writes
               (fun j =>
                  content <- generate_random_python_code W ;;
                  write_file (path_join temp_dir ("test" ++ str_int (Z.of_nat j) ++ ".py"))
                             content)
               (fun j path => path = path_join temp_dir ("test" ++ str_int (Z.of_nat j) ++ ".py")))
    as (s' & evs & E & Hw & Hc & HF).
  - intros j s0. cbv zeta. unfold bind.
    destruct (quiet_generate_random_python_code W s0) as (c & k & ->).
    exists k. eexists _, c. split; reflexivity.
  - exists s', evs. split; [exact E|]. split; [exact Hw|]. split; [exact Hc|].
    split; [|split].
    + apply Forall2_length in HF. now rewrite length_seq in HF.
    + eapply Forall2_NoDup; [|apply seq_NoDup|exact HF].
      intros j j' path -> H. exact (numbered_path_inj _ _ _ _ _ _ H).
    + eapply Forall2_right; [|exact HF]. intros j path ->.
      apply source_path_is_source.
Qed.

Lemma other_loop (W : World) (temp_dir : string) (n : nat) (s : state) :
  exists s' evs,
    for_range n 0 (fun j =>
      ext <- choice W [".txt"; ".md"; ".json"; ".yml"] ;;
      content <- generate_random_string W None ;;
      write_file (path_join temp_dir ("file" ++ str_int (Z.of_nat j) ++ ext))
                 content) s = (Ok tt, s') /\
    wrote s s' evs /\ Forall is_create evs /\ List.length (created_paths evs) = n /\
    NoDup (created_paths evs) /\
    Forall (fun path => is_source path = false /\ is_notebook path = false)
           (created_paths evs).
Proof.
  edestruct (for_range_writes
               (fun j =>
                  ext <- choice W [".txt"; ".md"; ".json"; ".yml"] ;;
                  content <- generate_random_string W None ;;
                  write_file (path_join temp_dir ("file" ++ str_int (Z.of_nat j) ++ ext))
                             content)
               (other_path temp_dir))
    as (s' & evs & E & Hw & Hc & HF).
  - intros j s0. cbv zeta. unfold bind at 1. unfold choice, bind at 1, draw, ret.
    unfold bind.
    match goal with
    | |- context [generate_random_string W None ?st] =>
        destruct (quiet_generate_random_string W None st) as (c & k & ->)
    end.
    exists k. eexists _, c. split; [reflexivity|].
    eexists. split; [|reflexivity]. apply nth_In. apply Nat.mod_upper_bound.
    discriminate.
  - exists s', evs. split; [exact E|]. split; [exact Hw|]. split; [exact Hc|].
    split; [|split].
    + apply Forall2_length in HF. now rewrite length_seq in HF.
    + eapply Forall2_NoDup; [|apply seq_NoDup|exact HF].
      intros j j' path (ext & Hin & ->) (ext' & Hin' & H). simpl in Hin, Hin'.
      destruct Hin as [<-|[<-|[<-|[<-|[]]]]];
        destruct Hin' as [<-|[<-|[<-|[<-|[]]]]];
        exact (numbered_path_inj _ _ _ _ _ _ H).
    + eapply Forall2_right; [|exact HF]. intros j path.
      apply other_path_is_neither.
Qed.

Lemma notebook_loop (temp_dir : string) (n : nat) (s : state) :
  exists s' evs,
    for_range n 0 (fun j =>
      write_file
        (path_join temp_dir ("notebook" ++ str_int (Z.of_nat j) ++ ".ipynb"))
        ("{" ++ dquote ++ "cells" ++ dquote ++ ": []}")) s
    = (Ok tt, s') /\
    wrote s s' evs /\ Forall is_create evs /\ List.length (created_paths evs) = n /\
    NoDup (created_paths evs) /\
    Forall (fun path => is_source path = false /\ is_notebook path = true)
           (created_paths evs).
Proof.
  edestruct (for_range_writes
               (fun j =>
                  write_file
                    (path_join temp_dir ("notebook" ++ str_int (Z.of_nat j) ++ ".ipynb"))
                    ("{" ++ dquote ++ "cells" ++ dquote ++ ": []}"))
               (fun j path =>
                  path = path_join temp_dir ("notebook" ++ str_int (Z.of_nat j) ++ ".ipynb")))
    as (s' & evs & E & Hw & Hc & HF).
  - intros j s0. cbv zeta. exists (draws s0). eexists _, _.
    split; [|reflexivity]. unfold write_file. destruct s0; reflexivity.
  - exists s', evs. split; [exact E|]. split; [exact Hw|]. split; [exact Hc|].
    split; [|split].
    + apply Forall2_length in HF. now rewrite length_seq in HF.
    + eapply Forall2_NoDup; [|apply seq_NoDup|exact HF].
      intros j j' path -> H. exact (numbered_path_inj _ _ _ _ _ _ H).
    + eapply Forall2_right; [|exact HF]. intros j path ->.
      apply notebook_path_is_notebook.
Qed.

Lemma randint_value (W : World) (a b : Z) (s : state) :
  a <= b ->
  exists v, a <= v <= b /\
            randint W a b s = (Ok v, set_draws (S (draws s)) s).
Proof.
  intros H. unfold randint. destruct (b <? a) eqn:E; [lia|].
  eexists. split; [|reflexivity].
  pose proof (Z.mod_pos_bound (Z.of_nat (entropy W (draws s))) (b - a + 1)). lia.
Qed.

Lemma filter_length_split {A : Type} (f : A -> bool) (l1 l2 l3 : list A) :
  Forall (fun x => f x = true) l1 ->
  Forall (fun x => f x = false) l2 ->
  Forall (fun x => f x = false) l3 ->
  List.length (filter f (l1 ++ l2 ++ l3)) = List.length l1 /\
  List.length (filter f (l2 ++ l1 ++ l3)) = List.length l1 /\
  List.length (filter f (l2 ++ l3 ++ l1)) = List.length l1.
Proof.
  intros H1 H2 H3.
  rewrite !filter_app, (filter_all f l1 H1), (filter_none f l2 H2),
    (filter_none f l3 H3), !app_nil_r. simpl.
  auto.
Qed.

(** The body of the [try] of the fourth campaign.  It writes files and
    nothing else, then calls the counter on the directory.  With [p]
    source files and [r] notebooks among the files written, the text
    it logs when the counter returns [v] gives [p + r] as the expected
    count, and the outcome is logged without an error, whatever [v]
    is. *)
Lemma populate_and_count_spec (W : World) (temp_dir : string) (s : state) :
  exists (files : list event) (out : outcome pyval) (s' : state),
    let p := Z.of_nat (List.length (filter is_source (created_paths files))) in
    let r := Z.of_nat (List.length (filter is_notebook (created_paths files))) in
    let q := Z.of_nat (List.length (created_paths files)) - p - r in
    Forall is_create files /\ NoDup (created_paths files) /\
    (0 <= p <= 10 /\ 0 <= q <= 5 /\ 0 <= r <= 3) /\
    ticks s' = ticks s /\ handling s' = handling s /\
    match out with
    | Ok v =>
        populate_and_count W temp_dir s = (Ok tt, s') /\
        trace s' = (trace s ++ files
                    ++ [EvCall getPythonFileCount [VStr temp_dir] (Ok v);
                        EvLog "getPythonFileCount"
                          (file_count_message W temp_dir p r (p + r) v) v None])%list /\
        reporter s'
        = log_test "getPythonFileCount"
            (file_count_message W temp_dir p r (p + r) v) v None
            (format_exc W (handling s)) (reporter s)
    | Raise e =>
        populate_and_count W temp_dir s = (Raise e, s') /\
        trace s' = (trace s ++ files
                    ++ [EvCall getPythonFileCount [VStr temp_dir] (Raise e)])%list /\
        reporter s' = reporter s
    end.
Proof.
  destruct (populate_and_count W temp_dir s) as [res s'] eqn:E.
  unfold populate_and_count in E.
  destruct (randint_value W 0 10 s ltac:(lia)) as (np & Hnp & E1).
  unfold bind at 1 in E. rewrite E1 in E. cbv beta iota in E.
  destruct (source_loop W temp_dir (range_len np) (set_draws (S (draws s)) s))
    as (s1 & ev1 & L1 & W1 & C1 & N1 & D1 & F1).
  unfold bind at 1 in E. rewrite L1 in E. cbv beta iota in E.
  destruct (randint_value W 0 5 s1 ltac:(lia)) as (no & Hno & E2).
  unfold bind at 1 in E. rewrite E2 in E. cbv beta iota in E.
  destruct (other_loop W temp_dir (range_len no) (set_draws (S (draws s1)) s1))
    as (s2 & ev2 & L2 & W2 & C2 & N2 & D2 & F2).
  unfold bind at 1 in E. rewrite L2 in E. cbv beta iota in E.
  destruct (randint_value W 0 3 s2 ltac:(lia)) as (nn & Hnn & E3).
  unfold bind at 1 in E. rewrite E3 in E. cbv beta iota in E.
  destruct (notebook_loop temp_dir (range_len nn) (set_draws (S (draws s2)) s2))
    as (s3 & ev3 & L3 & W3 & C3 & N3 & D3 & F3).
  unfold bind at 1 in E. rewrite L3 in E. cbv beta iota in E.
  assert (Hw : wrote s s3 (ev1 ++ ev2 ++ ev3)).
  { eapply wrote_trans; [|eapply wrote_trans; [|exact W3]].
    - eapply (wrote_trans _ _ _ [] ev1); [apply wrote_refl | exact W1].
    - eapply (wrote_trans _ _ _ [] ev2); [apply wrote_refl | exact W2]. }
  destruct Hw as (HR & HC & HT & HF & HH & HE).
  assert (Hsrc : List.length (filter is_source (created_paths (ev1 ++ ev2 ++ ev3)))
                 = range_len np).
  { rewrite !created_paths_app, <- N1.
    apply (filter_length_split is_source).
    - eapply Forall_impl; [|exact F1]. now intros ? [? ?].
    - eapply Forall_impl; [|exact F2]. now intros ? [? ?].
    - eapply Forall_impl; [|exact F3]. now intros ? [? ?]. }
  assert (Hnb : List.length (filter is_notebook (created_paths (ev1 ++ ev2 ++ ev3)))
                = range_len nn).
  { rewrite !created_paths_app, <- N3.
    refine (proj2 (proj2 (filter_length_split is_notebook _ _ _ _ _ _))).
    - eapply Forall_impl; [|exact F3]. now intros ? [? ?].
    - eapply Forall_impl; [|exact F1]. now intros ? [? ?].
    - eapply Forall_impl; [|exact F2]. now intros ? [? ?]. }
  assert (Hall : List.length (created_paths (ev1 ++ ev2 ++ ev3))
                 = (range_len np + range_len no + range_len nn)%nat).
  { rewrite !created_paths_app, !length_app. lia. }
  assert (Hcreate : Forall is_create (ev1 ++ ev2 ++ ev3)).
  { repeat (apply Forall_app; split); assumption. }
  assert (Hdistinct : NoDup (created_paths (ev1 ++ ev2 ++ ev3))).
  { rewrite !created_paths_app.
    apply NoDup_app; [exact D1 | apply NoDup_app; [exact D2 | exact D3 |] |].
    - intros path H2 H3.
      apply (proj1 (Forall_forall _ _) F2) in H2.
      apply (proj1 (Forall_forall _ _) F3) in H3. destruct H2, H3. congruence.
    - intros path H1 H23.
      apply (proj1 (Forall_forall _ _) F1) in H1. destruct H1 as (H1 & _).
      apply in_app_or in H23. destruct H23 as [H2|H3].
      + apply (proj1 (Forall_forall _ _) F2) in H2. destruct H2. congruence.
      + apply (proj1 (Forall_forall _ _) F3) in H3. destruct H3. congruence. }
  exists (ev1 ++ ev2 ++ ev3)%list.
  unfold bind, call, reporter_log_test in E.
  destruct (run_target W getPythonFileCount (calls s3) [VStr temp_dir]) as [v|e] eqn:Ec.
  - exists (Ok v), s'. injection E as <- <-. cbv zeta. rewrite Hsrc, Hnb, Hall.
    unfold range_len in *. rewrite !Z2Nat.id by lia.
    split; [exact Hcreate|]. split; [exact Hdistinct|]. split; [lia|].
    cbn [ticks handling trace reporter emit set_reporter set_calls].
    split; [exact HT|]. split; [exact HH|]. split; [reflexivity|].
    split; [rewrite HE, <- !app_assoc; reflexivity|].
    rewrite HR. reflexivity.
  - exists (Raise e), s'. injection E as <- <-. cbv zeta. rewrite Hsrc, Hnb, Hall.
    unfold range_len in *.
    split; [exact Hcreate|]. split; [exact Hdistinct|]. split; [lia|].
    cbn [ticks handling trace reporter emit set_reporter set_calls].
    split; [exact HT|]. split; [exact HH|]. split; [reflexivity|].
    split; [rewrite HE, <- !app_assoc; reflexivity | exact HR].
Qed.

(** C6.  One random pass of the directory campaign always completes and
    logs one outcome.  It creates a directory, writes files into it
    under distinct names and calls the counter.  Let [p] be the number
    of source files ([.py]) and [r] the number of notebooks ([.ipynb])
    among the files written; the other files, [q] of them, do not
    count.  When the counter returns a
    value [v], the text handed to the reporter gives [p], [r], the
    expected count [p + r] and [v], the outcome is logged without an
    error, and neither the failure counter nor the bug list changes,
    whatever [v] is.  Only an exception of the counter is logged as a
    failure. *)
Theorem expected_count_is_sources_plus_notebooks :
  forall (W : World) (s : state),
  exists (files : list event) (out : outcome pyval) (s' : state),
    let temp_dir := os_name W (ticks s) in
    let p := Z.of_nat (List.length (filter is_source (created_paths files))) in
    let r := Z.of_nat (List.length (filter is_notebook (created_paths files))) in
    let q := Z.of_nat (List.length (created_paths files)) - p - r in
    file_count_iteration W s = (Ok tt, s') /\
    Forall is_create files /\ NoDup (created_paths files) /\
    (0 <= p <= 10 /\ 0 <= q <= 5 /\ 0 <= r <= 3) /\
    test_count (reporter s') = test_count (reporter s) + 1 /\
    match out with
    | Ok v =>
        trace s'
        = (trace s ++ [EvMkdtemp temp_dir] ++ files
           ++ [EvCall getPythonFileCount [VStr temp_dir] (Ok v);
               EvLog "getPythonFileCount"
                 (file_count_message W temp_dir p r (p + r) v) v None;
               EvRmtree temp_dir])%list /\
        crash_count (reporter s') = crash_count (reporter s) /\
        bugs_found (reporter s') = bugs_found (reporter s)
    | Raise e =>
        trace s'
        = (trace s ++ [EvMkdtemp temp_dir] ++ files
           ++ [EvCall getPythonFileCount [VStr temp_dir] (Raise e);
               EvLog "getPythonFileCount" ("dir: " ++ temp_dir) VNone (Some e);
               EvRmtree temp_dir])%list
    end.
Proof.
  intros W s. unfold file_count_iteration, bind, mkdtemp.
  set (temp_dir := os_name W (ticks s)).
  set (s1 := emit (EvMkdtemp temp_dir) (set_ticks (S (ticks s)) s)).
  destruct (populate_and_count_spec W temp_dir s1)
    as (files & out & s2 & Hc & Hd & Hr & Ht & Hh & H).
  exists files, out. cbv zeta in *.
  unfold try_finally, try_except, swallow, shutil_rmtree, reporter_log_test.
  destruct out as [v|e].
  - destruct H as (-> & Htr & Hrep).
    destruct (cleanup_error W (ticks s2)); eexists;
      (split; [reflexivity|]); (split; [exact Hc|]); (split; [exact Hd|]);
      (split; [exact Hr|]);
      cbn [reporter trace emit set_ticks]; rewrite Hrep, Htr;
      (split; [reflexivity|]); (split; [|split; reflexivity]);
      subst s1; cbn [trace emit set_ticks]; rewrite <- !app_assoc; reflexivity.
  - destruct H as (-> & Htr & Hrep).
    destruct (cleanup_error W (ticks _)); eexists;
      (split; [reflexivity|]); (split; [exact Hc|]); (split; [exact Hd|]);
      (split; [exact Hr|]);
      cbn [reporter trace emit set_ticks set_handling set_reporter]; rewrite Hrep, Htr;
      (split; [unfold log_test; destruct (exn_truthy e); reflexivity|]);
      subst s1; cbn [trace emit set_ticks]; rewrite <- !app_assoc; reflexivity.
Qed.

(** C6 on the scenario of the specification: 3 source files, 2 other
    files and 1 notebook are written, the counter returns 7; the text
    logged says that 4 were expected and 7 found, and no failure is
    logged. *)
Example expected_count_3_2_1 :
  let W := world_of draws_3_2_1 counter_says_7 in
  let '(res, s) := run (file_count_iteration W) in
  res = Ok tt /\
  created_paths (trace s)
  = ["/tmp/tmp0/test0.py"; "/tmp/tmp0/test1.py"; "/tmp/tmp0/test2.py";
     "/tmp/tmp0/file0.txt"; "/tmp/tmp0/file1.txt";
     "/tmp/tmp0/notebook0.ipynb"] /\
  logs_of "getPythonFileCount" (trace s)
  = ["dir: /tmp/tmp0, py_files: 3, ipynb: 1, expected: 4, got: 7"] /\
  reporter s = {| bugs_found := []; test_count := 1; crash_count := 0 |}.
Proof. vm_compute. repeat split. Qed.

(** ** What the guarded calls of the other campaigns record *)

(** A call guarded as in the first, third, fourth and fifth campaigns:
    when the target raises, the handler completes and appends one bug
    entry that carries the name of the exception's type, its message
    and the truncated input. *)
Lemma raised_failure_is_recorded (W : World) (op : target) (args : list pyval)
    (method : string) (input : pyval -> string) (input' : string)
    (e : exn) (s : state) :
  run_target W op (calls s) args = Raise e ->
  exn_truthy e = true ->
  exists s',
    try_except
      (result <- call W op args ;;
       reporter_log_test W method (input result) result None)
      (fun e => reporter_log_test W method input' VNone (Some e)) s
    = (Ok tt, s') /\
    bugs_found (reporter s')
    = (bugs_found (reporter s)
       ++ [{| bug_method := method;
              bug_input := take 100 input';
              bug_error_type := exn_type e;
              bug_error_msg := exn_msg e;
              bug_traceback := format_exc W (Some e) |}])%list /\
    crash_count (reporter s') = crash_count (reporter s) + 1 /\
    test_count (reporter s') = test_count (reporter s) + 1.
Proof.
  intros Hr Ht. unfold try_except, bind, call, reporter_log_test. rewrite Hr.
  eexists. split; [reflexivity|]. cbn. unfold log_test. rewrite Ht.
  repeat split.
Qed.

(** ** Two runs that end *)

(** Three iterations on targets that always return: 39 outcomes, no
    failure, status 0. *)
Example calm_run_exits_with_0 :
  let W := world_with calm_targets in
  let '(r, s) := run (main W ["fuzz.py"; "3"]) in
  r = Ok 0 /\ test_count (reporter s) = 5 * 3 + 24 /\
  crash_count (reporter s) = 0 /\ exit_status W ["fuzz.py"; "3"] = 0.
Proof. vm_compute. repeat split. Qed.

(** No iteration on a parser that rejects missing files: the run ends,
    five failures are logged, status 1. *)
Example failing_run_exits_with_1 :
  let W := world_of invalid_source_in_second_campaign strict_parser in
  let '(r, s) := run (main W ["fuzz.py"; "0"]) in
  r = Ok 1 /\ test_count (reporter s) = 24 /\
  crash_count (reporter s) = 5 /\ exit_status W ["fuzz.py"; "0"] = 1.
Proof. vm_compute. repeat split. Qed.

(** Imports that fail: one line, no campaign, status 1. *)
Example failed_import_exits_with_1 :
  exit_status world_without_targets ["fuzz.py"] = 1 /\
  trace (snd (run (script world_without_targets ["fuzz.py"])))
  = [EvPrint (Line "Error importing modules: No module named 'py_parser'")].
Proof. split; reflexivity. Qed.

(** ** Calls and logged outcomes, campaign by campaign *)

Section Tallying.

Context {X : Type} (f : event -> list X).

Lemma tallies_ret {A : Type} (a : A) : tallies f (ret a) [].
Proof. intros s. exists a, s. now rewrite app_nil_r. Qed.

Lemma tallies_bind {A B : Type} (m : M A) (k : A -> M B) (xs ys : list X) :
  tallies f m xs -> (forall a, tallies f (k a) ys) ->
  tallies f (bind m k) (xs ++ ys)%list.
Proof.
  intros Hm Hk s. destruct (Hm s) as (a & s1 & E1 & T1).
  destruct (Hk a s1) as (b & s2 & E2 & T2).
  exists b, s2. unfold bind. rewrite E1, E2. split; [reflexivity|].
  now rewrite T2, T1, app_assoc.
Qed.

Lemma tallies_eq {A : Type} (m : M A) (xs ys : list X) :
  tallies f m xs -> xs = ys -> tallies f m ys.
Proof. now intros H <-. Qed.

Lemma tallies_quiet {A : Type} (m : M A) : quiet m -> tallies f m [].
Proof.
  intros H s. destruct (H s) as (a & n & E). exists a, (set_draws n s).
  split; [exact E | simpl; now rewrite app_nil_r].
Qed.

Lemma tallies_emit {A : Type} (a : A) (n : nat) (e : event) (xs : list X) :
  f e = xs -> tallies f (fun s => (Ok a, emit e (set_ticks n s))) xs.
Proof.
  intros <- s. eexists _, _. split; [reflexivity|]. simpl.
  now rewrite flat_map_app; simpl; rewrite app_nil_r.
Qed.

Lemma tallies_print (l : line) (xs : list X) :
  f (EvPrint l) = xs -> tallies f (print l) xs.
Proof.
  intros <- s. eexists _, _. split; [reflexivity|]. simpl.
  now rewrite flat_map_app; simpl; rewrite app_nil_r.
Qed.

Lemma tallies_store (x : string) (v : pyval) : tallies f (store x v) [].
Proof. intros s. eexists _, _. split; [reflexivity|]. simpl. now rewrite app_nil_r. Qed.

Lemma tallies_datetime_now : tallies f datetime_now [].
Proof. intros s. eexists _, _. split; [reflexivity|]. simpl. now rewrite app_nil_r. Qed.

Lemma tallies_create_temp_python_file (W : World) (content : string) :
  (forall path c, f (EvCreate path c) = []) ->
  tallies f (create_temp_python_file W content) [].
Proof.
  intros Hf s. eexists _, _. split; [reflexivity|]. simpl.
  now rewrite flat_map_app; simpl; rewrite Hf.
Qed.

Lemma tallies_swallow_unlink (W : World) (path : string) :
  (forall p, f (EvUnlink p) = []) ->
  tallies f (swallow (os_unlink W path)) [].
Proof.
  intros Hf s. unfold swallow, os_unlink.
  destruct (cleanup_error W (ticks s)); eexists _, _; (split; [reflexivity|]);
    simpl; now rewrite flat_map_app; simpl; rewrite Hf.
Qed.

Lemma tallies_try_finally {A : Type} (m : M A) (final : M unit) (xs : list X) :
  tallies f m xs -> tallies f final [] -> tallies f (try_finally m final) xs.
Proof.
  intros Hm Hf s. destruct (Hm s) as (a & s1 & E1 & T1).
  destruct (Hf s1) as ([] & s2 & E2 & T2).
  exists a, s2. unfold try_finally. rewrite E1, E2. split; [reflexivity|].
  now rewrite T2, T1, app_nil_r.
Qed.

Lemma tallies_in_new_frame {A : Type} (m : M A) (xs : list X) :
  tallies f m xs -> tallies f (in_new_frame m) xs.
Proof.
  intros Hm s. destruct (Hm (set_frame [] s)) as (a & s1 & E1 & T1).
  exists a, (set_frame (frame s) s1). unfold in_new_frame. rewrite E1.
  split; [reflexivity | exact T1].
Qed.

Lemma tallies_for_range (n i : nat) (body : nat -> M unit) (ys : list X) :
  (forall j, tallies f (body j) ys) ->
  tallies f (for_range n i body) (List.concat (repeat ys n)).
Proof.
  intros Hb. revert i. induction n as [|n IH]; intros i; simpl.
  - apply tallies_ret.
  - apply tallies_bind; [apply Hb | intros _; apply IH].
Qed.

Lemma tallies_for_each {A : Type} (l : list A) (body : A -> M unit) (ys : list X) :
  (forall x, tallies f (body x) ys) ->
  tallies f (for_each l body) (List.concat (repeat ys (List.length l))).
Proof.
  intros Hb. induction l as [|x l IH]; simpl.
  - apply tallies_ret.
  - apply tallies_bind; [apply Hb | intros _; exact IH].
Qed.

(** The guarded call of the first, fourth and fifth campaigns: one call
    event, then one log event, whatever the target does. *)
Lemma tallies_call_and_log (W : World) (op : target) (args : list pyval)
    (method : string) (input : pyval -> string) (input' : string)
    (c l : list X) :
  (forall out, f (EvCall op args out) = c) ->
  (forall i r e, f (EvLog method i r e) = l) ->
  tallies f
    (try_except
       (result <- call W op args ;;
        reporter_log_test W method (input result) result None)
       (fun e => reporter_log_test W method input' VNone (Some e)))
    (c ++ l)%list.
Proof.
  intros Hc Hl s. unfold try_except, bind, call, reporter_log_test.
  destruct (run_target W op (calls s) args) as [v|e] eqn:E;
    eexists _, _; (split; [reflexivity|]); simpl;
    rewrite !flat_map_app; simpl; rewrite Hc, Hl, !app_nil_r, app_assoc; reflexivity.
Qed.

(** The guarded call of the third campaign, whose handler reads [d1]
    and [d2]. *)
Lemma tallies_days_between_edge (W : World) (d1 d2 : pyval) (c l : list X) :
  (forall out, f (EvCall days_between [d1; d2] out) = c) ->
  (forall i r e, f (EvLog "days_between" i r e) = l) ->
  tallies f
    (store "d1" d1 ;;
     store "d2" d2 ;;
     try_except
       (result <- call W days_between [d1; d2] ;;
        reporter_log_test W "days_between"
          ("d1: " ++ py_str W d1 ++ ", d2: " ++ py_str W d2) result None)
       (days_between_failed W))
    (c ++ l)%list.
Proof.
  intros Hc Hl s.
  unfold try_except, bind, store, call, days_between_failed, load, reporter_log_test.
  cbn -[log_test py_str].
  destruct (run_target W days_between _ _) as [v|e]; cbn -[log_test py_str];
    eexists _, _; (split; [reflexivity|]); cbn -[log_test py_str];
    rewrite !flat_map_app; simpl; rewrite Hc, Hl, !app_nil_r, app_assoc; reflexivity.
Qed.

End Tallying.

Lemma unit_list_eq (l l' : list unit) : List.length l = List.length l' -> l = l'.
Proof.
  revert l'. induction l as [|[] l IH]; intros [|[] l'] H; simpl in *;
    try discriminate; [reflexivity|]. f_equal. apply IH. lia.
Qed.

Lemma calls_of_tally (op : target) (evs : list event) :
  List.length (calls_of op evs) = List.length (flat_map (call_tally op) evs).
Proof.
  induction evs as [|e evs IH]; simpl; [reflexivity|].
  destruct e; simpl; try exact IH.
  destruct (same_target op op0); simpl; now rewrite IH.
Qed.

Lemma logs_of_tally (method : string) (evs : list event) :
  List.length (logs_of method evs) = List.length (flat_map (log_tally method) evs).
Proof.
  induction evs as [|e evs IH]; simpl; [reflexivity|].
  destruct e; simpl; try exact IH.
  destruct (String.eqb method method0); simpl; now rewrite IH.
Qed.

Lemma tallies_bind_list {X A : Type} (f : event -> list X) (m : M (list A))
    (k : list A -> M unit) (n : nat) (ys : list X) :
  (forall s, exists l s', m s = (Ok l, s') /\ trace s' = trace s /\
                          List.length l = n) ->
  (forall l, List.length l = n -> tallies f (k l) ys) ->
  tallies f (bind m k) ys.
Proof.
  intros Hm Hk s. destruct (Hm s) as (l & s1 & E1 & T1 & L1).
  destruct (Hk l L1 s1) as (b & s2 & E2 & T2).
  exists b, s2. unfold bind. rewrite E1, E2. split; [reflexivity|].
  now rewrite T2, T1.
Qed.

Lemma days_between_edge_cases_trace (s : state) :
  exists l s', days_between_edge_cases s = (Ok l, s') /\
               trace s' = trace s /\ List.length l = 8%nat.
Proof. eexists _, _. split; [reflexivity|]. split; reflexivity. Qed.

Lemma invalid_dirs_trace (W : World) (s : state) :
  exists l s', invalid_dirs W s = (Ok l, s') /\
               trace s' = trace s /\ List.length l = 6%nat.
Proof.
  unfold invalid_dirs, bind.
  destruct (quiet_generate_random_string W None s) as (r & n & ->).
  eexists _, _. split; [reflexivity|]. split; reflexivity.
Qed.

Ltac tally :=
  cbv zeta;
  lazymatch goal with
  | |- tallies _ (try_except (bind (call _ _ _) _) _) _ =>
      eapply (tallies_call_and_log _ _ _ _ _ (fun _ => _));
      [ intros; cbn; reflexivity | intros; cbn; reflexivity ]
  | |- tallies _ (bind _ _) _ => eapply tallies_bind; [tally | intros ?; tally]
  | |- tallies _ (ret _) _ => apply tallies_ret
  | |- tallies _ (print_str _) _ => apply tallies_print; cbn; reflexivity
  | |- tallies _ (in_new_frame _) _ => apply tallies_in_new_frame; tally
  | |- tallies _ (for_range _ _ _) _ => eapply tallies_for_range; intros ?; tally
  | |- tallies _ (for_each _ _) _ => eapply tallies_for_each; intros ?; tally
  | |- tallies _ (try_finally _ _) _ => eapply tallies_try_finally; [tally | tally]
  | |- tallies _ (swallow (os_unlink _ _)) _ =>
      apply tallies_swallow_unlink; intros; reflexivity
  | |- tallies _ (generate_random_python_code _) _ =>
      apply tallies_quiet, quiet_generate_random_python_code
  | |- tallies _ (generate_random_string _ _) _ =>
      apply tallies_quiet, quiet_generate_random_string
  | |- tallies _ (choice _ (_ :: _)) _ => apply tallies_quiet, quiet_choice
  | |- tallies _ (create_temp_python_file _ _) _ =>
      apply tallies_create_temp_python_file; intros; reflexivity
  | |- tallies _ (store _ _) _ => apply tallies_store
  | |- tallies _ datetime_now _ => apply tallies_datetime_now
  end.

Ltac count_marks :=
  apply unit_list_eq;
  rewrite ?length_app, ?length_concat_repeat, ?repeat_length;
  cbn [List.length app]; lia.

(** Reading a tally of calls and a tally of logged outcomes. *)
Lemma tallies_read (op : target) (method : string) {A : Type} (m : M A)
    (k : nat) (s : state) :
  tallies (call_tally op) m (repeat tt k) ->
  tallies (log_tally method) m (repeat tt k) ->
  exists a s',
    m s = (Ok a, s') /\
    List.length (calls_of op (trace s'))
    = (List.length (calls_of op (trace s)) + k)%nat /\
    List.length (logs_of method (trace s'))
    = (List.length (logs_of method (trace s)) + k)%nat.
Proof.
  intros Hc Hl. destruct (Hc s) as (a & s1 & E1 & T1).
  destruct (Hl s) as (a' & s2 & E2 & T2).
  assert (s2 = s1) by congruence. subst s2.
  exists a, s1. split; [exact E1|].
  rewrite !calls_of_tally, !logs_of_tally, T1, T2, !length_app, !repeat_length.
  split; reflexivity.
Qed.

(** The first campaign always completes; it calls the parser and logs
    an outcome once per random file and once per nonexistent path. *)
Lemma fuzz_getPythonParseObject_calls_and_logs (W : World) (iterations : Z)
    (s : state) :
  exists s',
    fuzz_getPythonParseObject W iterations s = (Ok tt, s') /\
    List.length (calls_of getPythonParseObject (trace s'))
    = (List.length (calls_of getPythonParseObject (trace s))
       + (range_len iterations + 5))%nat /\
    List.length (logs_of "getPythonParseObject" (trace s'))
    = (List.length (logs_of "getPythonParseObject" (trace s))
       + (range_len iterations + 5))%nat.
Proof.
  destruct (tallies_read getPythonParseObject "getPythonParseObject"
              (fuzz_getPythonParseObject W iterations)
              (range_len iterations + 5) s) as ([] & s' & H).
  - eapply tallies_eq; [unfold fuzz_getPythonParseObject; tally | count_marks].
  - eapply tallies_eq; [unfold fuzz_getPythonParseObject; tally | count_marks].
  - exists s'. exact H.
Qed.

(** So does the fifth, with its own target. *)
Lemma fuzz_getDataLoadCount_calls_and_logs (W : World) (iterations : Z)
    (s : state) :
  exists s',
    fuzz_getDataLoadCount W iterations s = (Ok tt, s') /\
    List.length (calls_of getDataLoadCount (trace s'))
    = (List.length (calls_of getDataLoadCount (trace s))
       + (range_len iterations + 5))%nat /\
    List.length (logs_of "getDataLoadCount" (trace s'))
    = (List.length (logs_of "getDataLoadCount" (trace s))
       + (range_len iterations + 5))%nat.
Proof.
  destruct (tallies_read getDataLoadCount "getDataLoadCount"
              (fuzz_getDataLoadCount W iterations)
              (range_len iterations + 5) s) as ([] & s' & H).
  - eapply tallies_eq; [unfold fuzz_getDataLoadCount; tally | count_marks].
  - eapply tallies_eq; [unfold fuzz_getDataLoadCount; tally | count_marks].
  - exists s'. exact H.
Qed.

Section Tallying_the_middle_campaigns.

Context {X : Type} (f : event -> list X).

(** A random pass of the third campaign. *)
Lemma tallies_days_between_random (W : World) (c l : list X) :
  (forall args out, f (EvCall days_between args out) = c) ->
  (forall i r e, f (EvLog "days_between" i r e) = l) ->
  tallies f
    (try_except
       (d1 <- generate_random_date W ;;
        store "d1" d1 ;;
        d2 <- generate_random_date W ;;
        store "d2" d2 ;;
        result <- call W days_between [d1; d2] ;;
        reporter_log_test W "days_between"
          ("d1: " ++ py_str W d1 ++ ", d2: " ++ py_str W d2) result None)
       (days_between_failed W))
    (c ++ l)%list.
Proof.
  intros Hc Hl s.
  unfold try_except, bind, generate_random_date, randint, draw, ret, store, call,
    days_between_failed, load, reporter_log_test.
  cbn -[log_test Z.modulo Z.of_nat py_str].
  destruct (run_target W days_between _ _) as [v|e];
    cbn -[log_test Z.modulo Z.of_nat py_str];
    eexists _, _; (split; [reflexivity|]); cbn -[log_test Z.modulo Z.of_nat py_str];
    rewrite !flat_map_app; simpl; rewrite Hc, Hl, !app_nil_r, app_assoc; reflexivity.
Qed.

Lemma flat_map_creates (evs : list event) :
  (forall path content, f (EvCreate path content) = []) ->
  Forall is_create evs -> flat_map f evs = [].
Proof.
  intros Hf. induction 1 as [|e evs (path & content & ->) _ IH]; simpl;
    [reflexivity|]. now rewrite Hf, IH.
Qed.

(** A random pass of the fourth campaign. *)
Lemma tallies_file_count_iteration (W : World) (c l : list X) :
  (forall path content, f (EvCreate path content) = []) ->
  (forall path, f (EvMkdtemp path) = []) ->
  (forall path, f (EvRmtree path) = []) ->
  (forall args out, f (EvCall getPythonFileCount args out) = c) ->
  (forall i r e, f (EvLog "getPythonFileCount" i r e) = l) ->
  tallies f (file_count_iteration W) (c ++ l)%list.
Proof.
  intros Hcreate Hmk Hrm Hc Hl s. unfold file_count_iteration, bind, mkdtemp.
  set (temp_dir := os_name W (ticks s)).
  set (s1 := emit (EvMkdtemp temp_dir) (set_ticks (S (ticks s)) s)).
  destruct (populate_and_count_spec W temp_dir s1)
    as (files & out & s2 & Hfiles & _ & _ & _ & _ & H).
  cbv zeta in H.
  pose proof (flat_map_creates files Hcreate Hfiles) as Hnone.
  unfold try_finally, try_except, swallow, shutil_rmtree, reporter_log_test.
  destruct out as [v|e]; destruct H as (-> & Htr & _);
    destruct (cleanup_error W (ticks _)); eexists _, _;
    (split; [reflexivity|]);
    cbn [trace emit set_ticks set_handling set_reporter]; rewrite Htr;
    subst s1; cbn [trace emit set_ticks];
    rewrite !flat_map_app; simpl;
    rewrite Hnone, Hmk, Hrm, Hc, Hl; simpl;
    repeat rewrite app_nil_r; repeat rewrite <- app_assoc; reflexivity.
Qed.

(** The third campaign as a whole. *)
Lemma tallies_fuzz_days_between (W : World) (iterations : Z) (c l : list X) :
  (forall args out, f (EvCall days_between args out) = c) ->
  (forall i r e, f (EvLog "days_between" i r e) = l) ->
  (forall t, f (EvPrint t) = []) ->
  tallies f (fuzz_days_between W iterations)
          (List.concat (repeat (c ++ l) (range_len iterations + 8)))%list.
Proof.
  intros Hc Hl Hp. unfold fuzz_days_between.
  apply tallies_in_new_frame. eapply tallies_eq.
  - eapply tallies_bind; [apply tallies_print, Hp | intros _].
    eapply tallies_bind.
    + eapply tallies_for_range. intros _.
      apply (tallies_days_between_random W c l); assumption.
    + intros _. eapply tallies_bind_list with (n := 8%nat).
      * apply days_between_edge_cases_trace.
      * intros edge Hlen. eapply tallies_eq.
        -- eapply tallies_for_each. intros [d1 d2].
           apply (tallies_days_between_edge f W d1 d2 c l); auto.
        -- rewrite Hlen. reflexivity.
  - cbn [app]. now rewrite repeat_app, concat_app.
Qed.

End Tallying_the_middle_campaigns.

(** The third campaign always completes; it calls [days_between] and
    logs an outcome once per random pair and once per fixed pair. *)
Lemma fuzz_days_between_calls_and_logs (W : World) (iterations : Z) (s : state) :
  exists s',
    fuzz_days_between W iterations s = (Ok tt, s') /\
    List.length (calls_of days_between (trace s'))
    = (List.length (calls_of days_between (trace s))
       + (range_len iterations + 8))%nat /\
    List.length (logs_of "days_between" (trace s'))
    = (List.length (logs_of "days_between" (trace s))
       + (range_len iterations + 8))%nat.
Proof.
  destruct (tallies_read days_between "days_between"
              (fuzz_days_between W iterations)
              (range_len iterations + 8) s) as ([] & s' & Hs).
  - eapply tallies_eq.
    + apply (tallies_fuzz_days_between _ W iterations [tt] []); intros; reflexivity.
    + count_marks.
  - eapply tallies_eq.
    + apply (tallies_fuzz_days_between _ W iterations [] [tt]); intros; reflexivity.
    + count_marks.
  - exists s'. exact Hs.
Qed.

(** The fourth campaign always completes; it calls the counter and
    logs an outcome once per random directory and once per invalid
    one. *)
Lemma fuzz_getPythonFileCount_calls_and_logs (W : World) (iterations : Z)
    (s : state) :
  exists s',
    fuzz_getPythonFileCount W iterations s = (Ok tt, s') /\
    List.length (calls_of getPythonFileCount (trace s'))
    = (List.length (calls_of getPythonFileCount (trace s))
       + (range_len iterations + 6))%nat /\
    List.length (logs_of "getPythonFileCount" (trace s'))
    = (List.length (logs_of "getPythonFileCount" (trace s))
       + (range_len iterations + 6))%nat.
Proof.
  destruct (tallies_read getPythonFileCount "getPythonFileCount"
              (fuzz_getPythonFileCount W iterations)
              (range_len iterations + 6) s) as ([] & s' & Hs).
  - unfold fuzz_getPythonFileCount. apply tallies_in_new_frame. eapply tallies_eq.
    + eapply tallies_bind; [tally | intros _].
      eapply tallies_bind.
      * eapply tallies_for_range. intros _.
        apply (tallies_file_count_iteration _ W [tt] []); intros; reflexivity.
      * intros _. eapply tallies_bind_list with (n := 6%nat).
        -- apply invalid_dirs_trace.
        -- intros dirs Hlen. eapply tallies_eq; [tally | rewrite Hlen; reflexivity].
    + count_marks.
  - unfold fuzz_getPythonFileCount. apply tallies_in_new_frame. eapply tallies_eq.
    + eapply tallies_bind; [tally | intros _].
      eapply tallies_bind.
      * eapply tallies_for_range. intros _.
        apply (tallies_file_count_iteration _ W [] [tt]); intros; reflexivity.
      * intros _. eapply tallies_bind_list with (n := 6%nat).
        -- apply invalid_dirs_trace.
        -- intros dirs Hlen. eapply tallies_eq; [tally | rewrite Hlen; reflexivity].
    + count_marks.
  - exists s'. exact Hs.
Qed.

(** * More of the harness *)

(** ** The reporter is only ever written by [log_test] *)

Lemma logged_only_same (s s' : state) :
  reporter s' = reporter s -> logged_only s -> logged_only s'.
Proof. intros E (cs & H). exists cs. congruence. Qed.

Lemma keeps_same {A : Type} (m : M A) :
  (forall s, reporter (snd (m s)) = reporter s) -> keeps m.
Proof. intros H s Hs. eapply logged_only_same; [apply H | exact Hs]. Qed.

Lemma keeps_ret {A : Type} (a : A) : keeps (ret a).
Proof. now apply keeps_same. Qed.

Lemma keeps_bind {A B : Type} (m : M A) (k : A -> M B) :
  keeps m -> (forall a, keeps (k a)) -> keeps (bind m k).
Proof.
  intros Hm Hk s Hs. unfold bind. specialize (Hm s Hs).
  destruct (m s) as [[a|e] s1]; simpl in *; [apply Hk; exact Hm | exact Hm].
Qed.

Lemma keeps_quiet {A : Type} (m : M A) : quiet m -> keeps m.
Proof.
  intros H. apply keeps_same. intros s. destruct (H s) as (a & n & ->). reflexivity.
Qed.

Lemma keeps_reporter_log_test (W : World) (method input : string)
    (result : pyval) (error : option exn) :
  keeps (reporter_log_test W method input result error).
Proof.
  intros s (cs & H). unfold reporter_log_test. cbn [snd reporter emit set_reporter].
  exists (cs ++ [{| call_method := method; call_input := input;
                    call_result := result; call_error := error;
                    call_format_exc := format_exc W (handling s) |}])%list.
  rewrite after_calls_snoc, <- H. reflexivity.
Qed.

Lemma keeps_try_except {A : Type} (body : M A) (handler : exn -> M A) :
  keeps body -> (forall e, keeps (handler e)) -> keeps (try_except body handler).
Proof.
  intros Hb Hh s Hs. unfold try_except. specialize (Hb s Hs).
  destruct (body s) as [[a|e] s1]; simpl in *; [exact Hb|].
  assert (H1 : logged_only (set_handling (Some e) s1))
    by (eapply logged_only_same; [|exact Hb]; reflexivity).
  specialize (Hh e _ H1).
  destruct (handler e (set_handling (Some e) s1)) as [r s2]. simpl in *.
  eapply logged_only_same; [|exact Hh]. reflexivity.
Qed.

Lemma keeps_try_finally {A : Type} (body : M A) (final : M unit) :
  keeps body -> keeps final -> keeps (try_finally body final).
Proof.
  intros Hb Hf s Hs. unfold try_finally. specialize (Hb s Hs).
  destruct (body s) as [r s1]. simpl in Hb. specialize (Hf s1 Hb).
  destruct (final s1) as [[u|e] s2]; exact Hf.
Qed.

Lemma keeps_swallow (m : M unit) : keeps m -> keeps (swallow m).
Proof.
  intros Hm s Hs. unfold swallow. specialize (Hm s Hs).
  destruct (m s) as [[u|e] s1]; exact Hm.
Qed.

Lemma keeps_in_new_frame {A : Type} (m : M A) : keeps m -> keeps (in_new_frame m).
Proof.
  intros Hm s Hs. unfold in_new_frame.
  assert (H0 : logged_only (set_frame [] s))
    by (eapply logged_only_same; [|exact Hs]; reflexivity).
  specialize (Hm _ H0). destruct (m (set_frame [] s)) as [r s1]. simpl in *.
  eapply logged_only_same; [|exact Hm]. reflexivity.
Qed.

Lemma keeps_for_range (n i : nat) (body : nat -> M unit) :
  (forall j, keeps (body j)) -> keeps (for_range n i body).
Proof.
  intros Hb. revert i. induction n as [|n IH]; intros i; cbn [for_range].
  - apply keeps_ret.
  - apply keeps_bind; [apply Hb | intros _; apply IH].
Qed.

Lemma keeps_for_each {A : Type} (l : list A) (body : A -> M unit) :
  (forall x, keeps (body x)) -> keeps (for_each l body).
Proof.
  intros Hb. induction l as [|x l IH]; cbn [for_each].
  - apply keeps_ret.
  - apply keeps_bind; [apply Hb | intros _; exact IH].
Qed.

Ltac keeps_step :=
  cbv zeta;
  lazymatch goal with
  | |- keeps (bind _ _) => apply keeps_bind; [keeps_step | intros ?; keeps_step]
  | |- keeps (ret _) => apply keeps_ret
  | |- keeps (try_except _ _) =>
      apply keeps_try_except; [keeps_step | intros ?; keeps_step]
  | |- keeps (try_finally _ _) => apply keeps_try_finally; [keeps_step | keeps_step]
  | |- keeps (swallow _) => apply keeps_swallow; keeps_step
  | |- keeps (in_new_frame _) => apply keeps_in_new_frame; keeps_step
  | |- keeps (for_range _ _ _) => apply keeps_for_range; intros ?; keeps_step
  | |- keeps (for_each _ _) => apply keeps_for_each; intros ?; keeps_step
  | |- keeps (reporter_log_test _ _ _ _ _) => apply keeps_reporter_log_test
  | |- keeps (generate_random_python_code _) =>
      apply keeps_quiet, quiet_generate_random_python_code
  | |- keeps (generate_random_string _ _) =>
      apply keeps_quiet, quiet_generate_random_string
  | |- keeps (generate_random_date _) => apply keeps_quiet, quiet_generate_random_date
  | |- keeps (choice _ (_ :: _)) => apply keeps_quiet, quiet_choice
  | |- keeps (randint _ _ _) => apply keeps_quiet, quiet_randint; lia
  | |- keeps (days_between_failed _ _) => unfold days_between_failed; keeps_step
  | |- keeps (match ?l with _ :: _ => _ | [] => _ end) => destruct l; keeps_step
  | |- keeps (let '(_, _) := ?x in _) => destruct x; keeps_step
  | |- keeps (if ?b then _ else _) => destruct b; keeps_step
  | |- keeps _ =>
      apply keeps_same; intros s;
      first [ reflexivity
            | unfold os_unlink, shutil_rmtree, load, call, lift;
              repeat match goal with
                     | |- context [match ?x with _ => _ end] => destruct x
                     end; reflexivity ]
  end.

Lemma keeps_fuzz_getPythonParseObject (W : World) (n : Z) :
  keeps (fuzz_getPythonParseObject W n).
Proof. unfold fuzz_getPythonParseObject. keeps_step. Qed.

Lemma keeps_fuzz_checkLoggingPerData (W : World) (n : Z) :
  keeps (fuzz_checkLoggingPerData W n).
Proof. unfold fuzz_checkLoggingPerData, checkLoggingPerData_iteration. keeps_step. Qed.

Lemma keeps_fuzz_days_between (W : World) (n : Z) : keeps (fuzz_days_between W n).
Proof. unfold fuzz_days_between, days_between_edge_cases. keeps_step. Qed.

Lemma keeps_fuzz_getPythonFileCount (W : World) (n : Z) :
  keeps (fuzz_getPythonFileCount W n).
Proof.
  unfold fuzz_getPythonFileCount, file_count_iteration, populate_and_count,
    invalid_dirs.
  keeps_step.
Qed.

Lemma keeps_fuzz_getDataLoadCount (W : World) (n : Z) :
  keeps (fuzz_getDataLoadCount W n).
Proof. unfold fuzz_getDataLoadCount. keeps_step. Qed.

Lemma keeps_generate_report (W : World) (self : FuzzReporter) :
  keeps (generate_report W self).
Proof. unfold generate_report. keeps_step. Qed.

Lemma keeps_run_all_fuzzing (W : World) (n : Z) : keeps (run_all_fuzzing W n).
Proof.
  unfold run_all_fuzzing, reporter_generate_report.
  repeat (apply keeps_bind; [|intros ?]);
    try apply keeps_fuzz_getPythonParseObject;
    try apply keeps_fuzz_checkLoggingPerData;
    try apply keeps_fuzz_days_between;
    try apply keeps_fuzz_getPythonFileCount;
    try apply keeps_fuzz_getDataLoadCount;
    try apply keeps_generate_report;
    keeps_step.
Qed.

Lemma keeps_iterations_of_argv (argv : list string) : keeps (iterations_of_argv argv).
Proof.
  apply keeps_same. intros s. destruct argv as [|prog [|arg rest]]; try reflexivity.
  unfold iterations_of_argv, try_except_ValueError, bind, lift.
  destruct (py_int arg) as [z|e] eqn:E; [reflexivity|].
  rewrite (py_int_raises_ValueError arg e E). reflexivity.
Qed.

Lemma keeps_Fuzzer_init : keeps Fuzzer_init.
Proof. intros s _. exists []. reflexivity. Qed.

Lemma keeps_main (W : World) (argv : list string) : keeps (main W argv).
Proof.
  unfold main.
  apply keeps_bind; [keeps_step | intros _].
  apply keeps_bind; [apply keeps_iterations_of_argv | intros n].
  apply keeps_bind; [apply keeps_Fuzzer_init | intros _].
  apply keeps_bind; [apply keeps_run_all_fuzzing | intros _].
  keeps_step.
Qed.

(** X1.  However the script ends -- with [sys.exit(0)], with
    [sys.exit(1)], at the import block, or on an exception that leaves
    [main] -- the reporter is in a state that [log_test] calls alone
    produce: nothing else in the harness writes its counters or its
    bug list.  So at every exit [0 <= crash_count <= test_count], the
    bug list has [crash_count] entries and every stored input has at
    most 100 characters. *)
Theorem reporter_consistent_at_every_exit :
  forall (W : World) (argv : list string),
    let self := reporter (snd (run (script W argv))) in
    (exists cs, self = after_calls cs) /\
    0 <= crash_count self <= test_count self /\
    crash_count self = Z.of_nat (List.length (bugs_found self)) /\
    Forall (fun b => (String.length (bug_input b) <= 100)%nat) (bugs_found self).
Proof.
  intros W argv self.
  assert (H : logged_only (snd (run (script W argv)))).
  { unfold run, script. destruct (import_error W) as [e|].
    - exists []. reflexivity.
    - apply keeps_main. exists []. reflexivity. }
  destruct H as (cs & H). fold self in H.
  split; [now exists cs|]. rewrite H.
  destruct (after_calls_invariant cs) as (_ & Hinv & Hb).
  split; [exact Hinv|]. split; [exact Hb | apply after_calls_truncated].
Qed.

(** ** The other generators *)

Lemma generate_random_string_none (W : World) (s : state) :
  exists r n,
    generate_random_string W None s = (Ok r, set_draws n s) /\ random_text r.
Proof.
  unfold generate_random_string, bind.
  destruct (randint_value W 0 100 s ltac:(lia)) as (k & Hk & ->).
  destruct (choices_alphabet W (range_len k) (set_draws (S (draws s)) s))
    as (cs & -> & L & F).
  eexists _, _. split; [reflexivity|]. unfold random_text.
  rewrite list_ascii_of_string_of_list_ascii, length_string_of_list_ascii, L.
  split; [exact F | unfold range_len; lia].
Qed.

Lemma string_length_append (a b : string) :
  String.length (a ++ b) = (String.length a + String.length b)%nat.
Proof. induction a as [|c a IH]; simpl; [reflexivity | now rewrite IH]. Qed.

(** X2.  [generate_random_date] always returns a date, between 1000
    days before and 1000 days after 1 January 2020: it is the raw draw
    modulo 2001, less 1000, so every offset of that range is drawn.  It
    takes one draw and touches nothing else. *)
Theorem generate_random_date_in_range :
  forall (W : World) (s : state),
  exists d : Z,
    generate_random_date W s = (Ok (VDate d), set_draws (S (draws s)) s) /\
    -1000 <= d <= 1000 /\
    d = Z.of_nat (entropy W (draws s)) mod 2001 - 1000.
Proof.
  intros W s. eexists. split; [reflexivity|].
  pose proof (Z.mod_pos_bound (Z.of_nat (entropy W (draws s))) 2001 ltac:(lia)).
  change (1000 - -1000 + 1) with 2001. lia.
Qed.

(** X3.  [generate_random_python_code] always returns a text: one of
    the nine fixed templates, or a random text, or a random text after
    ["# "] or after ["import "].  The text has at most 107 characters,
    and only random numbers are drawn. *)
Theorem generate_random_python_code_corpus :
  forall (W : World) (s : state),
  exists (code : string) (n : nat) (r1 r2 r3 : string),
    generate_random_python_code W s = (Ok code, set_draws n s) /\
    random_text r1 /\ random_text r2 /\ random_text r3 /\
    In code
       [ "import random" ++ nl ++ "print('hello')";
         "def func():" ++ nl ++ "    pass";
         "class Test:" ++ nl ++ "    def __init__(self):" ++ nl ++ "        pass";
         "x = 1 + 2";
         "";
         "invalid python code @#$%";
         "def func(" ++ nl ++ "    incomplete";
         "'''multiline" ++ nl ++ "string" ++ nl ++ "'''";
         nl ++ nl ++ nl;
         r1;
         "# " ++ r2;
         "import " ++ r3 ] /\
    (String.length code <= 107)%nat.
Proof.
  intros W s. unfold generate_random_python_code. unfold bind at 1.
  destruct (generate_random_string_none W s) as (r1 & n1 & -> & H1).
  unfold bind at 1.
  destruct (generate_random_string_none W (set_draws n1 s)) as (r2 & n2 & -> & H2).
  unfold bind at 1.
  destruct (generate_random_string_none W (set_draws n2 (set_draws n1 s)))
    as (r3 & n3 & -> & H3).
  unfold choice, bind, draw, ret.
  eexists _, _, r1, r2, r3. split; [reflexivity|].
  split; [exact H1|]. split; [exact H2|]. split; [exact H3|].
  match goal with
  | |- In (nth ?i ?l ?d) _ /\ _ =>
      assert (Hin : In (nth i l d) l)
        by (apply nth_In, Nat.mod_upper_bound; discriminate);
      generalize dependent (nth i l d)
  end.
  intros code Hin. split; [exact Hin|].
  destruct H1 as (_ & L1), H2 as (_ & L2), H3 as (_ & L3).
  cbn [In] in Hin.
  repeat (destruct Hin as [<-|Hin]; [try (vm_compute; lia)|]);
    try contradiction.
  - lia.
  - rewrite string_length_append. simpl. lia.
  - rewrite string_length_append. simpl. lia.
Qed.

(** ** What a computation adds to the run *)

Section Adding.

Variable R : FuzzReporter -> list event -> FuzzReporter -> Prop.
Hypothesis R_ok :
  (forall r, R r [] r) /\
  (forall r1 a r2 b r3, R r1 a r2 -> R r2 b r3 -> R r1 (a ++ b)%list r3).

Lemma adds_same {A : Type} (m : M A) :
  (forall s, trace (snd (m s)) = trace s /\ reporter (snd (m s)) = reporter s) ->
  adds R m.
Proof.
  intros H s. destruct (H s) as (T & E). exists [].
  rewrite T, E, app_nil_r. split; [reflexivity | apply R_ok].
Qed.

Lemma adds_ret {A : Type} (a : A) : adds R (ret a).
Proof. apply adds_same. intros s. split; reflexivity. Qed.

Lemma adds_quiet {A : Type} (m : M A) : quiet m -> adds R m.
Proof.
  intros H. apply adds_same. intros s. destruct (H s) as (a & n & ->).
  split; reflexivity.
Qed.

Lemma adds_bind {A B : Type} (m : M A) (k : A -> M B) :
  adds R m -> (forall a, adds R (k a)) -> adds R (bind m k).
Proof.
  intros Hm Hk s. unfold bind. destruct (Hm s) as (evs & T & H).
  destruct (m s) as [[a|e] s1]; cbn [snd] in *.
  - destruct (Hk a s1) as (evs' & T' & H'). exists (evs ++ evs')%list.
    rewrite T', T, app_assoc. split; [reflexivity|].
    eapply (proj2 R_ok); eassumption.
  - exists evs. split; assumption.
Qed.

Lemma adds_try_except {A : Type} (body : M A) (handler : exn -> M A) :
  adds R body -> (forall e, adds R (handler e)) -> adds R (try_except body handler).
Proof.
  intros Hb Hh s. unfold try_except. destruct (Hb s) as (evs & T & H).
  destruct (body s) as [[a|e] s1]; cbn [snd] in *.
  - exists evs. split; assumption.
  - destruct (Hh e (set_handling (Some e) s1)) as (evs' & T' & H').
    destruct (handler e (set_handling (Some e) s1)) as [r s2].
    cbn [snd trace reporter set_handling] in *.
    exists (evs ++ evs')%list. rewrite T', T, app_assoc.
    split; [reflexivity | eapply (proj2 R_ok); eassumption].
Qed.

Lemma adds_try_finally {A : Type} (body : M A) (final : M unit) :
  adds R body -> adds R final -> adds R (try_finally body final).
Proof.
  intros Hb Hf s. unfold try_finally. destruct (Hb s) as (evs & T & H).
  destruct (body s) as [r s1]; cbn [snd] in *.
  destruct (Hf s1) as (evs' & T' & H').
  destruct (final s1) as [[u|e] s2]; cbn [snd] in *;
    exists (evs ++ evs')%list; rewrite T', T, app_assoc;
    (split; [reflexivity | eapply (proj2 R_ok); eassumption]).
Qed.

Lemma adds_swallow (m : M unit) : adds R m -> adds R (swallow m).
Proof.
  intros Hm s. unfold swallow. destruct (Hm s) as (evs & T & H).
  destruct (m s) as [[u|e] s1]; cbn [snd] in *; exists evs; split; assumption.
Qed.

Lemma adds_in_new_frame {A : Type} (m : M A) : adds R m -> adds R (in_new_frame m).
Proof.
  intros Hm s. unfold in_new_frame. destruct (Hm (set_frame [] s)) as (evs & T & H).
  destruct (m (set_frame [] s)) as [r s1].
  cbn [snd trace reporter set_frame] in *. exists evs. split; assumption.
Qed.

Lemma adds_for_range (n i : nat) (body : nat -> M unit) :
  (forall j, adds R (body j)) -> adds R (for_range n i body).
Proof.
  intros Hb. revert i. induction n as [|n IH]; intros i; cbn [for_range].
  - apply adds_ret.
  - apply adds_bind; [apply Hb | intros _; apply IH].
Qed.

Lemma adds_for_each {A : Type} (l : list A) (body : A -> M unit) :
  (forall x, adds R (body x)) -> adds R (for_each l body).
Proof.
  intros Hb. induction l as [|x l IH]; cbn [for_each].
  - apply adds_ret.
  - apply adds_bind; [apply Hb | intros _; exact IH].
Qed.

(** The argument handling prints one line at most. *)
Lemma adds_iterations_of_argv (argv : list string) :
  (forall l r, R r [EvPrint l] r) -> adds R (iterations_of_argv argv).
Proof.
  intros Hp s. destruct argv as [|prog [|arg rest]];
    try (apply adds_ret).
  unfold iterations_of_argv, try_except_ValueError, bind, lift.
  destruct (py_int arg) as [z|e] eqn:E.
  - eexists [_]. split; [reflexivity | apply Hp].
  - rewrite (py_int_raises_ValueError arg e E). cbn.
    eexists [_]. split; [reflexivity | apply Hp].
Qed.

End Adding.

Lemma adds_impl {A : Type} (R1 R2 : FuzzReporter -> list event -> FuzzReporter -> Prop)
    (m : M A) :
  (forall r evs r', R1 r evs r' -> R2 r evs r') -> adds R1 m -> adds R2 m.
Proof.
  intros Hi H s. destruct (H s) as (evs & T & H1). exists evs. split; auto.
Qed.

(** Steps through a computation made of the harness's statements.
    [block] is tried first, on the statements that have to be taken
    whole; [leaf] settles the statements that add an event. *)
Ltac adds_step block leaf :=
  cbv beta zeta;
  first
    [ block
    | lazymatch goal with
      | |- adds _ (bind _ _) =>
          apply adds_bind;
          [assumption | adds_step block leaf | intros ?; adds_step block leaf]
      | |- adds _ (ret _) => apply adds_ret; assumption
      | |- adds _ (try_except _ _) =>
          apply adds_try_except;
          [assumption | adds_step block leaf | intros ?; adds_step block leaf]
      | |- adds _ (try_finally _ _) =>
          apply adds_try_finally;
          [assumption | adds_step block leaf | adds_step block leaf]
      | |- adds _ (swallow _) => apply adds_swallow; adds_step block leaf
      | |- adds _ (in_new_frame _) => apply adds_in_new_frame; adds_step block leaf
      | |- adds _ (for_range _ _ _) =>
          apply adds_for_range; [assumption | intros ?; adds_step block leaf]
      | |- adds _ (for_each _ _) =>
          apply adds_for_each; [assumption | intros ?; adds_step block leaf]
      | |- adds _ (generate_random_python_code _) =>
          apply adds_quiet; [assumption | apply quiet_generate_random_python_code]
      | |- adds _ (generate_random_string _ _) =>
          apply adds_quiet; [assumption | apply quiet_generate_random_string]
      | |- adds _ (generate_random_date _) =>
          apply adds_quiet; [assumption | apply quiet_generate_random_date]
      | |- adds _ (choice _ (_ :: _)) =>
          apply adds_quiet; [assumption | apply quiet_choice]
      | |- adds _ (randint _ _ _) =>
          apply adds_quiet; [assumption | apply quiet_randint; lia]
      | |- adds _ (days_between_failed _ _) =>
          unfold days_between_failed; adds_step block leaf
      | |- adds _ (match ?l with _ :: _ => _ | [] => _ end) =>
          destruct l; adds_step block leaf
      | |- adds _ (let '(_, _) := ?x in _) => destruct x; adds_step block leaf
      | |- adds _ (if ?b then _ else _) => destruct b; adds_step block leaf
      | |- adds _ _ => leaf
      end ].

(** A statement that adds no event, or one: [prove] shows that the
    relation holds of it. *)
Ltac adds_event prove :=
  let s := fresh "s" in
  intros s;
  unfold os_unlink, shutil_rmtree, call, reporter_log_test, print_str, print,
    report_str, report_line, write_file, mkdtemp, create_temp_python_file,
    store, load, datetime_now, now_strftime, lift, get_reporter, Fuzzer_init;
  repeat match goal with
         | |- context [match ?x with _ => _ end] => destruct x
         end;
  first [ exists []; split; [symmetry; apply app_nil_r | prove]
        | eexists [_]; split; [reflexivity | prove] ].

(** ** Temporary files and directories *)

Lemma held_after_app (a b : list event) (held : option resource) :
  held_after held (a ++ b)
  = match held_after held a with
    | Some held' => held_after held' b
    | None => None
    end.
Proof.
  revert held. induction a as [|e a IH]; intros held; [reflexivity|].
  destruct e; cbn [held_after app]; try apply IH;
    destruct held as [[p|d]|]; try reflexivity; try apply IH;
    match goal with |- context [if ?c then _ else _] => destruct c end;
    try reflexivity; apply IH.
Qed.

Lemma tidy_ok :
  (forall r : FuzzReporter, (fun _ evs _ => tidy evs) r [] r) /\
  (forall (r1 : FuzzReporter) a (r2 : FuzzReporter) b (r3 : FuzzReporter),
      (fun _ evs _ => tidy evs) r1 a r2 -> (fun _ evs _ => tidy evs) r2 b r3 ->
      (fun _ evs _ => tidy evs) r1 (a ++ b)%list r3).
Proof.
  split; [reflexivity|]. unfold tidy. intros _ a _ b _ Ha Hb.
  now rewrite held_after_app, Ha.
Qed.

Lemma Forall_ok (p : event -> Prop) :
  (forall r : FuzzReporter, (fun _ evs _ => Forall p evs) r [] r) /\
  (forall (r1 : FuzzReporter) a (r2 : FuzzReporter) b (r3 : FuzzReporter),
      (fun _ evs _ => Forall p evs) r1 a r2 -> (fun _ evs _ => Forall p evs) r2 b r3 ->
      (fun _ evs _ => Forall p evs) r1 (a ++ b)%list r3).
Proof.
  split; [constructor|]. intros _ a _ b _ Ha Hb. apply Forall_app. now split.
Qed.

Lemma held_after_no_files (evs : list event) (held : option resource) :
  Forall no_files evs -> held_after held evs = Some held.
Proof.
  induction 1 as [|e evs He _ IH]; [reflexivity|].
  destruct e; cbn [held_after]; try exact IH; contradiction.
Qed.

Lemma held_after_inside (d : string) (evs : list event) :
  Forall (inside d) evs -> held_after (Some (TempDir d)) evs = Some (Some (TempDir d)).
Proof.
  induction 1 as [|e evs He _ IH]; [reflexivity|].
  destruct e; cbn [held_after]; try exact IH; try contradiction.
  cbn [inside] in He. now rewrite He.
Qed.

Lemma startswith_path_join (d name : string) :
  startswith (path_join d name) (d ++ "/") = true.
Proof.
  unfold path_join. induction d as [|c d IH]; [reflexivity|].
  cbn [String.append startswith]. rewrite Ascii.eqb_refl. exact IH.
Qed.

(** A temporary source file lives from its creation to the [finally]
    clause, whatever the guarded statements do. *)
Lemma tidy_temp_file {A : Type} (W : World) (content : string)
    (body : string -> M A) :
  (forall path, adds (fun _ evs _ => Forall no_files evs) (body path)) ->
  adds (fun _ evs _ => tidy evs)
       (temp_file <- create_temp_python_file W content ;;
        try_finally (body temp_file) (swallow (os_unlink W temp_file))).
Proof.
  intros Hb s. unfold bind, create_temp_python_file, try_finally.
  match goal with
  | |- context [body ?p ?st] =>
      destruct (Hb p st) as (evs & T & F); destruct (body p st) as [r s1]
  end.
  cbn [snd trace emit set_ticks] in T.
  exists ([EvCreate (os_name W (ticks s) ++ ".py") content] ++ evs
          ++ [EvUnlink (os_name W (ticks s) ++ ".py")])%list.
  split.
  - unfold swallow, os_unlink.
    destruct (cleanup_error W (ticks s1)); cbn [snd trace emit set_ticks];
      rewrite T, <- !app_assoc; reflexivity.
  - unfold tidy. cbn [held_after app].
    rewrite held_after_app, held_after_no_files by exact F.
    cbn [held_after]. now rewrite String.eqb_refl.
Qed.

(** So does a temporary directory, with the files written into it. *)
Lemma tidy_temp_dir {A : Type} (W : World) (body : string -> M A) :
  (forall d, adds (fun _ evs _ => Forall (inside d) evs) (body d)) ->
  adds (fun _ evs _ => tidy evs)
       (temp_dir <- mkdtemp W ;;
        try_finally (body temp_dir) (swallow (shutil_rmtree W temp_dir))).
Proof.
  intros Hb s. unfold bind, mkdtemp, try_finally.
  match goal with
  | |- context [body ?p ?st] =>
      destruct (Hb p st) as (evs & T & F); destruct (body p st) as [r s1]
  end.
  cbn [snd trace emit set_ticks] in T.
  exists ([EvMkdtemp (os_name W (ticks s))] ++ evs
          ++ [EvRmtree (os_name W (ticks s))])%list.
  split.
  - unfold swallow, shutil_rmtree.
    destruct (cleanup_error W (ticks s1)); cbn [snd trace emit set_ticks];
      rewrite T, <- !app_assoc; reflexivity.
  - unfold tidy. cbn [held_after app].
    rewrite held_after_app, held_after_inside by exact F.
    cbn [held_after]. now rewrite String.eqb_refl.
Qed.

Ltac no_block := fail.

Ltac each_event :=
  adds_event ltac:(repeat first [apply Forall_nil | apply Forall_cons];
                   first [exact I | apply startswith_path_join]).

Ltac tidy_block :=
  first
    [ apply tidy_temp_file; intros ?;
      pose proof (Forall_ok no_files); adds_step no_block each_event
    | apply tidy_temp_dir; intros ?d;
      pose proof (Forall_ok (inside d)); adds_step no_block each_event ].

Ltac tidy_steps :=
  pose proof tidy_ok; adds_step tidy_block ltac:(adds_event ltac:(exact eq_refl)).

Lemma tidy_fuzz_getPythonParseObject (W : World) (n : Z) :
  adds (fun _ evs _ => tidy evs) (fuzz_getPythonParseObject W n).
Proof. unfold fuzz_getPythonParseObject. tidy_steps. Qed.

Lemma tidy_fuzz_checkLoggingPerData (W : World) (n : Z) :
  adds (fun _ evs _ => tidy evs) (fuzz_checkLoggingPerData W n).
Proof. unfold fuzz_checkLoggingPerData, checkLoggingPerData_iteration. tidy_steps. Qed.

Lemma tidy_fuzz_days_between (W : World) (n : Z) :
  adds (fun _ evs _ => tidy evs) (fuzz_days_between W n).
Proof. unfold fuzz_days_between, days_between_edge_cases. tidy_steps. Qed.

Lemma tidy_fuzz_getPythonFileCount (W : World) (n : Z) :
  adds (fun _ evs _ => tidy evs) (fuzz_getPythonFileCount W n).
Proof.
  unfold fuzz_getPythonFileCount, file_count_iteration, populate_and_count,
    invalid_dirs.
  tidy_steps.
Qed.

Lemma tidy_fuzz_getDataLoadCount (W : World) (n : Z) :
  adds (fun _ evs _ => tidy evs) (fuzz_getDataLoadCount W n).
Proof. unfold fuzz_getDataLoadCount. tidy_steps. Qed.

Lemma tidy_script (W : World) (argv : list string) :
  adds (fun _ evs _ => tidy evs) (script W argv).
Proof.
  pose proof tidy_ok as Hok.
  unfold script. destruct (import_error W) as [e|]; [tidy_steps|].
  unfold main.
  apply adds_bind; [assumption | tidy_steps | intros _].
  apply adds_bind; [assumption | | intros n].
  { apply adds_iterations_of_argv; [assumption | intros; exact eq_refl]. }
  apply adds_bind; [assumption | tidy_steps | intros _].
  apply adds_bind; [assumption | | intros _; tidy_steps].
  unfold run_all_fuzzing, reporter_generate_report.
  repeat (apply adds_bind; [assumption | | intros ?]);
    try apply tidy_fuzz_getPythonParseObject;
    try apply tidy_fuzz_checkLoggingPerData;
    try apply tidy_fuzz_days_between;
    try apply tidy_fuzz_getPythonFileCount;
    try apply tidy_fuzz_getDataLoadCount;
    try (unfold generate_report); tidy_steps.
Qed.

(** X4.  What the harness has been given, it hands back.  In a run
    of the script in which creating and writing the temporary files
    and directories succeeds, every file whose name
    [create_temp_python_file] has returned is handed to [os.unlink]
    before anything else is created, every directory that [mkdtemp]
    has returned is handed to [shutil.rmtree] before anything else is
    created, the only files written in between lie inside the
    directory then held, and nothing is held at the end.  This is the
    work of the [finally] clauses: it holds when the target raised an
    exception, and when the [UnboundLocalError] of the second campaign
    ended the run.  The removal is requested; whether it succeeds is
    not looked at.  A file that [create_temp_python_file] has created
    and then failed to write is outside the statement: no name is
    returned, and nothing removes it. *)
Theorem temporary_files_are_released :
  forall (W : World) (argv : list string),
    tidy (trace (snd (run (script W argv)))).
Proof.
  intros W argv. destruct (tidy_script W argv initial_state) as (evs & T & H).
  unfold run. rewrite T. exact H.
Qed.

(** ** Guarded calls *)

Ltac guarded_done args out tb :=
  exists [], args, out; eexists _, tb, tt, _;
  (split; [reflexivity|]); (split; [constructor|]);
  (split; [cbn [trace emit set_reporter set_calls set_handling set_frame
                set_draws app];
           rewrite <- app_assoc; reflexivity | reflexivity]).

Lemma guarded_call_and_log (W : World) (op : target) (args : list pyval)
    (input : pyval -> string) (input' : string) :
  guarded_call op
    (try_except
       (result <- call W op args ;;
        reporter_log_test W (target_name op) (input result) result None)
       (fun e => reporter_log_test W (target_name op) input' VNone (Some e))).
Proof.
  intros s. unfold try_except, bind, call, reporter_log_test.
  destruct (run_target W op (calls s) args) as [v|e0] eqn:E;
    [ guarded_done args (@Ok pyval v) (format_exc W (handling s))
    | guarded_done args (@Raise pyval e0) (format_exc W (Some e0)) ].
Qed.

(** The random pass of the third campaign: both dates are stored before
    the call, so the handler finds them. *)
Lemma guarded_days_between_random (W : World) :
  guarded_call days_between
    (try_except
       (d1 <- generate_random_date W ;;
        store "d1" d1 ;;
        d2 <- generate_random_date W ;;
        store "d2" d2 ;;
        result <- call W days_between [d1; d2] ;;
        reporter_log_test W "days_between"
          ("d1: " ++ py_str W d1 ++ ", d2: " ++ py_str W d2) result None)
       (days_between_failed W)).
Proof.
  intros s. unfold try_except. unfold bind at 1.
  destruct (quiet_generate_random_date W s) as (d1 & n1 & ->).
  unfold bind at 1, store at 1. unfold bind at 1.
  match goal with
  | |- context [generate_random_date W ?st] =>
      destruct (quiet_generate_random_date W st) as (d2 & n2 & E2)
  end.
  rewrite E2.
  unfold bind, store, call, days_between_failed, load, reporter_log_test.
  cbn -[log_test py_str String.append].
  destruct (run_target W days_between (calls s) [d1; d2]) as [v|e0] eqn:E;
    cbn -[log_test py_str String.append];
    [ guarded_done [d1; d2] (@Ok pyval v) (format_exc W (handling s))
    | guarded_done [d1; d2] (@Raise pyval e0) (format_exc W (Some e0)) ].
Qed.

(** A fixed pair of the third campaign. *)
Lemma guarded_days_between_edge (W : World) (d1 d2 : pyval) :
  guarded_call days_between
    (store "d1" d1 ;;
     store "d2" d2 ;;
     try_except
       (result <- call W days_between [d1; d2] ;;
        reporter_log_test W "days_between"
          ("d1: " ++ py_str W d1 ++ ", d2: " ++ py_str W d2) result None)
       (days_between_failed W)).
Proof.
  intros s.
  unfold try_except, bind, store, call, days_between_failed, load, reporter_log_test.
  cbn -[log_test py_str String.append].
  destruct (run_target W days_between (calls s) [d1; d2]) as [v|e0] eqn:E;
    cbn -[log_test py_str String.append];
    [ guarded_done [d1; d2] (@Ok pyval v) (format_exc W (handling s))
    | guarded_done [d1; d2] (@Raise pyval e0) (format_exc W (Some e0)) ].
Qed.

(** One random pass of the fourth campaign, without the directory. *)
Lemma guarded_populate_and_count (W : World) (temp_dir : string) :
  guarded_call getPythonFileCount
    (try_except
       (populate_and_count W temp_dir)
       (fun e =>
          reporter_log_test W "getPythonFileCount" ("dir: " ++ temp_dir)
            VNone (Some e))).
Proof.
  intros s.
  destruct (populate_and_count_spec W temp_dir s)
    as (files & out & s' & F & _ & _ & _ & _ & H).
  exists files, [VStr temp_dir], out. unfold try_except.
  destruct out as [v|e]; destruct H as (E & T & Rp); rewrite E.
  - eexists _, (format_exc W (handling s)), tt, s'.
    split; [reflexivity|]. split; [exact F|]. split; [exact T | exact Rp].
  - eexists _, (format_exc W (Some e)), tt, _.
    split; [reflexivity|]. split; [exact F|].
    unfold reporter_log_test.
    cbn [trace reporter emit set_reporter set_handling handling fst snd logged_as].
    rewrite T, Rp, <- !app_assoc. split; reflexivity.
Qed.

(** ** Every call is logged as it went *)

Lemma matched_app (a b : list event) (p q r : option (target * outcome pyval)) :
  matched p q a -> matched q r b -> matched p r (a ++ b).
Proof.
  revert p. induction a as [|e a IH]; intros p Ha Hb.
  - cbn in Ha. subst q. exact Hb.
  - destruct e; cbn [matched app] in *; try (apply IH; assumption).
    + destruct Ha as (-> & Ha). split; [reflexivity | apply IH; assumption].
    + destruct p as [[op out]|]; [|contradiction].
      destruct Ha as (Hm & Hl & Ha). repeat split; try assumption.
      apply IH; assumption.
Qed.

Lemma matched_creates (files : list event) (p : option (target * outcome pyval)) :
  Forall is_create files -> matched p p files.
Proof.
  induction 1 as [|e files (path & content & ->) _ IH]; [reflexivity | exact IH].
Qed.

Lemma faithful_ok :
  (forall r : FuzzReporter, (fun _ evs _ => faithful evs) r [] r) /\
  (forall (r1 : FuzzReporter) a (r2 : FuzzReporter) b (r3 : FuzzReporter),
      (fun _ evs _ => faithful evs) r1 a r2 -> (fun _ evs _ => faithful evs) r2 b r3 ->
      (fun _ evs _ => faithful evs) r1 (a ++ b)%list r3).
Proof.
  split; [reflexivity|]. intros _ a _ b _ Ha Hb. eapply matched_app; eassumption.
Qed.

Lemma faithful_guarded {A : Type} (op : target) (m : M A) :
  guarded_call op m -> adds (fun _ evs _ => faithful evs) m.
Proof.
  intros H s.
  destruct (H s) as (files & args & out & input & tb & a & s' & E & F & T & _).
  rewrite E. eexists. split; [exact T|].
  eapply matched_app; [apply matched_creates; exact F|].
  cbn. split; [reflexivity|]. split; [reflexivity|].
  split; [destruct out; reflexivity | reflexivity].
Qed.

(** ** Every call is counted *)

Lemma call_outcomes_app (a b : list event) :
  call_outcomes (a ++ b) = (call_outcomes a ++ call_outcomes b)%list.
Proof.
  induction a as [|e a IH]; [reflexivity|].
  destruct e; cbn [call_outcomes app]; rewrite ?IH; reflexivity.
Qed.

Lemma failures_app (x y : list (outcome pyval)) :
  failures (x ++ y) = (failures x ++ failures y)%list.
Proof.
  induction x as [|[v|e] x IH]; cbn [failures app]; [reflexivity | exact IH|].
  destruct (exn_truthy e); cbn [app]; now rewrite IH.
Qed.

Lemma call_outcomes_creates (files : list event) :
  Forall is_create files -> call_outcomes files = [].
Proof.
  induction 1 as [|e files (path & content & ->) _ IH]; [reflexivity | exact IH].
Qed.

Lemma accounted_silent (r : FuzzReporter) (evs : list event) :
  call_outcomes evs = [] -> accounted r evs r.
Proof.
  intros H. unfold accounted. rewrite H. cbn.
  split; [lia|]. split; [lia|]. exists []. now rewrite app_nil_r.
Qed.

Lemma accounted_ok :
  (forall r, accounted r [] r) /\
  (forall r1 a r2 b r3,
      accounted r1 a r2 -> accounted r2 b r3 -> accounted r1 (a ++ b)%list r3).
Proof.
  split; [intros r; now apply accounted_silent|].
  unfold accounted. intros r1 a r2 b r3 (T1 & C1 & n1 & B1 & M1) (T2 & C2 & n2 & B2 & M2).
  rewrite call_outcomes_app, failures_app, !length_app, !Nat2Z.inj_add.
  split; [lia|]. split; [lia|]. exists (n1 ++ n2)%list.
  rewrite B2, B1, <- app_assoc, !map_app, M1, M2. split; reflexivity.
Qed.

Lemma accounted_guarded {A : Type} (op : target) (m : M A) :
  guarded_call op m -> adds accounted m.
Proof.
  intros H s.
  destruct (H s) as (files & args & out & input & tb & a & s' & E & F & T & Rp).
  rewrite E. eexists. split; [exact T|]. cbn [snd]. rewrite Rp. unfold accounted.
  rewrite call_outcomes_app, call_outcomes_creates by exact F.
  cbn [call_outcomes app List.length failures].
  destruct out as [v|e]; cbn [logged_as fst snd log_test failures List.length].
  - cbn. split; [lia|]. split; [lia|]. exists []. now rewrite app_nil_r.
  - destruct (exn_truthy e); cbn [test_count crash_count bugs_found List.length].
    + split; [lia|]. split; [lia|]. eexists [_]. split; reflexivity.
    + split; [lia|]. split; [lia|]. exists []. now rewrite app_nil_r.
Qed.

Ltac guarded_block :=
  lazymatch goal with
  | |- guarded_call _ (try_except (bind (call ?W ?op ?args) _) _) =>
      apply (guarded_call_and_log W op args)
  | |- guarded_call _ (try_except (bind (generate_random_date _) _) _) =>
      apply guarded_days_between_random
  | |- guarded_call _ (bind (store _ _) _) => apply guarded_days_between_edge
  | |- guarded_call _ (try_except (populate_and_count _ _) _) =>
      apply guarded_populate_and_count
  end.

Ltac faithful_steps :=
  pose proof faithful_ok;
  adds_step ltac:(eapply faithful_guarded; guarded_block)
            ltac:(adds_event ltac:(exact eq_refl)).

Ltac accounted_steps :=
  pose proof accounted_ok;
  adds_step ltac:(eapply accounted_guarded; guarded_block)
            ltac:(adds_event ltac:(apply accounted_silent; reflexivity)).

Lemma faithful_fuzz_getPythonParseObject (W : World) (n : Z) :
  adds (fun _ evs _ => faithful evs) (fuzz_getPythonParseObject W n).
Proof. unfold fuzz_getPythonParseObject. faithful_steps. Qed.

Lemma faithful_fuzz_days_between (W : World) (n : Z) :
  adds (fun _ evs _ => faithful evs) (fuzz_days_between W n).
Proof. unfold fuzz_days_between, days_between_edge_cases. faithful_steps. Qed.

Lemma faithful_fuzz_getPythonFileCount (W : World) (n : Z) :
  adds (fun _ evs _ => faithful evs) (fuzz_getPythonFileCount W n).
Proof.
  unfold fuzz_getPythonFileCount, file_count_iteration, invalid_dirs.
  faithful_steps.
Qed.

Lemma faithful_fuzz_getDataLoadCount (W : World) (n : Z) :
  adds (fun _ evs _ => faithful evs) (fuzz_getDataLoadCount W n).
Proof. unfold fuzz_getDataLoadCount. faithful_steps. Qed.

Lemma calls_of_app (op : target) (a b : list event) :
  calls_of op (a ++ b) = (calls_of op a ++ calls_of op b)%list.
Proof.
  induction a as [|e a IH]; [reflexivity|].
  destruct e; cbn [calls_of app]; rewrite ?IH; try reflexivity.
  destruct (same_target op op0); reflexivity.
Qed.

Lemma calls_of_only (op : target) (evs : list event) :
  Forall (calls_only op) evs ->
  List.length (calls_of op evs) = List.length (call_outcomes evs).
Proof.
  induction 1 as [|e evs He _ IH]; [reflexivity|].
  destruct e; cbn [calls_of call_outcomes]; try exact IH.
  cbn in He. subst op0. replace (same_target op op) with true by (now destruct op).
  cbn [List.length]. now rewrite IH.
Qed.

Ltac only_steps op :=
  pose proof (Forall_ok (calls_only op));
  adds_step no_block
    ltac:(adds_event ltac:(repeat first [apply Forall_nil | apply Forall_cons];
                           first [exact I | reflexivity])).

Lemma logs_every_call_intro (op : target) (k : nat) (m : M unit) :
  adds (fun _ evs _ => Forall (calls_only op) evs) m ->
  adds (fun _ evs _ => faithful evs) m ->
  (forall s, exists s',
      m s = (Ok tt, s') /\
      List.length (calls_of op (trace s'))
      = (List.length (calls_of op (trace s)) + k)%nat) ->
  logs_every_call op k m.
Proof.
  intros Ho Hf Hk s. destruct (Ho s) as (evs & T & O), (Hf s) as (evs' & T' & F).
  destruct (Hk s) as (s' & E & L). rewrite E in *. cbn [snd] in *.
  assert (evs' = evs) by (rewrite T in T'; apply app_inv_head in T'; congruence).
  subst evs'. exists evs, s'. split; [reflexivity|]. split; [exact T|].
  split; [exact O|]. split; [|exact F].
  rewrite <- (calls_of_only op evs O).
  rewrite T, calls_of_app, length_app in L. lia.
Qed.

(** X5.  The first, third, fourth and fifth campaigns isolate their
    target.  Take a run in which creating and writing the temporary
    files and directories and writing to the console succeed, and in
    which the target returns or raises an instance of [Exception] at
    each call.  Then these campaigns complete, whatever the target
    returns or raises.  With [n] the iteration count, they make
    [max(n, 0) + 5], [max(n, 0) + 8], [max(n, 0) + 6] and
    [max(n, 0) + 5] calls, of their own target only, and each call is
    followed, before the next one, by one [log_test] that records what
    the call did -- the value returned, or [None] and the exception
    raised -- under the name of the target; nothing else is logged. *)
Theorem campaigns_log_every_call :
  forall (W : World) (n : Z),
    logs_every_call getPythonParseObject (range_len n + 5)
      (fuzz_getPythonParseObject W n) /\
    logs_every_call days_between (range_len n + 8) (fuzz_days_between W n) /\
    logs_every_call getPythonFileCount (range_len n + 6)
      (fuzz_getPythonFileCount W n) /\
    logs_every_call getDataLoadCount (range_len n + 5)
      (fuzz_getDataLoadCount W n).
Proof.
  intros W n. repeat split; apply logs_every_call_intro.
  - unfold fuzz_getPythonParseObject. only_steps getPythonParseObject.
  - apply faithful_fuzz_getPythonParseObject.
  - intros s.
    destruct (fuzz_getPythonParseObject_calls_and_logs W n s) as (s' & E & L & _).
    eauto.
  - unfold fuzz_days_between, days_between_edge_cases. only_steps days_between.
  - apply faithful_fuzz_days_between.
  - intros s. destruct (fuzz_days_between_calls_and_logs W n s) as (s' & E & L & _).
    eauto.
  - unfold fuzz_getPythonFileCount, file_count_iteration, populate_and_count,
      invalid_dirs.
    only_steps getPythonFileCount.
  - apply faithful_fuzz_getPythonFileCount.
  - intros s.
    destruct (fuzz_getPythonFileCount_calls_and_logs W n s) as (s' & E & L & _).
    eauto.
  - unfold fuzz_getDataLoadCount. only_steps getDataLoadCount.
  - apply faithful_fuzz_getDataLoadCount.
  - intros s.
    destruct (fuzz_getDataLoadCount_calls_and_logs W n s) as (s' & E & L & _).
    eauto.
Qed.

(** X6.  In the first, third, fourth and fifth campaigns the reporter
    counts what the target did.  Take a run in which creating and
    writing the temporary files and directories and writing to the
    console succeed, and in which the target returns or raises an
    instance of [Exception] at each call.  From any state of the
    reporter, [test_count] grows by the number of calls made and
    [crash_count] by the number of calls that raised an exception that
    [if error:] takes for true; the bug list is extended, in the order
    of the calls, by one entry per such exception, bearing its type
    name and its message; the entries it had are kept. *)
Theorem campaigns_count_every_call :
  forall (W : World) (n : Z),
    adds accounted (fuzz_getPythonParseObject W n) /\
    adds accounted (fuzz_days_between W n) /\
    adds accounted (fuzz_getPythonFileCount W n) /\
    adds accounted (fuzz_getDataLoadCount W n).
Proof.
  intros W n. split; [|split; [|split]].
  - unfold fuzz_getPythonParseObject. accounted_steps.
  - unfold fuzz_days_between, days_between_edge_cases. accounted_steps.
  - unfold fuzz_getPythonFileCount, file_count_iteration, invalid_dirs.
    accounted_steps.
  - unfold fuzz_getDataLoadCount. accounted_steps.
Qed.

(** ** The second campaign when the parser raises *)

(** One pass in which the parser raises.  The file is created, the
    parser is called on it, and the file is unlinked.  With a value in
    [name_to_track] the pass completes and logs the parser's exception
    as an outcome of [checkLoggingPerData], under that value; without
    one it logs nothing and raises [UnboundLocalError]. *)
Lemma checkLoggingPerData_iteration_parser_raises (W : World) (s : state)
    (e0 : exn) :
  run_target W getPythonParseObject (calls s) [VStr (os_name W (ticks s) ++ ".py")]
  = Raise e0 ->
  exists (code : string) (s' : state),
    let path := os_name W (ticks s) ++ ".py" in
    let input name := "name: " ++ py_str W name ++ ", code: " ++ take 50 code in
    checkLoggingPerData_iteration W s
    = (match lookup "name_to_track" (frame s) with
       | Some _ => Ok tt
       | None => Raise (UnboundLocalError "name_to_track")
       end, s') /\
    trace s'
    = (trace s
       ++ [EvCreate path code;
           EvCall getPythonParseObject [VStr path] (Raise e0)]
       ++ match lookup "name_to_track" (frame s) with
          | Some name =>
              [EvLog "checkLoggingPerData" (input name) VNone (Some e0)]
          | None => []
          end
       ++ [EvUnlink path])%list /\
    reporter s'
    = match lookup "name_to_track" (frame s) with
      | Some name =>
          log_test "checkLoggingPerData" (input name) VNone (Some e0)
                   (format_exc W (Some e0)) (reporter s)
      | None => reporter s
      end.
Proof.
  intros Hp. unfold checkLoggingPerData_iteration. unfold bind at 1.
  destruct (quiet_generate_random_python_code W s) as (rc & n & ->).
  unfold bind at 1.
  match goal with
  | |- context [choice W (?x :: ?l) ?st] =>
      destruct (quiet_choice W x l st) as (code & n' & ->)
  end.
  exists code.
  unfold bind at 1, create_temp_python_file.
  unfold try_finally, try_except. unfold bind at 1. unfold call at 1.
  cbn [calls ticks emit set_ticks set_draws]. rewrite Hp.
  generalize (take 50 code). intros code50.
  unfold bind, load, reporter_log_test, swallow, os_unlink.
  cbn -[log_test py_str String.append lookup].
  destruct (lookup "name_to_track" (frame s)) as [name|] eqn:Ename;
    cbn -[log_test py_str String.append lookup];
    destruct (cleanup_error W (S (ticks s)));
    cbn -[log_test py_str String.append lookup];
    eexists; (split; [reflexivity|]);
    (split; [cbn [trace emit set_ticks set_handling set_reporter set_calls
                  set_draws];
             rewrite <- ?app_assoc; reflexivity | reflexivity]).
Qed.

(** One pass, with the file it parses. *)
Lemma checkLoggingPerData_iteration_first_file (W : World) (s : state) :
  match checkLoggingPerData_iteration W s with
  | (Ok _, s') => counted 1 s s' /\ bound "name_to_track" s'
  | (Raise e, s') =>
      exists e0,
        run_target W getPythonParseObject (calls s)
                   [VStr (os_name W (ticks s) ++ ".py")] = Raise e0
  end.
Proof.
  unfold checkLoggingPerData_iteration. unfold bind at 1.
  destruct (quiet_generate_random_python_code W s) as (rc & n & ->).
  unfold bind at 1.
  match goal with
  | |- context [choice W (?x :: ?l) ?st] =>
      destruct (quiet_choice W x l st) as (code & n' & ->)
  end.
  unfold bind at 1, create_temp_python_file.
  match goal with
  | |- match try_finally _ _ ?st with _ => _ end =>
      pose proof (checkLoggingPerData_guarded_cases W code
                    (os_name W (ticks (set_draws n' (set_draws n s))) ++ ".py") st) as H;
      destruct (try_finally _ _ st) as [[[]|e] s']
  end.
  - exact H.
  - destruct H as (_ & _ & _ & e0 & He). exists e0. exact He.
Qed.

(** X7.  A parser failure in a later pass of the second campaign is
    logged as a failure of [checkLoggingPerData], under a name that
    belongs to an earlier pass.  When [name_to_track] still holds the
    value [name] of an earlier pass and the parser raises [e0] on the
    new file, the pass completes; it never calls
    [checkLoggingPerData], yet it logs [e0] under the method name
    ["checkLoggingPerData"] with ["name: <name>"] in the input, and the
    file is unlinked. *)
Theorem parser_failure_logged_under_stale_name :
  forall (W : World) (s : state) (name : pyval) (e0 : exn),
    lookup "name_to_track" (frame s) = Some name ->
    run_target W getPythonParseObject (calls s) [VStr (os_name W (ticks s) ++ ".py")]
    = Raise e0 ->
    exists (code : string) (s' : state),
      let path := os_name W (ticks s) ++ ".py" in
      let input := "name: " ++ py_str W name ++ ", code: " ++ take 50 code in
      checkLoggingPerData_iteration W s = (Ok tt, s') /\
      trace s'
      = (trace s
         ++ [EvCreate path code;
             EvCall getPythonParseObject [VStr path] (Raise e0);
             EvLog "checkLoggingPerData" input VNone (Some e0);
             EvUnlink path])%list /\
      reporter s'
      = log_test "checkLoggingPerData" input VNone (Some e0)
                 (format_exc W (Some e0)) (reporter s).
Proof.
  intros W s name e0 Hn Hp.
  destruct (checkLoggingPerData_iteration_parser_raises W s e0 Hp)
    as (code & s' & E & T & Rp).
  rewrite Hn in E, T, Rp. exists code, s'.
  split; [exact E|]. split; [exact T | exact Rp].
Qed.

Lemma parser_failure_logged_under_stale_name_witness :
  let W := world_of invalid_source_in_second_pass tolerant_parser in
  exists s',
    checkLoggingPerData_iteration W after_one_pass = (Ok tt, s') /\
    trace s'
    = (trace after_one_pass
       ++ [EvCreate invalid_file "invalid python code @#$%";
           EvCall getPythonParseObject [VStr invalid_file] (Raise SyntaxError);
           EvLog "checkLoggingPerData"
             "name: data, code: invalid python code @#$%" VNone (Some SyntaxError);
           EvUnlink invalid_file])%list.
Proof.
  intros W.
  destruct (parser_failure_logged_under_stale_name W after_one_pass
              (VStr "data") SyntaxError)
    as (code & s' & E & T & _).
  - vm_compute. reflexivity.
  - vm_compute. reflexivity.
  - exists s'. split; [exact E|].
    assert (Hc : code = "invalid python code @#$%").
    { assert (H : In (EvCreate invalid_file code) (trace s')).
      { rewrite T. apply in_or_app. right. left. vm_compute. reflexivity. }
      revert H. vm_compute in E. injection E as <-. vm_compute.
      intros H. repeat (destruct H as [H|H]; [try discriminate H|]);
        try contradiction.
      all: injection H; auto. }
    subst code. rewrite T. vm_compute. reflexivity.
Defined.

(** X8.  The second campaign stands or falls with its first file.
    With at least one iteration asked for: if the parser raises on the
    first file, the campaign is left at once by the
    [UnboundLocalError] of [name_to_track], having made that one call,
    logged nothing and unlinked the file; if the parser returns on the
    first file, the campaign completes and logs one outcome per
    iteration, whatever the parser does on the later files. *)
Theorem second_campaign_outcome :
  forall (W : World) (n : Z) (s : state),
    0 < n ->
    let first_file := os_name W (ticks s) ++ ".py" in
    match run_target W getPythonParseObject (calls s) [VStr first_file] with
    | Raise e0 =>
        exists (code : string) (s' : state),
          fuzz_checkLoggingPerData W n s
          = (Raise (UnboundLocalError "name_to_track"), s') /\
          trace s'
          = (trace s
             ++ [EvPrint (Line (nl ++ "[2/5] Fuzzing py_parser.checkLoggingPerData() with "
                                ++ str_int n ++ " iterations..."));
                 EvCreate first_file code;
                 EvCall getPythonParseObject [VStr first_file] (Raise e0);
                 EvUnlink first_file])%list /\
          reporter s' = reporter s
    | Ok _ =>
        exists s' : state,
          fuzz_checkLoggingPerData W n s = (Ok tt, s') /\
          test_count (reporter s') = test_count (reporter s) + n
    end.
Proof.
  intros W n s Hn first_file.
  destruct (run_target W getPythonParseObject (calls s) [VStr first_file])
    as [tree|e0] eqn:Ep;
    unfold fuzz_checkLoggingPerData, in_new_frame, print_str, print;
    unfold bind at 1; unfold range_len;
    (destruct (Z.to_nat n) as [|k] eqn:Ek; [lia|]);
    cbn [for_range]; unfold bind at 1;
    set (s0 := emit _ (set_frame [] s)).
  - pose proof (checkLoggingPerData_iteration_first_file W s0) as H.
    destruct (checkLoggingPerData_iteration W s0) as [[[]|e] s1].
    + destruct H as (C1 & B1).
      destruct (checkLoggingPerData_loop_bound W k 1 s1 B1) as (s2 & -> & C2 & _).
      eexists. split; [reflexivity|].
      unfold counted in *. cbn [reporter set_frame emit] in *.
      subst s0. cbn [reporter set_frame emit] in *. lia.
    + destruct H as (e1 & He). subst s0 first_file.
      cbn [calls ticks emit set_frame] in He. congruence.
  - destruct (checkLoggingPerData_iteration_parser_raises W s0 e0 Ep)
      as (code & s1 & E & T & Rp).
    assert (Hl : lookup "name_to_track" (frame s0) = None) by reflexivity.
    rewrite Hl in E, T, Rp. rewrite E. exists code. eexists.
    split; [reflexivity|]. cbn [trace reporter set_frame]. rewrite T, Rp.
    subst s0. cbn [trace reporter ticks emit set_frame].
    rewrite <- !app_assoc. split; reflexivity.
Qed.

Lemma second_campaign_outcome_witness :
  let W := world_of invalid_source_in_second_campaign strict_parser in
  let s := snd (fuzz_getPythonParseObject W 1 initial_state) in
  exists (code : string) (s' : state),
    fuzz_checkLoggingPerData W 1 s
    = (Raise (UnboundLocalError "name_to_track"), s') /\
    reporter s' = reporter s.
Proof.
  intros W s.
  pose proof (second_campaign_outcome W 1 s ltac:(lia)) as H.
  cbv zeta in H.
  replace (run_target W getPythonParseObject (calls s)
             [VStr (os_name W (ticks s) ++ ".py")])
    with (@Raise pyval SyntaxError) in H by (vm_compute; reflexivity).
  destruct H as (code & s' & E & _ & Rp). exists code, s'. split; assumption.
Defined.

(** ** When the script ends through [sys.exit] *)

Lemma iterations_of_argv_value (argv : list string) (s : state) :
  exists s',
    iterations_of_argv argv s = (requested_iterations argv, s') /\
    reporter s' = reporter s.
Proof.
  unfold requested_iterations, run.
  destruct argv as [|prog [|arg rest]]; try (exists s; split; reflexivity).
  unfold iterations_of_argv, try_except_ValueError, bind, lift.
  destruct (py_int arg) as [z|e] eqn:E.
  - eexists. split; reflexivity.
  - rewrite (py_int_raises_ValueError arg e E). cbn. eexists. split; reflexivity.
Qed.

(** X9.  What the exit status tells.  Take a run in which the
    targets raise nothing but instances of [Exception] (a
    [SystemExit] or a [KeyboardInterrupt] coming out of a target
    passes every handler of the file and sets the status itself) and
    in which writing to the console and to the files succeeds.  Then
    the process status is 0 or 1, and it is 0 exactly when the imports
    succeeded, no exception left [main], and the reporter counts no
    failure at the end. *)
Theorem exit_status_meaning :
  forall (W : World) (argv : list string),
    (exit_status W argv = 0 \/ exit_status W argv = 1) /\
    (exit_status W argv = 0 <->
     import_error W = None /\
     (exists status, fst (run (script W argv)) = Ok status) /\
     crash_count (reporter (snd (run (script W argv)))) = 0).
Proof.
  intros W argv. destruct (import_error W) as [e|] eqn:Hi.
  - destruct (exit_status_without_imports W argv e Hi) as (-> & _).
    split; [now right|]. split; [discriminate | intros (H & _); discriminate].
  - pose proof (exit_status_after_imports W argv Hi) as H.
    assert (Hs : run (script W argv) = run (main W argv))
      by (unfold run, script; now rewrite Hi).
    rewrite Hs. destruct (run (main W argv)) as [[status|e] s]; cbn [fst snd].
    + destruct H as [(-> & Hc)|(-> & Hc)].
      * split; [now left|]. split; [intros _|reflexivity].
        split; [reflexivity|]. split; [eauto | exact Hc].
      * split; [now right|]. split; [discriminate|]. intros (_ & _ & H0). lia.
    + rewrite H. split; [now right|]. split; [discriminate|].
      intros (_ & (status & Hst) & _). discriminate.
Qed.

(** ** The bug list *)

Lemma apply_call_bug_of_call (self : FuzzReporter) (c : log_call) :
  bugs_found (apply_call self c) = (bugs_found self ++ bug_of_call c)%list.
Proof.
  unfold apply_call, log_test, bug_of_call.
  destruct (call_error c) as [e|]; [destruct (exn_truthy e)|];
    cbn [bugs_found]; rewrite ?app_nil_r; reflexivity.
Qed.

(** X11.  The bug list is a faithful, ordered record of the failing
    calls of [log_test]: after any sequence of calls on a fresh
    reporter it holds, in the order of the calls, one entry for each
    call whose [error] is true -- with the method, the first 100
    characters of the input, the type and message of the exception and
    the traceback of that call -- and nothing else.  No later call
    changes, drops or reorders an entry. *)
Theorem bug_list_records_failing_calls :
  forall (cs more : list log_call),
    bugs_found (after_calls cs) = flat_map bug_of_call cs /\
    bugs_found (after_calls (cs ++ more))
    = (bugs_found (after_calls cs) ++ flat_map bug_of_call more)%list.
Proof.
  assert (H : forall cs, bugs_found (after_calls cs) = flat_map bug_of_call cs).
  { induction cs as [|c cs IH] using rev_ind; [reflexivity|].
    rewrite after_calls_snoc, apply_call_bug_of_call, IH, flat_map_app.
    cbn [flat_map]. now rewrite app_nil_r. }
  intros cs more. split; [apply H|]. now rewrite !H, flat_map_app.
Qed.

(** ** The report file *)

Lemma unreported_ok :
  (forall r : FuzzReporter, (fun _ evs _ => report_file evs = []) r [] r) /\
  (forall (r1 : FuzzReporter) a (r2 : FuzzReporter) b (r3 : FuzzReporter),
      (fun _ evs _ => report_file evs = []) r1 a r2 ->
      (fun _ evs _ => report_file evs = []) r2 b r3 ->
      (fun _ evs _ => report_file evs = []) r1 (a ++ b)%list r3).
Proof.
  split; [reflexivity|]. unfold report_file. intros _ a _ b _ Ha Hb.
  now rewrite flat_map_app, Ha, Hb.
Qed.

Ltac unreported_steps :=
  pose proof unreported_ok;
  adds_step no_block ltac:(adds_event ltac:(exact eq_refl)).

(** Nothing is written to the report before the campaigns are over. *)
Lemma campaigns_write_no_report (W : World) (n : Z) :
  adds (fun _ evs _ => report_file evs = [])
       (print_str (str_mul "=" 80) ;;
        print_str "STARTING FUZZING TESTS" ;;
        print_str (str_mul "=" 80) ;;
        print_str ("Running " ++ str_int n ++ " iterations per method...") ;;
        fuzz_getPythonParseObject W n ;;
        fuzz_checkLoggingPerData W n ;;
        fuzz_days_between W n ;;
        fuzz_getPythonFileCount W n ;;
        fuzz_getDataLoadCount W n ;;
        print_str (nl ++ str_mul "=" 80) ;;
        print_str "FUZZING COMPLETE" ;;
        print_str (str_mul "=" 80)).
Proof.
  unfold fuzz_getPythonParseObject, fuzz_checkLoggingPerData,
    checkLoggingPerData_iteration, fuzz_days_between, days_between_edge_cases,
    fuzz_getPythonFileCount, file_count_iteration, populate_and_count,
    invalid_dirs, fuzz_getDataLoadCount.
  unreported_steps.
Qed.

(** The run is its campaigns, then the report. *)
Lemma run_all_fuzzing_then_report (W : World) (n : Z) (s : state) :
  run_all_fuzzing W n s
  = ((print_str (str_mul "=" 80) ;;
      print_str "STARTING FUZZING TESTS" ;;
      print_str (str_mul "=" 80) ;;
      print_str ("Running " ++ str_int n ++ " iterations per method...") ;;
      fuzz_getPythonParseObject W n ;;
      fuzz_checkLoggingPerData W n ;;
      fuzz_days_between W n ;;
      fuzz_getPythonFileCount W n ;;
      fuzz_getDataLoadCount W n ;;
      print_str (nl ++ str_mul "=" 80) ;;
      print_str "FUZZING COMPLETE" ;;
      print_str (str_mul "=" 80)) ;;
     reporter_generate_report W) s.
Proof.
  unfold run_all_fuzzing, bind, print_str, print.
  repeat match goal with
         | |- context [match ?m ?st with _ => _ end] =>
             lazymatch m with
             | fuzz_getPythonParseObject _ _ => destruct (m st) as [[[]|?] ?]
             | fuzz_checkLoggingPerData _ _ => destruct (m st) as [[[]|?] ?]
             | fuzz_days_between _ _ => destruct (m st) as [[[]|?] ?]
             | fuzz_getPythonFileCount _ _ => destruct (m st) as [[[]|?] ?]
             | fuzz_getDataLoadCount _ _ => destruct (m st) as [[[]|?] ?]
             end
         end; reflexivity.
Qed.

(** A report that is written gives the reporter's total, once. *)
Lemma generate_report_total (W : World) (self : FuzzReporter) (q : Q) :
  success_rate self = Ok q ->
  observes (writes_total (test_count self)) (generate_report W self) [tt].
Proof.
  intros Hq.
  assert (H : exists xs, observes (writes_total (test_count self))
                                  (generate_report W self) xs /\ xs = [tt]).
  { eexists. split.
    - unfold generate_report. rewrite Hq. observe.
    - rewrite !String.eqb_refl.
      destruct (bugs_found self); cbn [app]; rewrite ?concat_repeat_nil; reflexivity. }
  destruct H as (xs & H & ->). exact H.
Qed.

Lemma writes_total_In (n : Z) (evs : list event) :
  flat_map (writes_total n) evs <> [] ->
  In (EvReport (Line ("Total tests executed: " ++ str_int n ++ nl))) evs.
Proof.
  induction evs as [|e evs IH]; [intros H; now elim H|].
  cbn [flat_map]. intros H.
  destruct (writes_total n e) as [|u l] eqn:E.
  - right. apply IH. exact H.
  - left. destruct e as [| | | | | | |[t|q]]; try discriminate E.
    revert E. cbn [writes_total].
    destruct (String.eqb_spec t ("Total tests executed: " ++ str_int n ++ nl))
      as [->|]; [reflexivity | discriminate].
Qed.

(** X12.  The report file and the way [run_all_fuzzing] ends.  Take
    a run in which the targets raise nothing but instances of
    [Exception] and in which writing to the console, to the temporary
    files and to [fuzz_report.txt] succeeds.  When [run_all_fuzzing]
    completes, it has written [fuzz_report.txt], and the file gives
    [5 * max(n, 0) + 24] as the total of the tests executed.
    Otherwise the exception that leaves it is the [UnboundLocalError]
    on [name_to_track] of the second campaign, [n] is positive, and
    nothing has been written to the file, whatever had been logged by
    then: [generate_report] was not reached. *)
Theorem report_written_iff_run_completes :
  forall (W : World) (n : Z),
    match run (run_all_fuzzing W n) with
    | (Ok _, s) =>
        In (EvReport (Line ("Total tests executed: "
                            ++ str_int (5 * Z.max 0 n + 24) ++ nl)))
           (trace s)
    | (Raise e, s) =>
        e = UnboundLocalError "name_to_track" /\ 0 < n /\
        report_file (trace s) = []
    end.
Proof.
  intros W n. unfold run.
  pose proof (run_all_fuzzing_outcome W n initial_state ltac:(cbn; lia)) as Hrun.
  rewrite run_all_fuzzing_then_report in *.
  destruct (campaigns_write_no_report W n initial_state) as (evs & T & F).
  unfold bind at 1 in Hrun. unfold bind at 1.
  match goal with
  | |- context [match ?m initial_state with _ => _ end] =>
      destruct (m initial_state) as [[[]|e] s1]
  end; cbn [snd trace initial_state app] in T.
  - unfold reporter_generate_report, bind, get_reporter in *.
    destruct (success_rate (reporter s1)) as [q|e] eqn:Hq.
    + destruct (generate_report_total W (reporter s1) q Hq s1)
        as ([] & s2 & E & Rp & Ht).
      rewrite E in *. unfold counted in Hrun. destruct Hrun as (Hc & _).
      cbn [reporter initial_state test_count FuzzReporter_init] in Hc.
      replace (5 * Z.max 0 n + 24) with (test_count (reporter s1))
        by (rewrite <- Rp; lia).
      apply writes_total_In.
      rewrite Ht. now destruct (flat_map _ (trace s1)).
    + assert (H0 : test_count (reporter s1) = 0).
      { unfold success_rate, truediv in Hq.
        destruct (test_count (reporter s1) =? 0) eqn:E0; [lia | discriminate]. }
      destruct (generate_report_raises W (reporter s1) s1 H0) as (s2 & E & _).
      rewrite E in Hrun. destruct Hrun as (He & _). discriminate He.
  - destruct Hrun as (He & Hn & _).
    split; [exact He|]. split; [exact Hn|]. rewrite T. exact F.
Qed.

(** ** The second campaign when the parser returns *)

Lemma generate_random_string_some (W : World) (k : Z) (s : state) :
  exists r n,
    generate_random_string W (Some k) s = (Ok r, set_draws n s) /\
    String.length r = range_len k.
Proof.
  unfold generate_random_string, bind, ret.
  destruct (choices_alphabet W (range_len k) s) as (cs & -> & L & _).
  eexists _, _. split; [reflexivity|].
  now rewrite length_string_of_list_ascii.
Qed.

Lemma lookup_head (x : string) (v : pyval) (f : list (string * pyval)) :
  lookup x ((x, v) :: f) = Some v.
Proof. cbn [lookup]. now rewrite String.eqb_refl. Qed.

(** X14.  A pass of the second campaign on a file that the parser
    accepts.  The pass completes.  It creates the file, parses it,
    picks a name -- one of ["data"], ["test_var"], a random string of
    10 characters, the empty string, [None] and [123] -- and keeps it
    in [name_to_track], calls [checkLoggingPerData] once, on the tree
    and that name, logs what this call did under
    ["checkLoggingPerData"], with the name in the input, and unlinks
    the file. *)
Theorem parsed_file_is_checked :
  forall (W : World) (s : state) (tree : pyval),
    run_target W getPythonParseObject (calls s) [VStr (os_name W (ticks s) ++ ".py")]
    = Ok tree ->
    exists (code rs : string) (name : pyval) (s' : state),
      let path := os_name W (ticks s) ++ ".py" in
      let input := "name: " ++ py_str W name ++ ", code: " ++ take 50 code in
      let out := run_target W checkLoggingPerData (S (calls s)) [tree; name] in
      checkLoggingPerData_iteration W s = (Ok tt, s') /\
      (String.length rs = 10)%nat /\
      In name [VStr "data"; VStr "test_var"; VStr rs; VStr ""; VNone; VInt 123] /\
      lookup "name_to_track" (frame s') = Some name /\
      trace s'
      = (trace s
         ++ [EvCreate path code;
             EvCall getPythonParseObject [VStr path] (Ok tree);
             EvCall checkLoggingPerData [tree; name] out;
             EvLog "checkLoggingPerData" input
                   (fst (logged_as out)) (snd (logged_as out));
             EvUnlink path])%list /\
      reporter s'
      = log_test "checkLoggingPerData" input
                 (fst (logged_as out)) (snd (logged_as out))
                 (format_exc W (match out with
                                | Ok _ => handling s
                                | Raise e => Some e
                                end))
                 (reporter s).
Proof.
  intros W s tree Hp. unfold checkLoggingPerData_iteration. unfold bind at 1.
  destruct (quiet_generate_random_python_code W s) as (rc & n & ->).
  unfold bind at 1.
  match goal with
  | |- context [choice W (?x :: ?l) ?st] =>
      destruct (quiet_choice W x l st) as (code & n' & ->)
  end.
  exists code.
  unfold bind at 1, create_temp_python_file.
  unfold try_finally, try_except. unfold bind at 1. unfold call at 1.
  cbn [calls ticks emit set_ticks set_draws]. rewrite Hp.
  unfold bind at 1.
  match goal with
  | |- context [generate_random_string W (Some 10) ?st] =>
      destruct (generate_random_string_some W 10 st) as (rs & n2 & E2 & L2)
  end.
  rewrite E2. exists rs.
  generalize (take 50 code). intros code50.
  unfold bind at 1. unfold choice at 1. unfold bind at 1, draw at 1, ret at 1.
  match goal with
  | |- context [nth ?i ?l ?d] =>
      exists (nth i l d);
      assert (Hin : In (nth i l d) l)
        by (apply nth_In, Nat.mod_upper_bound; discriminate);
      generalize dependent (nth i l d)
  end.
  intros name Hin.
  unfold bind, store, call, load, reporter_log_test, swallow, os_unlink.
  cbn -[log_test py_str String.append lookup In].
  destruct (run_target W checkLoggingPerData (S (calls s)) [tree; name])
    as [v|e] eqn:Ec;
    cbn -[log_test py_str String.append lookup In];
    rewrite ?lookup_head;
    cbn -[log_test py_str String.append lookup In];
    destruct (cleanup_error W (S (ticks s)));
    cbn -[log_test py_str String.append lookup In];
    rewrite ?lookup_head;
    eexists; (split; [reflexivity|]); (split; [exact L2|]);
    (split; [exact Hin|]); (split; [reflexivity|]);
    (split; [cbn [trace emit set_ticks set_handling set_reporter set_calls
                  set_draws set_frame];
             rewrite <- ?app_assoc; reflexivity | reflexivity]).
Qed.

Lemma parsed_file_is_checked_witness :
  let W := world_with calm_targets in
  exists (name : pyval) (s' : state),
    checkLoggingPerData_iteration W initial_state = (Ok tt, s') /\
    lookup "name_to_track" (frame s') = Some name.
Proof.
  intros W.
  destruct (parsed_file_is_checked W initial_state (VObj "<ast.Module object>"))
    as (code & rs & name & s' & E & _ & _ & Hl & _).
  - reflexivity.
  - exists name, s'. split; [exact E | exact Hl].
Defined.

(** ** The count on the command line *)

Lemma digits_value_acc (d : Decimal.uint) (acc : positive) :
  digits_value (list_ascii_of_string (NilEmpty.string_of_uint d)) (Z.pos acc) true
  = Some (Z.pos (Pos.of_uint_acc d acc)).
Proof.
  revert acc. induction d; intros acc; cbn [NilEmpty.string_of_uint
    list_ascii_of_string digits_value Pos.of_uint_acc]; [reflexivity|..];
    change (is_digit _) with true; cbn [andb negb orb]; cbv iota;
    rewrite <- IHd; f_equal; unfold digit_value;
    match goal with
    | |- context [Z.of_nat ?x] =>
        let v := eval vm_compute in (Z.of_nat x) in change (Z.of_nat x) with v
    end; lia.
Qed.

Lemma digits_value_zero (d : Decimal.uint) :
  digits_value (list_ascii_of_string (NilEmpty.string_of_uint d)) 0 true
  = Some (Z.of_N (Pos.of_uint d)).
Proof.
  induction d; cbn [NilEmpty.string_of_uint list_ascii_of_string digits_value
    Pos.of_uint]; [reflexivity|..];
    change (is_digit _) with true; cbv iota;
    first [ exact IHd
          | cbn [Z.of_N]; rewrite <- digits_value_acc; f_equal ].
Qed.

Lemma is_digit_not_space (c : ascii) : is_digit c = true -> is_space c = false.
Proof.
  destruct c as [[] [] [] [] [] [] [] []]; vm_compute; congruence.
Qed.

Lemma lstrip_no_space (l : list ascii) :
  Forall (fun c => is_space c = false) l -> lstrip l = l.
Proof. destruct 1 as [|c l Hc _]; cbn [lstrip]; [reflexivity | now rewrite Hc]. Qed.

Lemma strip_no_space (l : list ascii) :
  Forall (fun c => is_space c = false) l -> strip l = l.
Proof.
  intros H. unfold strip. rewrite (lstrip_no_space l H).
  rewrite lstrip_no_space by (apply Forall_rev; exact H).
  apply rev_involutive.
Qed.

Lemma uint_no_space (d : Decimal.uint) :
  Forall (fun c => is_space c = false)
         (list_ascii_of_string (NilEmpty.string_of_uint d)).
Proof.
  eapply Forall_impl; [|apply string_of_uint_digits].
  intros c. apply is_digit_not_space.
Qed.

Lemma int_literal_uint (d : Decimal.uint) :
  d <> Decimal.Nil ->
  int_literal (list_ascii_of_string (NilEmpty.string_of_uint d))
  = Some (Z.of_N (Pos.of_uint d)) /\
  digits_value (list_ascii_of_string (NilEmpty.string_of_uint d)) 0 false
  = Some (Z.of_N (Pos.of_uint d)).
Proof.
  intros Hd. rewrite <- digits_value_zero.
  destruct d; [now elim Hd | split; reflexivity ..].
Qed.

Lemma strip_str_int (z : Z) :
  strip (list_ascii_of_string (str_int z)) = list_ascii_of_string (str_int z).
Proof.
  destruct z as [|p|p]; [reflexivity|..]; unfold str_int;
    cbn [Z.to_int NilZero.string_of_int]; unfold NilZero.string_of_uint;
    destruct (Pos.to_uint p) eqn:E; try reflexivity; rewrite <- E;
    first [ apply strip_no_space, uint_no_space
          | cbn [list_ascii_of_string]; apply strip_no_space;
            constructor; [reflexivity | apply uint_no_space] ].
Qed.

Lemma int_literal_str_int (z : Z) :
  int_literal (list_ascii_of_string (str_int z)) = Some z.
Proof.
  destruct z as [|p|p]; [reflexivity|..]; unfold str_int;
    cbn [Z.to_int NilZero.string_of_int];
    pose proof (Unsigned.to_uint_nonnil p) as Hn;
    pose proof (Unsigned.of_to p) as Hp;
    unfold NilZero.string_of_uint;
    destruct (Pos.to_uint p) as [|d|d|d|d|d|d|d|d|d|d] eqn:E;
    try (now elim Hn); rewrite <- E in *.
  all: try (rewrite (proj1 (int_literal_uint _ Hn)), Hp; reflexivity).
  all: cbn [list_ascii_of_string int_literal];
    rewrite (proj2 (int_literal_uint _ Hn)), Hp; reflexivity.
Qed.

Lemma length_list_ascii_of_string (t : string) :
  List.length (list_ascii_of_string t) = String.length t.
Proof. induction t as [|c t IH]; cbn; congruence. Qed.

Lemma count_digits_all (t : string) :
  all_digits t -> count_digits (list_ascii_of_string t) = String.length t.
Proof.
  unfold all_digits, count_digits. intros H.
  rewrite <- length_list_ascii_of_string. f_equal.
  induction H as [|c l Hc _ IH]; cbn [filter]; [reflexivity|].
  now rewrite Hc, IH.
Qed.

Lemma str_int_pos_digits (p : positive) : all_digits (str_int (Z.pos p)).
Proof. rewrite <- (positive_nat_Z p). apply str_int_nat_digits. Qed.

(** The digits of the decimal text of [z] are those of [|z|]. *)
Lemma count_digits_str_int (z : Z) :
  count_digits (list_ascii_of_string (str_int z))
  = String.length (str_int (Z.abs z)).
Proof.
  destruct z as [|p|p]; [reflexivity|..]; cbn [Z.abs].
  - apply count_digits_all, str_int_pos_digits.
  - rewrite <- (count_digits_all _ (str_int_pos_digits p)). reflexivity.
Qed.

Lemma py_int_str_int (z : Z) :
  Z.of_nat (String.length (str_int (Z.abs z))) <= int_max_str_digits ->
  py_int (str_int z) = Ok z.
Proof.
  intros H. unfold py_int. cbv zeta.
  rewrite strip_str_int, int_literal_str_int, count_digits_str_int.
  destruct (Z.ltb_spec int_max_str_digits
              (Z.of_nat (String.length (str_int (Z.abs z))))); [lia | reflexivity].
Qed.

(** X13.  The count on the command line is read back as written.
    For every integer [z], zero and the negative ones included, whose
    decimal text has no more digits than [int] accepts (4300 by
    default), that text as the first argument is accepted by [int] and
    the run is asked for exactly [z] iterations; the default of 20 is
    not used and no warning is printed. *)
Theorem decimal_count_is_read_back :
  forall (prog : string) (z : Z) (rest : list string) (s : state),
    Z.of_nat (String.length (str_int (Z.abs z))) <= int_max_str_digits ->
    requested_iterations (prog :: str_int z :: rest) = Ok z /\
    iterations_of_argv (prog :: str_int z :: rest) s
    = (Ok z,
       emit (EvPrint (Line ("Using custom iteration count: " ++ str_int z))) s).
Proof.
  intros prog z rest s Hz.
  unfold requested_iterations, run, iterations_of_argv, try_except_ValueError,
    bind, lift.
  rewrite (py_int_str_int z Hz). split; reflexivity.
Qed.

Lemma decimal_count_is_read_back_witness :
  Z.of_nat (String.length (str_int (Z.abs (-250)))) <= int_max_str_digits /\
  requested_iterations ["fuzz.py"; "-250"] = Ok (-250).
Proof.
  split; [vm_compute; discriminate|].
  apply (decimal_count_is_read_back "fuzz.py" (-250) [] initial_state).
  vm_compute. discriminate.
Defined.

(** ** Where the second campaign starts *)

Lemma moves_ret {A : Type} (a : A) : moves (ret a) 0 0.
Proof. intros s. exists a, s. split; [reflexivity|]. split; lia. Qed.

Lemma moves_bind {A B : Type} (m : M A) (k : A -> M B) (c1 t1 c2 t2 : nat) :
  moves m c1 t1 -> (forall a, moves (k a) c2 t2) ->
  moves (bind m k) (c1 + c2) (t1 + t2).
Proof.
  intros Hm Hk s. destruct (Hm s) as (a & s1 & E1 & C1 & T1).
  destruct (Hk a s1) as (b & s2 & E2 & C2 & T2).
  exists b, s2. unfold bind. rewrite E1, E2. split; [reflexivity|]. split; lia.
Qed.

Lemma moves_eq {A : Type} (m : M A) (c t c' t' : nat) :
  moves m c t -> c = c' -> t = t' -> moves m c' t'.
Proof. now intros H <- <-. Qed.

Lemma moves_quiet {A : Type} (m : M A) : quiet m -> moves m 0 0.
Proof.
  intros H s. destruct (H s) as (a & n & ->). eexists _, _.
  split; [reflexivity|]. cbn. split; lia.
Qed.

Lemma moves_print (t : string) : moves (print_str t) 0 0.
Proof. intros s. eexists _, _. split; [reflexivity|]. cbn. split; lia. Qed.

Lemma moves_create_temp_python_file (W : World) (content : string) :
  moves (create_temp_python_file W content) 0 1.
Proof. intros s. eexists _, _. split; [reflexivity|]. cbn. split; lia. Qed.

Lemma moves_in_new_frame {A : Type} (m : M A) (c t : nat) :
  moves m c t -> moves (in_new_frame m) c t.
Proof.
  intros Hm s. destruct (Hm (set_frame [] s)) as (a & s1 & E & C & T).
  unfold in_new_frame. rewrite E. eexists _, _. split; [reflexivity|].
  cbn [calls ticks set_frame] in *. split; assumption.
Qed.

Lemma moves_for_range (n i : nat) (body : nat -> M unit) (c t : nat) :
  (forall j, moves (body j) c t) -> moves (for_range n i body) (n * c) (n * t).
Proof.
  intros Hb. revert i. induction n as [|n IH]; intros i; cbn [for_range].
  - apply moves_ret.
  - eapply moves_eq; [apply moves_bind; [apply Hb | intros _; apply IH] | lia | lia].
Qed.

Lemma moves_call_and_log (W : World) (op : target) (args : list pyval)
    (method : string) (input : pyval -> string) (input' : string) :
  moves
    (try_except
       (result <- call W op args ;;
        reporter_log_test W method (input result) result None)
       (fun e => reporter_log_test W method input' VNone (Some e)))
    1 0.
Proof.
  intros s. unfold try_except, bind, call, reporter_log_test.
  destruct (run_target W op (calls s) args) as [v|e];
    eexists _, _; (split; [reflexivity|]); cbn; split; lia.
Qed.

Lemma moves_unlink_finally {A : Type} (W : World) (m : M A) (path : string)
    (c t : nat) :
  moves m c t ->
  moves (try_finally m (swallow (os_unlink W path))) c (t + 1).
Proof.
  intros Hm s. destruct (Hm s) as (a & s1 & E & C & T).
  unfold try_finally, swallow, os_unlink. rewrite E.
  destruct (cleanup_error W (ticks s1)); eexists _, _;
    (split; [reflexivity|]); cbn [calls ticks emit set_ticks]; split; lia.
Qed.

(** The first campaign makes one call per random file and per missing
    path, and asks the system for one name and one removal per random
    file. *)
Lemma fuzz_getPythonParseObject_moves (W : World) (n : Z) :
  moves (fuzz_getPythonParseObject W n) (range_len n + 5) (2 * range_len n).
Proof.
  unfold fuzz_getPythonParseObject. apply moves_in_new_frame.
  eapply moves_eq.
  - eapply moves_bind; [apply moves_print | intros _].
    eapply moves_bind.
    + apply moves_for_range. intros _.
      eapply moves_bind;
        [apply moves_quiet, quiet_generate_random_python_code | intros code].
      eapply moves_bind; [apply moves_create_temp_python_file | intros temp_file].
      apply moves_unlink_finally.
      apply (moves_call_and_log W getPythonParseObject _ _ (fun _ => _)).
    + intros _. apply moves_for_range. intros _.
      eapply moves_bind;
        [apply moves_quiet, quiet_generate_random_string | intros r].
      apply (moves_call_and_log W getPythonParseObject _ _ (fun _ => _)).
  - lia.
  - lia.
Qed.

(** The second campaign, with the file that decides. *)
Lemma fuzz_checkLoggingPerData_first_file (W : World) (n : Z) (s : state) :
  match fuzz_checkLoggingPerData W n s with
  | (Ok _, s') => counted (Z.of_nat (range_len n)) s s'
  | (Raise e, s') =>
      0 < n /\
      exists e0,
        run_target W getPythonParseObject (calls s)
                   [VStr (os_name W (ticks s) ++ ".py")] = Raise e0
  end.
Proof.
  unfold fuzz_checkLoggingPerData, in_new_frame, print_str, print.
  unfold bind at 1. unfold range_len.
  destruct (Z.to_nat n) as [|k] eqn:Ek.
  - cbn [for_range ret]. apply counted_same_reporter. reflexivity.
  - cbn [for_range]. unfold bind at 1.
    set (s0 := emit _ (set_frame [] s)).
    pose proof (checkLoggingPerData_iteration_first_file W s0) as H.
    destruct (checkLoggingPerData_iteration W s0) as [[[]|e] s1].
    + destruct H as (C1 & B1).
      destruct (checkLoggingPerData_loop_bound W k 1 s1 B1) as (s2 & -> & C2 & _).
      unfold counted in *. subst s0. cbn [reporter set_frame emit] in *. lia.
    + split; [lia | exact H].
Qed.

(** The run completes when no iteration is asked for, or when the
    parser returns on the first file of the second campaign. *)
Lemma run_all_fuzzing_first_file (W : World) (n : Z) (s : state) :
  0 <= test_count (reporter s) ->
  n <= 0 \/
  (exists tree,
      run_target W getPythonParseObject (calls s + (range_len n + 5))
                 [VStr (os_name W (ticks s + 2 * range_len n) ++ ".py")]
      = Ok tree) ->
  exists s',
    run_all_fuzzing W n s = (Ok tt, s') /\
    counted (5 * Z.max 0 n + 24) s s'.
Proof.
  intros H0 Hc. unfold run_all_fuzzing.
  do 4 (unfold bind at 1, print_str at 1, print at 1).
  match goal with
  | |- context [bind (fuzz_getPythonParseObject W n) _ ?st] => set (s4 := st)
  end.
  unfold bind at 1.
  destruct (fuzz_getPythonParseObject_moves W n s4) as ([] & s5 & E5 & C5 & T5).
  destruct (fuzz_getPythonParseObject_logs W n s4) as ([] & s5' & E5' & L5).
  assert (s5' = s5) by congruence. subst s5'. rewrite E5.
  subst s4. cbn [calls ticks reporter emit] in C5, T5, L5.
  assert (Hn : Z.of_nat (range_len n) = Z.max 0 n) by (unfold range_len; lia).
  unfold bind at 1.
  pose proof (fuzz_checkLoggingPerData_first_file W n s5) as H6.
  destruct (fuzz_checkLoggingPerData W n s5) as [[[]|e] s6].
  - step_logs tt ltac:(fun _ => apply fuzz_days_between_logs).
    step_logs tt ltac:(fun _ => apply fuzz_getPythonFileCount_logs).
    step_logs tt ltac:(fun _ => apply fuzz_getDataLoadCount_logs).
    do 3 step_logs tt ltac:(fun _ => apply logs_print).
    unfold counted in *. cbn [reporter emit] in *.
    match goal with
    | |- context [reporter_generate_report W ?st] =>
        destruct (reporter_generate_report_logs W st ltac:(lia)) as (s13 & -> & R)
    end.
    eexists. split; [reflexivity|]. rewrite R. lia.
  - destruct H6 as (Hpos & e0 & He). destruct Hc as [Hc|(tree & Ht)]; [lia|].
    rewrite C5, T5 in He. congruence.
Qed.

Lemma iterations_of_argv_cursors (argv : list string) (s : state) :
  calls (snd (iterations_of_argv argv s)) = calls s /\
  ticks (snd (iterations_of_argv argv s)) = ticks s.
Proof.
  destruct argv as [|prog [|arg rest]]; try (split; reflexivity).
  unfold iterations_of_argv, try_except_ValueError, bind, lift.
  destruct (py_int arg) as [z|e] eqn:E; [split; reflexivity|].
  rewrite (py_int_raises_ValueError arg e E). split; reflexivity.
Qed.

(** X10.  When the script is sure to end through [sys.exit].  Let [n]
    be the count asked for.  The second campaign parses its first file
    as the call number [max(n, 0) + 5] of the run, and the file bears
    the name number [2 * max(n, 0)] that the system hands out.  When
    [n <= 0], or when the parser returns on that file -- whatever it
    does on every other file, raising on the missing paths
    included -- the script ends through [sys.exit]: exactly
    [5 * max(n, 0) + 24] outcomes have been logged, the 24 fixed
    inputs alone when [n <= 0], and the status is 0 when no failure
    was logged and 1 otherwise. *)
Theorem script_completes :
  forall (W : World) (argv : list string) (n : Z),
    import_error W = None ->
    requested_iterations argv = Ok n ->
    n <= 0 \/
    (exists tree,
        run_target W getPythonParseObject (range_len n + 5)
                   [VStr (os_name W (2 * range_len n) ++ ".py")] = Ok tree) ->
    exists (status : Z) (s : state),
      run (script W argv) = (Ok status, s) /\
      test_count (reporter s) = 5 * Z.max 0 n + 24 /\
      ((status = 0 /\ crash_count (reporter s) = 0) \/
       (status = 1 /\ 0 < crash_count (reporter s))).
Proof.
  intros W argv n Hi Hn Hc. unfold run, script. rewrite Hi. unfold main.
  unfold bind at 1, print_str at 1, print at 1. unfold bind at 1.
  match goal with
  | |- context [iterations_of_argv argv ?st] =>
      destruct (iterations_of_argv_cursors argv st) as (C1 & T1);
      destruct (iterations_of_argv_value argv st) as (s1 & E1 & R1)
  end.
  rewrite E1 in *. cbn [snd calls ticks emit initial_state] in C1, T1.
  rewrite Hn. unfold bind at 1, Fuzzer_init. unfold bind at 1.
  match goal with
  | |- context [run_all_fuzzing W n ?st] =>
      destruct (run_all_fuzzing_first_file W n st) as (s2 & -> & Hrun)
  end.
  - cbn. lia.
  - cbn [calls ticks set_reporter]. rewrite C1, T1. exact Hc.
  - unfold counted in Hrun.
    cbn [reporter set_reporter test_count crash_count FuzzReporter_init] in Hrun.
    unfold bind, print_str, print, get_reporter.
    cbn [reporter emit].
    destruct (0 <? crash_count (reporter s2)) eqn:Ec;
      [apply Z.ltb_lt in Ec | apply Z.ltb_ge in Ec];
      eexists _, _; (split; [reflexivity|]); cbn [reporter emit];
      (split; [lia|]); [right | left]; (split; [reflexivity | lia]).
Qed.

Lemma script_completes_witness :
  let W := world_with strict_parser in
  exists (status : Z) (s : state),
    run (script W ["fuzz.py"; "2"]) = (Ok status, s) /\
    test_count (reporter s) = 34 /\
    ((status = 0 /\ crash_count (reporter s) = 0) \/
     (status = 1 /\ 0 < crash_count (reporter s))).
Proof.
  intros W.
  apply (script_completes W ["fuzz.py"; "2"] 2).
  - reflexivity.
  - vm_compute. reflexivity.
  - right. exists (VObj "<ast.Module object>"). vm_compute. reflexivity.
Defined.
